(** * Job screening dashboard: a model of the React client and of the
      evaluation contract it consumes

    The development follows the TypeScript sources: [types/index.ts] for the
    data model, [lib/api.ts] and [context/AuthContext.tsx] for the token
    storage, and [pages/JobsPage.tsx] for the browsing, submission and
    polling logic.  JavaScript values are modelled as the language defines
    them: strings are sequences of UTF-16 code units, numbers are IEEE 754
    binary64 values, optional members are either missing, [null] or
    defined. *)

From Stdlib Require Import ZArith NArith List Bool Lia String Ascii.
From Stdlib Require Import Floats.SpecFloat.
From stdpp Require Import base option list gmap.

Local Open Scope Z_scope.

(** ** The JavaScript runtime *)

Module Js.

(** A JavaScript string: its UTF-16 code units. *)
Abbreviation jsstring := (list N).

(** A string literal of the source (ASCII only). *)
Definition lit (s : string) : jsstring :=
  map N_of_ascii (list_ascii_of_string s).

(** A member declared [x?: T | null]. *)
Inductive nullable (A : Type) : Type :=
  | Undefined
  | Null
  | Def (a : A).
Arguments Undefined {A}.
Arguments Null {A}.
Arguments Def {A} a.

(** The member is there and not [null]. *)
Definition present {A} (x : nullable A) : bool :=
  match x with
  | Def _ => true
  | _ => false
  end.

(** ToBoolean on a string: only the empty string is falsy. *)
Definition truthy_string (s : jsstring) : bool :=
  match s with
  | [] => false
  | _ :: _ => true
  end.

(** ToBoolean on an optional string. *)
Definition truthy_nstring (s : nullable jsstring) : bool :=
  match s with
  | Def s => truthy_string s
  | _ => false
  end.

(** ToBoolean on an integer-valued number that may be [null]. *)
Definition truthy_id (n : option Z) : bool :=
  match n with
  | Some n => negb (n =? 0)
  | None => false
  end.

(** WhiteSpace and LineTerminator code points, as [String.prototype.trim]
    strips them. *)
Definition is_whitespace (c : N) : bool :=
  (((9 <=? c) && (c <=? 13)) || (c =? 32) || (c =? 160) || (c =? 5760)
   || ((8192 <=? c) && (c <=? 8202)) || (c =? 8232) || (c =? 8233)
   || (c =? 8239) || (c =? 8287) || (c =? 12288) || (c =? 65279))%N.

Fixpoint trimStart (s : jsstring) : jsstring :=
  match s with
  | c :: s' => if is_whitespace c then trimStart s' else s
  | [] => []
  end.

Definition trimEnd (s : jsstring) : jsstring := rev (trimStart (rev s)).

Definition trim (s : jsstring) : jsstring := trimEnd (trimStart s).

(** [needle] is a prefix of [hay]. *)
Fixpoint startsWith (hay needle : jsstring) {struct needle} : bool :=
  match needle, hay with
  | [], _ => true
  | a :: needle', b :: hay' => (a =? b)%N && startsWith hay' needle'
  | _ :: _, [] => false
  end.

(** [String.prototype.includes]: [needle] occurs somewhere in [hay]. *)
Fixpoint includes (hay needle : jsstring) : bool :=
  startsWith hay needle ||
  match hay with
  | [] => false
  | _ :: hay' => includes hay' needle
  end.

(** [Array.prototype.slice(start, end)] with its relative-index rules. *)
Definition slice {A} (l : list A) (start stop : Z) : list A :=
  let len := Z.of_nat (length l) in
  let k := if start <? 0 then Z.max (len + start) 0 else Z.min start len in
  let final := if stop <? 0 then Z.max (len + stop) 0 else Z.min stop len in
  take (Z.to_nat (final - k)) (drop (Z.to_nat k) l).

(** [String.prototype.toUpperCase] on a string of ASCII characters. *)
Definition toUpperCase_ascii (s : jsstring) : jsstring :=
  map (fun c => if (97 <=? c) && (c <=? 122) then c - 32 else c)%N s.

(** *** Numbers *)

(** A Number is a binary64 value. *)
Abbreviation number := spec_float.

Definition prec : Z := 53.
Definition emax : Z := 1024.

(** The Number value for a mathematical integer. *)
Definition of_Z (z : Z) : number := binary_normalize prec emax z 0 false.

Definition num_mul (x y : number) : number := SFmul prec emax x y.
(** [x <= y] and [x > y]; both are false when an operand is NaN. *)
Definition num_le (x y : number) : bool := SFleb x y.
Definition num_gt (x y : number) : bool := SFltb y x.

(** [Math.round]: the nearest integer, ties towards +Infinity; an argument
    in [-0.5, 0) gives -0. *)
Definition Math_round (x : number) : number :=
  match x with
  | S754_finite s m e =>
      if 0 <=? e then x
      else
        let signed := if s then Z.neg m else Z.pos m in
        let r := (2 * signed + 2 ^ (- e)) / 2 ^ (- e + 1) in
        if r =? 0 then S754_zero s else of_Z r
  | _ => x
  end.

(** Decimal digits of a non-negative integer. *)
Fixpoint digits_fuel (fuel : nat) (n : Z) (acc : jsstring) : jsstring :=
  match fuel with
  | O => acc
  | S fuel' =>
      let acc' := (48 + Z.to_N (n mod 10))%N :: acc in
      if n <? 10 then acc' else digits_fuel fuel' (n / 10) acc'
  end.

Definition digits (n : Z) : jsstring :=
  digits_fuel (S (Z.to_nat (Z.log2 n))) n [].

(** An exact real [coef * 2^exp2 * 10^exp10], to compare binary values with
    decimal ones without rounding. *)
Record sci := { coef : Z; exp2 : Z; exp10 : Z }.

Definition sci_compare (x y : sci) : comparison :=
  let a := Z.min (exp2 x) (exp2 y) in
  let b := Z.min (exp10 x) (exp10 y) in
  (coef x * 2 ^ (exp2 x - a) * 10 ^ (exp10 x - b)
   ?= coef y * 2 ^ (exp2 y - a) * 10 ^ (exp10 y - b)).

Definition sci_ltb (x y : sci) : bool :=
  match sci_compare x y with Lt => true | _ => false end.
Definition sci_eqb (x y : sci) : bool :=
  match sci_compare x y with Eq => true | _ => false end.

(** The decimal [s * 10^(n - k)] converts back to the binary64 value
    [m * 2^e] under round-to-nearest-even: it lies strictly between the
    midpoints to the neighbouring values, or on one of them when [m] is
    even. *)
Definition rounds_to (m : positive) (e : Z) (s n k : Z) : bool :=
  let v := {| coef := s; exp2 := 0; exp10 := n - k |} in
  let below :=
    if (Z.pos m =? 2 ^ (prec - 1)) && (3 - emax - prec <? e) then 1 else 2 in
  let lo := {| coef := 4 * Z.pos m - below; exp2 := e - 2; exp10 := 0 |} in
  let hi := {| coef := 4 * Z.pos m + 2; exp2 := e - 2; exp10 := 0 |} in
  (sci_ltb lo v && sci_ltb v hi)
  || (Z.even (Z.pos m) && (sci_eqb lo v || sci_eqb v hi)).

(** The least [n] with [m * 2^e < 10^n], searched upwards from [n]. *)
Fixpoint decimal_order (fuel : nat) (m : positive) (e n : Z) : Z :=
  match fuel with
  | O => n
  | S fuel' =>
      if sci_ltb {| coef := Z.pos m; exp2 := e; exp10 := 0 |}
                 {| coef := 1; exp2 := 0; exp10 := n |}
      then n
      else decimal_order fuel' m e (n + 1)
  end.

(** The shortest decimal [(s, n, k)] with [k] digits [s] and value
    [s * 10^(n - k)] that converts back to [m * 2^e]; of two candidates of
    the same length the one closer to the value, the even one on a tie. *)
Fixpoint shortest (fuel : nat) (m : positive) (e n0 k : Z) : Z * Z * Z :=
  let q := n0 - k in
  let a := (Z.pos m * 2 ^ Z.max e 0 * 10 ^ Z.max (- q) 0)
           / (2 ^ Z.max (- e) 0 * 10 ^ Z.max q 0) in
  let up := if a + 1 <? 10 ^ k then (a + 1, n0, k) else (10 ^ (k - 1), n0 + 1, k) in
  let down_ok := rounds_to m e a n0 k in
  let up_ok := let '(s, n, _) := up in rounds_to m e s n k in
  match fuel with
  | O => (a, n0, k)
  | S fuel' =>
      if down_ok && up_ok then
        match sci_compare {| coef := 2 * Z.pos m; exp2 := e; exp10 := 0 |}
                          {| coef := 2 * a + 1; exp2 := 0; exp10 := q |} with
        | Lt => (a, n0, k)
        | Gt => up
        | Eq => if Z.even a then (a, n0, k) else up
        end
      else if down_ok then (a, n0, k)
      else if up_ok then up
      else shortest fuel' m e n0 (k + 1)
  end.

Definition zeros (n : Z) : jsstring := repeat 48%N (Z.to_nat n).

(** Number::toString in radix 10 for a positive finite value. *)
Definition finite_toString (m : positive) (e : Z) : jsstring :=
  let bits := Z.pos (digits2_pos m) + e in
  let n0 := decimal_order 6 m e ((bits - 1) * 1233 / 4096 - 1) in
  let '(s, n, k) := shortest 17 m e n0 1 in
  let ds := digits s in
  if (k <=? n) && (n <=? 21) then ds ++ zeros (n - k)
  else if (0 <? n) && (n <=? 21) then
    take (Z.to_nat n) ds ++ lit "." ++ drop (Z.to_nat n) ds
  else if (-6 <? n) && (n <=? 0) then lit "0." ++ zeros (- n) ++ ds
  else
    let ex := lit "e" ++ (if n - 1 <? 0 then lit "-" else lit "+")
              ++ digits (Z.abs (n - 1)) in
    if k =? 1 then ds ++ ex
    else take 1 ds ++ lit "." ++ drop 1 ds ++ ex.

(** Number::toString, as a template literal applies it. *)
Definition Number_toString (x : number) : jsstring :=
  match x with
  | S754_nan => lit "NaN"
  | S754_zero _ => lit "0"
  | S754_infinity s => if s then lit "-Infinity" else lit "Infinity"
  | S754_finite s m e =>
      (if s then lit "-" else []) ++ finite_toString m e
  end.

End Js.

(** ** The data model ([types/index.ts]) *)

Module Types.
Import Js.

(** A JSON value as it travels in a request body. *)
Inductive jsval :=
  | JNull
  | JNumber (x : number)
  | JString (s : jsstring).

Record JobSummary := {
  id : Z;
  job_code : jsstring;
  title : jsstring;
  location : nullable jsstring;
  salary_range : nullable jsstring;
  created_at : jsstring
}.

(** [JobDetail = JobSummary & { description; requirements }]. *)
Record JobDetail := {
  summary :> JobSummary;
  description : jsstring;
  requirements : jsstring
}.

Record DocumentUploadResponse := {
  cv_document_id : jsstring;
  project_document_id : jsstring
}.

Record EvaluationResult := {
  cv_match_rate : number;
  cv_feedback : jsstring;
  project_score : number;
  project_feedback : jsstring;
  overall_summary : jsstring;
  cv_parameter_scores : nullable (list (jsstring * number));
  project_parameter_scores : nullable (list (jsstring * number));
  raw_context : nullable (list (jsstring * jsval))
}.

Inductive Status := queued | processing | completed | failed.

Record EvaluationStatus := {
  eval_id : jsstring;
  status : Status;
  result : nullable EvaluationResult;
  error : nullable jsstring;
  queued_at : nullable jsstring;
  started_at : nullable jsstring;
  finished_at : nullable jsstring
}.

Record ApplicationItem := {
  app_id : Z;
  app_job_id : nullable Z;
  job_title : jsstring;
  app_status : jsstring;
  app_created_at : jsstring;
  evaluation_result : nullable EvaluationResult
}.

Record AuthTokens := {
  access : jsstring;
  refresh : jsstring
}.

End Types.

(** ** Token storage ([lib/api.ts]) *)

Module Api.
Import Js.

(** [window.localStorage]: a map from keys to string values. *)
Abbreviation storage := (gmap jsstring jsstring).

Definition getItem (k : jsstring) (ls : storage) : option jsstring := ls !! k.
Definition setItem (k v : jsstring) (ls : storage) : storage := <[k := v]> ls.
Definition removeItem (k : jsstring) (ls : storage) : storage := delete k ls.

Definition accessToken : jsstring := lit "accessToken".
Definition refreshToken : jsstring := lit "refreshToken".
Definition userEmailKey : jsstring := lit "userEmail".

Definition clearAuthHeaders (ls : storage) : storage :=
  removeItem refreshToken (removeItem accessToken ls).

(** The request interceptor, as far as it decides: the value it sets for
    the [Authorization] header of an outgoing request, if it sets one. *)
Definition authorization (ls : storage) : option jsstring :=
  match getItem accessToken ls with
  | Some token =>
      if truthy_string token then Some (lit "Bearer " ++ token) else None
  | None => None
  end.

End Api.

(** ** The authentication context ([context/AuthContext.tsx]) *)

Module AuthContext.
Import Js Types Api.

(** The provider's two state cells and the storage it writes through to. *)
Record auth := {
  tokens : option AuthTokens;
  userEmail : option jsstring;
  localStorage : storage
}.

(** The lazy initial state, read from storage when the provider mounts. *)
Definition initial (ls : storage) : auth :=
  {| tokens :=
       match getItem accessToken ls, getItem refreshToken ls with
       | Some a, Some r =>
           if truthy_string a && truthy_string r
           then Some {| access := a; refresh := r |}
           else None
       | _, _ => None
       end;
     userEmail := getItem userEmailKey ls;
     localStorage := ls |}.

(** [login(nextTokens, email?)]; a missing [email] is [None]. *)
Definition login (nextTokens : AuthTokens) (email : option jsstring)
    (a : auth) : auth :=
  let ls := setItem refreshToken (refresh nextTokens)
              (setItem accessToken (access nextTokens) (localStorage a)) in
  match email with
  | Some e =>
      if truthy_string e
      then {| tokens := Some nextTokens;
              userEmail := Some e;
              localStorage := setItem userEmailKey e ls |}
      else {| tokens := Some nextTokens;
              userEmail := userEmail a;
              localStorage := ls |}
  | None =>
      {| tokens := Some nextTokens;
         userEmail := userEmail a;
         localStorage := ls |}
  end.

Definition logout (a : auth) : auth :=
  {| tokens := None;
     userEmail := None;
     localStorage :=
       removeItem userEmailKey
         (removeItem refreshToken
            (removeItem accessToken (clearAuthHeaders (localStorage a)))) |}.

(** [Boolean(tokens?.access)]. *)
Definition isAuthenticated (a : auth) : bool :=
  match tokens a with
  | Some t => truthy_string (access t)
  | None => false
  end.

(** A use of the context by one of its consumers. *)
Inductive call :=
  | Login (nextTokens : AuthTokens) (email : option jsstring)
  | Logout.

Definition apply_call (c : call) (a : auth) : auth :=
  match c with
  | Login nextTokens email => login nextTokens email a
  | Logout => logout a
  end.

(** The context after a sequence of calls, oldest first. *)
Definition after (cs : list call) (a : auth) : auth :=
  fold_left (fun a c => apply_call c a) cs a.

End AuthContext.

(** ** The dashboard ([pages/JobsPage.tsx]) *)

Module JobsPage.
Import Js Types.

Definition PAGE_SIZE : Z := 5.

(** The members of the [Status] union as the strings they are. *)
Definition status_name (s : Status) : jsstring :=
  match s with
  | queued => lit "queued"
  | processing => lit "processing"
  | completed => lit "completed"
  | failed => lit "failed"
  end.

Definition statusBadge : list (jsstring * jsstring) :=
  [ (lit "queued", lit "badge badge--neutral");
    (lit "processing", lit "badge badge--warning");
    (lit "completed", lit "badge badge--success");
    (lit "failed", lit "badge badge--danger") ].

(** Own-property lookup in an object literal. *)
Fixpoint property (o : list (jsstring * jsstring)) (key : jsstring)
    : option jsstring :=
  match o with
  | [] => None
  | (k, v) :: o' => if bool_decide (k = key) then Some v else property o' key
  end.

(** [statusBadge[key] || "badge"], for a key that names no member of
    [Object.prototype]: the lookup here is that of the object's own
    properties, which is the lookup of the code on the names of the
    statuses. *)
Definition badge_class (key : jsstring) : jsstring :=
  match property statusBadge key with
  | Some c => if truthy_string c then c else lit "badge"
  | None => lit "badge"
  end.

Definition formatMatchRate (value : nullable number) : jsstring :=
  match value with
  | Undefined | Null => lit "N/A"
  | Def value =>
      if num_le value (of_Z 1)
      then Number_toString (Math_round (num_mul value (of_Z 100))) ++ lit "%"
      else Number_toString value ++ lit "%"
  end.

(** *** Browsing: filter and pagination *)

Record view := {
  jobs : list JobSummary;
  searchTitle : jsstring;
  searchLocation : jsstring;
  currentPage : Z
}.

Definition set_currentPage (p : Z) (v : view) : view :=
  {| jobs := jobs v; searchTitle := searchTitle v;
     searchLocation := searchLocation v; currentPage := p |}.

Section Browsing.

(** [String.prototype.toLowerCase], the case mapping of the runtime. *)
Variable toLowerCase : jsstring -> jsstring.

(** [job.location || ""]. *)
Definition location_or_empty (job : JobSummary) : jsstring :=
  match location job with
  | Def l => l
  | _ => []
  end.

Definition matches (v : view) (job : JobSummary) : bool :=
  let titleMatch :=
    includes (toLowerCase (title job)) (toLowerCase (searchTitle v)) in
  let locationMatch :=
    includes (toLowerCase (location_or_empty job))
             (toLowerCase (searchLocation v)) in
  titleMatch && locationMatch.

Definition filteredJobs (v : view) : list JobSummary :=
  List.filter (matches v) (jobs v).

(** [Math.max(1, Math.ceil(filteredJobs.length / PAGE_SIZE))]; the quotient
    of an array length by 5 is exact enough in binary64 for its ceiling to
    be the integer ceiling. *)
Definition totalPages (v : view) : Z :=
  Z.max 1 ((Z.of_nat (length (filteredJobs v)) + PAGE_SIZE - 1) / PAGE_SIZE).

Definition paginatedJobs (v : view) : list JobSummary :=
  let start := (currentPage v - 1) * PAGE_SIZE in
  slice (filteredJobs v) start (start + PAGE_SIZE).

(** The page is within range. *)
Definition in_range (v : view) : Prop :=
  1 <= currentPage v <= totalPages v.

(** What the user and the network do to the browsing state. *)
Inductive action :=
  | TypeTitle (s : jsstring)
  | TypeLocation (s : jsstring)
  | ClearFilters
  | JobsLoaded (data : list JobSummary)
  | Previous
  | Next.

(** The event handlers.  A disabled button does not fire. *)
Definition handle (a : action) (v : view) : view :=
  match a with
  | TypeTitle s =>
      {| jobs := jobs v; searchTitle := s;
         searchLocation := searchLocation v; currentPage := currentPage v |}
  | TypeLocation s =>
      {| jobs := jobs v; searchTitle := searchTitle v;
         searchLocation := s; currentPage := currentPage v |}
  | ClearFilters =>
      {| jobs := jobs v; searchTitle := [];
         searchLocation := []; currentPage := currentPage v |}
  | JobsLoaded data =>
      {| jobs := data; searchTitle := searchTitle v;
         searchLocation := searchLocation v; currentPage := currentPage v |}
  | Previous =>
      if currentPage v =? 1 then v
      else set_currentPage (Z.max 1 (currentPage v - 1)) v
  | Next =>
      if totalPages v <=? currentPage v then v
      else set_currentPage (Z.min (totalPages v) (currentPage v + 1)) v
  end.

(** The effects that run after the render [cur], which follows the render
    [prev].  An effect runs when one of its dependencies changed; it reads
    the values of the render it belongs to, and of two queued
    [setCurrentPage] calls the later one (the clamp) wins. *)
Definition effects (prev cur : view) : view :=
  let search_changed :=
    negb (bool_decide (searchTitle prev = searchTitle cur))
    || negb (bool_decide (searchLocation prev = searchLocation cur)) in
  let page_changed :=
    negb (currentPage prev =? currentPage cur)
    || negb (totalPages prev =? totalPages cur) in
  if page_changed && (totalPages cur <? currentPage cur)
  then set_currentPage (totalPages cur) cur
  else if search_changed then set_currentPage 1 cur
  else cur.

(** Renders and effect passes alternate until a pass leaves the state as it
    is; [None] when the fuel runs out first. *)
Fixpoint settle (fuel : nat) (prev cur : view) : option view :=
  let next := effects prev cur in
  if currentPage next =? currentPage cur then Some cur
  else
    match fuel with
    | O => None
    | S fuel' => settle fuel' cur next
    end.

Definition dispatch (a : action) (v : view) : option view :=
  settle 2 v (handle a v).

(** The state after mounting: no jobs yet, empty filters, first page. *)
Definition mounted : view :=
  {| jobs := []; searchTitle := []; searchLocation := []; currentPage := 1 |}.

Fixpoint run (acts : list action) (v : view) : option view :=
  match acts with
  | [] => Some v
  | a :: acts' =>
      match dispatch a v with
      | Some v' => run acts' v'
      | None => None
      end
  end.

End Browsing.

(** *** Evaluation: submission, polling and the result card *)

(** An attached file; only its identity matters here. *)
Record File := { file_name : jsstring }.

Inductive body :=
  | Json (members : list (string * jsval))
  | FormData (parts : list (string * File)).

(** The timer callback: the [poll] closure of [pollResult(jobId)]. *)
Inductive callback := Poll (jobId : jsstring).

Inductive level := toast_error | toast_info | toast_success.

(** What the component does to the outside world, in program order.  A
    request is recorded with its URL and its body; the multipart
    content type of the upload goes with its [FormData] body. *)
Inductive effect :=
  | toast (l : level) (message : jsstring)
  | post (url : jsstring) (b : body)
  | get (url : jsstring)
  | setTimeout (cb : callback) (ms : Z)
  | clearTimeout (handle : Z)
  | console_error.

(** The settled promise of a request. *)
Inductive reply (A : Type) :=
  | Resolved (data : A)
  | Rejected.
Arguments Resolved {A} data.
Arguments Rejected {A}.

(** The state cells the evaluation panel reads and writes, with
    [isAuthenticated] as the auth context provides it. *)
Record page := {
  isAuthenticated : bool;
  selectedJobId : option Z;
  jobDetail : option JobDetail;
  applications : list ApplicationItem;
  cvFile : option File;
  projectFile : option File;
  customJobTitle : jsstring;
  isEvaluating : bool;
  evaluationStatus : option EvaluationStatus;
  pollRef : option Z
}.

Definition setApplications (x : list ApplicationItem) (st : page) : page :=
  {| isAuthenticated := isAuthenticated st; selectedJobId := selectedJobId st;
     jobDetail := jobDetail st; applications := x; cvFile := cvFile st;
     projectFile := projectFile st; customJobTitle := customJobTitle st;
     isEvaluating := isEvaluating st; evaluationStatus := evaluationStatus st;
     pollRef := pollRef st |}.

Definition setIsEvaluating (x : bool) (st : page) : page :=
  {| isAuthenticated := isAuthenticated st; selectedJobId := selectedJobId st;
     jobDetail := jobDetail st; applications := applications st;
     cvFile := cvFile st; projectFile := projectFile st;
     customJobTitle := customJobTitle st; isEvaluating := x;
     evaluationStatus := evaluationStatus st; pollRef := pollRef st |}.

Definition setEvaluationStatus (x : option EvaluationStatus) (st : page)
    : page :=
  {| isAuthenticated := isAuthenticated st; selectedJobId := selectedJobId st;
     jobDetail := jobDetail st; applications := applications st;
     cvFile := cvFile st; projectFile := projectFile st;
     customJobTitle := customJobTitle st; isEvaluating := isEvaluating st;
     evaluationStatus := x; pollRef := pollRef st |}.

Definition setCustomJobTitle (x : jsstring) (st : page) : page :=
  {| isAuthenticated := isAuthenticated st; selectedJobId := selectedJobId st;
     jobDetail := jobDetail st; applications := applications st;
     cvFile := cvFile st; projectFile := projectFile st;
     customJobTitle := x; isEvaluating := isEvaluating st;
     evaluationStatus := evaluationStatus st; pollRef := pollRef st |}.

Definition setPollRef (x : option Z) (st : page) : page :=
  {| isAuthenticated := isAuthenticated st; selectedJobId := selectedJobId st;
     jobDetail := jobDetail st; applications := applications st;
     cvFile := cvFile st; projectFile := projectFile st;
     customJobTitle := customJobTitle st; isEvaluating := isEvaluating st;
     evaluationStatus := evaluationStatus st; pollRef := x |}.

Definition resetPolling (st : page) : page * list effect :=
  match pollRef st with
  | Some h =>
      if truthy_id (Some h) then (setPollRef None st, [clearTimeout h])
      else (st, [])
  | None => (st, [])
  end.

(** [fetchApplications], with the [isAuthenticated] its closure captured
    and the reply its request gets. *)
Definition fetchApplications (authenticated : bool)
    (r : reply (list ApplicationItem)) (st : page) : page * list effect :=
  if negb authenticated then (setApplications [] st, [])
  else
    match r with
    | Resolved data => (setApplications data st, [get (lit "/applications/")])
    | Rejected =>
        (st, [get (lit "/applications/"); console_error;
              toast toast_error (lit "Failed to load applications.")])
    end.

Definition result_url (jobId : jsstring) : jsstring :=
  lit "/evaluation/result/" ++ jobId.

(** What one run of [poll] meets: the reply to its status request, the
    reply to the applications request it may issue, and the handle
    [window.setTimeout] would return. *)
Record tick := {
  result_reply : reply EvaluationStatus;
  applications_reply : reply (list ApplicationItem);
  timer : Z
}.

Definition terminal (s : Status) : bool :=
  match s with
  | completed | failed => true
  | _ => false
  end.

(** One run of [poll]; the boolean tells whether it scheduled itself
    again. *)
Definition poll (jobId : jsstring) (authenticated : bool) (i : tick)
    (st : page) : page * list effect * bool :=
  match result_reply i with
  | Resolved data =>
      let st := setEvaluationStatus (Some data) st in
      if terminal (status data) then
        let st := setIsEvaluating false st in
        let '(st, refreshed) :=
          fetchApplications authenticated (applications_reply i) st in
        let st := setPollRef None st in
        let announced :=
          match status data with
          | completed => [toast toast_success (lit "Evaluation completed.")]
          | _ =>
              match error data with
              | Def e => if truthy_string e then [toast toast_error e] else []
              | _ => []
              end
          end in
        (st, get (result_url jobId) :: refreshed ++ announced, false)
      else
        (setPollRef (Some (timer i)) st,
         [get (result_url jobId); setTimeout (Poll jobId) 4000], true)
  | Rejected =>
      (setIsEvaluating false st,
       [get (result_url jobId); console_error;
        toast toast_error (lit "Failed to poll evaluation result.")], false)
  end.

(** [pollResult(jobId)]: [poll] runs once at once and then each time its
    timer fires, one [tick] per run; the list ends where the observation
    does. *)
Fixpoint pollResult (jobId : jsstring) (authenticated : bool)
    (ticks : list tick) (st : page) : page * list effect :=
  match ticks with
  | [] => (st, [])
  | i :: ticks' =>
      let '(st, done, again) := poll jobId authenticated i st in
      if again then
        let '(st, later) := pollResult jobId authenticated ticks' st in
        (st, done ++ later)
      else (st, done)
  end.

(** [(selectedJobId && jobDetail?.title) || customJobTitle.trim()]. *)
Definition jobTitle (st : page) : jsstring :=
  let picked :=
    if truthy_id (selectedJobId st)
    then option_map (fun d : JobDetail => title d) (jobDetail st)
    else None in
  match picked with
  | Some t => if truthy_string t then t else trim (customJobTitle st)
  | None => trim (customJobTitle st)
  end.

Definition job_id_value (n : option Z) : jsval :=
  match n with
  | Some n => JNumber (of_Z n)
  | None => JNull
  end.

Definition upload_url : jsstring := lit "/applications/upload".
Definition evaluate_url : jsstring := lit "/evaluation/evaluate".

Definition evaluate_body (st : page) (uploaded : DocumentUploadResponse)
    : body :=
  Json [ ("job_title", JString (jobTitle st));
         ("job_id", job_id_value (selectedJobId st));
         ("cv_document_id", JString (cv_document_id uploaded));
         ("project_document_id", JString (project_document_id uploaded)) ]%string.

(** What one click on "Run evaluation" meets. *)
Record submission := {
  upload_reply : reply DocumentUploadResponse;
  evaluate_reply : reply EvaluationStatus;
  ticks : list tick
}.

Definition handleEvaluate (env : submission) (st : page)
    : page * list effect :=
  if negb (isAuthenticated st) then
    (st, [toast toast_error (lit "Please login to run evaluations.")])
  else
    match cvFile st, projectFile st with
    | Some cv, Some project =>
        if negb (truthy_string (jobTitle st)) then
          (st, [toast toast_error
                  (lit "Provide a job title or pick a job first.")])
        else
          let '(st1, cleared) := resetPolling (setIsEvaluating true st) in
          let upload :=
            post upload_url
              (FormData [("cv", cv); ("project_report", project)]%string) in
          let failure :=
            [console_error;
             toast toast_error (lit "Failed to start evaluation.")] in
          match upload_reply env with
          | Resolved uploaded =>
              let evaluate := post evaluate_url (evaluate_body st uploaded) in
              match evaluate_reply env with
              | Resolved data =>
                  let st2 := setEvaluationStatus (Some data) st1 in
                  let '(st3, polled) :=
                    pollResult (eval_id data) (isAuthenticated st)
                      (ticks env) st2 in
                  (st3,
                   cleared ++ [upload; evaluate;
                               toast toast_info (lit "Evaluation queued.")]
                   ++ polled)
              | Rejected =>
                  (setIsEvaluating false st1,
                   cleared ++ [upload; evaluate] ++ failure)
              end
          | Rejected =>
              (setIsEvaluating false st1, cleared ++ [upload] ++ failure)
          end
    | _, _ =>
        (st, [toast toast_error
                (lit "Attach both CV and project report PDFs.")])
    end.

(** The evaluation card, as far as it depends on the status object. *)
Record card_body := {
  cv_match : jsstring;
  cv_feedback_text : jsstring;
  project_score_text : jsstring;
  project_feedback_text : jsstring;
  overall : jsstring
}.

Record card := {
  heading : jsstring;
  badge : jsstring;
  badge_label : jsstring;
  error_paragraph : option jsstring;
  result_body : option card_body
}.

Definition evaluation_card (st : page) : option card :=
  match evaluationStatus st with
  | Some es =>
      Some {|
        heading := lit "Job #" ++ eval_id es;
        badge := badge_class (status_name (status es));
        badge_label := toUpperCase_ascii (status_name (status es));
        error_paragraph :=
          match error es with
          | Def e => if truthy_string e then Some e else None
          | _ => None
          end;
        result_body :=
          match result es with
          | Def r =>
              Some {|
                cv_match := formatMatchRate (Def (cv_match_rate r));
                cv_feedback_text := cv_feedback r;
                project_score_text := Number_toString (project_score r);
                project_feedback_text := project_feedback r;
                overall := overall_summary r |}
          | _ => None
          end |}
  | None => None
  end.

(** *** Reading a trace *)

Definition is_request (e : effect) : bool :=
  match e with
  | post _ _ | get _ => true
  | _ => false
  end.

Definition is_timer (e : effect) : bool :=
  match e with
  | setTimeout _ _ => true
  | _ => false
  end.

(** The effect is a status request for job [jobId]. *)
Definition polls_job (jobId : jsstring) (e : effect) : bool :=
  match e with
  | get u => bool_decide (u = result_url jobId)
  | _ => false
  end.

(** The status request of the tick resolves with a status that is not
    terminal. *)
Definition still_running (i : tick) : bool :=
  match result_reply i with
  | Resolved data => negb (terminal (status data))
  | Rejected => false
  end.

(** The member names of a JSON body, in order. *)
Definition body_keys (b : body) : list string :=
  match b with
  | Json members => map fst members
  | FormData _ => []
  end.

Fixpoint member_value (name : string) (members : list (string * jsval))
    : option jsval :=
  match members with
  | [] => None
  | (k, v) :: members' =>
      if String.eqb k name then Some v else member_value name members'
  end.

(** *** Selection and job detail *)

Definition setSelectedJobId (x : option Z) (st : page) : page :=
  {| isAuthenticated := isAuthenticated st; selectedJobId := x;
     jobDetail := jobDetail st; applications := applications st;
     cvFile := cvFile st; projectFile := projectFile st;
     customJobTitle := customJobTitle st; isEvaluating := isEvaluating st;
     evaluationStatus := evaluationStatus st; pollRef := pollRef st |}.

Definition setJobDetail (x : option JobDetail) (st : page) : page :=
  {| isAuthenticated := isAuthenticated st; selectedJobId := selectedJobId st;
     jobDetail := x; applications := applications st;
     cvFile := cvFile st; projectFile := projectFile st;
     customJobTitle := customJobTitle st; isEvaluating := isEvaluating st;
     evaluationStatus := evaluationStatus st; pollRef := pollRef st |}.

(** The effect on [filteredJobs] and [selectedJobId]: without a matching
    job nothing is selected; a selection that is missing or no longer among
    the matching jobs is replaced by the first of them. *)
Definition selection_effect (filtered : list JobSummary) (st : page) : page :=
  match filtered with
  | [] => setSelectedJobId None st
  | first :: _ =>
      if negb (truthy_id (selectedJobId st))
         || negb (existsb (fun job =>
                             match selectedJobId st with
                             | Some selected => id job =? selected
                             | None => false
                             end) filtered)
      then setSelectedJobId (Some (id first)) st
      else st
  end.

Definition job_url (jobId : Z) : jsstring :=
  lit "/jobs/" ++ Number_toString (of_Z jobId).

Definition fetchJobDetail (jobId : Z) (r : reply JobDetail) (st : page)
    : page * list effect :=
  match r with
  | Resolved data => (setJobDetail (Some data) st, [get (job_url jobId)])
  | Rejected =>
      (st, [get (job_url jobId); console_error;
            toast toast_error (lit "Failed to load job detail.")])
  end.

(** The effect on [selectedJobId]: the detail of the selected job is
    requested, or cleared when nothing is selected. *)
Definition detail_effect (r : reply JobDetail) (st : page)
    : page * list effect :=
  match selectedJobId st with
  | Some selected =>
      if truthy_id (Some selected) then fetchJobDetail selected r st
      else (setJobDetail None st, [])
  | None => (setJobDetail None st, [])
  end.

(** A click on a job row, followed by the detail effect, which runs when
    the selection changed. *)
Definition select_job (jobId : Z) (r : reply JobDetail) (st : page)
    : page * list effect :=
  if bool_decide (selectedJobId st = Some jobId) then (st, [])
  else detail_effect r (setSelectedJobId (Some jobId) st).

(** [(location && location.trim()) || "Remote"], the place shown for a job
    in the list and in the detail panel. *)
Definition location_label (l : nullable jsstring) : jsstring :=
  match l with
  | Def l =>
      if truthy_string l && truthy_string (trim l) then trim l
      else lit "Remote"
  | _ => lit "Remote"
  end.

End JobsPage.

(** ** The evaluation service behind the poll endpoint

    The server is not part of the sources; this module follows the
    specification of the evaluation job, its store and its state machine. *)

Module Backend.
Import Js Types.

(** Modelled from the spec: the EvaluationJob record of the data model,
    whose implementation is missing from the sources: a status, a result
    payload and an error message that are null until attached, and the three
    timestamps. *)
Record EvaluationJob := {
  job_status : Status;
  job_result : option EvaluationResult;
  job_error : option jsstring;
  job_queued_at : option jsstring;
  job_started_at : option jsstring;
  job_finished_at : option jsstring
}.

(** Modelled from the spec: how the orchestrator's pipeline (missing from
    the sources) ends: with the merged result of both axes, or with the
    message of an unrecoverable failure. *)
Inductive outcome :=
  | Succeeded (r : EvaluationResult)
  | Failure (message : jsstring).

(** Modelled from the spec: the writes the job store (missing from the
    sources) receives: the submission boundary enqueues a job, a worker
    claims it, the orchestrator finishes it. *)
Inductive request :=
  | Submit (id now : jsstring)
  | Claim (id now : jsstring)
  | Finish (id : jsstring) (o : outcome) (now : jsstring).

(** Modelled from the spec: the job store's [create] and [transition]
    (missing from the sources).  A job is created [queued]; it enters
    [processing] from [queued] only, where [started_at] is recorded; it
    enters [completed] or [failed] from [processing] only, where the result
    or the error message is attached and [finished_at] is recorded; nothing
    leaves a terminal state. *)
Definition step (r : request) (store : gmap jsstring EvaluationJob)
    : gmap jsstring EvaluationJob :=
  match r with
  | Submit id now =>
      match store !! id with
      | Some _ => store
      | None =>
          <[id := {| job_status := queued; job_result := None;
                     job_error := None; job_queued_at := Some now;
                     job_started_at := None; job_finished_at := None |}]> store
      end
  | Claim id now =>
      match store !! id with
      | Some j =>
          match job_status j with
          | queued =>
              <[id := {| job_status := processing;
                         job_result := job_result j;
                         job_error := job_error j;
                         job_queued_at := job_queued_at j;
                         job_started_at := Some now;
                         job_finished_at := job_finished_at j |}]> store
          | _ => store
          end
      | None => store
      end
  | Finish id o now =>
      match store !! id with
      | Some j =>
          match job_status j with
          | processing =>
              match o with
              | Succeeded r =>
                  <[id := {| job_status := completed;
                             job_result := Some r;
                             job_error := job_error j;
                             job_queued_at := job_queued_at j;
                             job_started_at := job_started_at j;
                             job_finished_at := Some now |}]> store
              | Failure message =>
                  <[id := {| job_status := failed;
                             job_result := job_result j;
                             job_error := Some message;
                             job_queued_at := job_queued_at j;
                             job_started_at := job_started_at j;
                             job_finished_at := Some now |}]> store
              end
          | _ => store
          end
      | None => store
      end
  end.

(** Modelled from the spec: the store (missing from the sources) after a
    sequence of writes, oldest first. *)
Fixpoint run (rs : list request) (store : gmap jsstring EvaluationJob)
    : gmap jsstring EvaluationJob :=
  match rs with
  | [] => store
  | r :: rs' => run rs' (step r store)
  end.

(** Modelled from the spec: an optional member of the poll output (the
    endpoint is missing from the sources): present when the job has it. *)
Definition member_of {A} (x : option A) : nullable A :=
  match x with
  | Some a => Def a
  | None => Null
  end.

(** Modelled from the spec: the poll endpoint (missing from the sources):
    the job's status object, or nothing when the id is unknown. *)
Definition poll_evaluation (id : jsstring)
    (store : gmap jsstring EvaluationJob) : option EvaluationStatus :=
  match store !! id with
  | Some j =>
      Some {| eval_id := id;
              status := job_status j;
              result := member_of (job_result j);
              error := member_of (job_error j);
              queued_at := member_of (job_queued_at j);
              started_at := member_of (job_started_at j);
              finished_at := member_of (job_finished_at j) |}
  | None => None
  end.

(** Modelled from the spec: what a caller of the poll endpoint (missing
    from the sources) sees of job [id] after the first [n] writes of a
    history. *)
Definition observed (rs : list request) (n : nat) (id : jsstring)
    : option EvaluationStatus :=
  poll_evaluation id (run (take n rs) ∅).

(** Modelled from the spec: the invariant of the EvaluationJob record (its
    implementation is missing from the sources): the result is attached
    exactly to completed jobs and the error message exactly to failed
    ones. *)
Definition consistent (j : EvaluationJob) : Prop :=
  (is_Some (job_result j) <-> job_status j = completed)
  /\ (is_Some (job_error j) <-> job_status j = failed).

(** Modelled from the spec: the chain queued, processing, then completed or
    failed (its implementation is missing from the sources): [later] is
    [earlier] or comes after it. *)
Definition follows (earlier later : Status) : bool :=
  match earlier, later with
  | queued, _ => true
  | processing, (processing | completed | failed) => true
  | completed, completed => true
  | failed, failed => true
  | _, _ => false
  end.

(** Modelled from the spec: one link of that chain (its implementation is
    missing from the sources). *)
Definition link (earlier later : Status) : bool :=
  match earlier, later with
  | queued, processing => true
  | processing, (completed | failed) => true
  | _, _ => false
  end.

End Backend.
(** ** Forms: replies with an error payload *)

Module Forms.
Import Js Types.

(** A value of a JSON payload whose type the code does not know, or
    [undefined]; an object, an array or a function is [AObject]. *)
Inductive any :=
  | AUndefined
  | ANull
  | ABoolean (b : bool)
  | ANumber (x : number)
  | AString (s : jsstring)
  | AObject.

(** ToBoolean. *)
Definition truthy (v : any) : bool :=
  match v with
  | AUndefined | ANull => false
  | ABoolean b => b
  | ANumber (S754_zero _) | ANumber S754_nan => false
  | ANumber _ => true
  | AString s => truthy_string s
  | AObject => true
  end.

(** [a || b]. *)
Definition or_else (a b : any) : any := if truthy a then a else b.

(** What a handler reads of a caught error: the values of
    [error?.response?.data?.detail] and [error?.response?.data?.message],
    [AUndefined] where the chain breaks. *)
Record thrown := { detail : any; message : any }.

Inductive reply (A : Type) :=
  | Resolved (data : A)
  | Rejected (e : thrown).
Arguments Resolved {A} data.
Arguments Rejected {A} e.

Inductive AuthMode := mode_login | mode_register.

Inductive effect :=
  | toast (l : JobsPage.level) (content : any)
  | post (url : jsstring) (members : list (string * jsval))
  | get (url : jsstring)
  | console_error
  | onClose
  | onModeChange (mode : AuthMode).

Definition is_request (e : effect) : bool :=
  match e with
  | post _ _ | get _ => true
  | _ => false
  end.

End Forms.

(** ** The sign-in dialog ([components/AuthModal.tsx]) *)

Module AuthModal.
Import Js Types Forms.

Record form := {
  email : jsstring;
  password : jsstring;
  firstName : jsstring;
  lastName : jsstring
}.

Definition initialForm : form :=
  {| email := []; password := []; firstName := []; lastName := [] |}.

(** The dialog's two state cells. *)
Record modal := { fields : form; loading : bool }.

(** The effect on [open] and [mode]: an open dialog starts from the initial
    form, with the e-mail typed so far. *)
Definition reset_form (open : bool) (m : modal) : modal :=
  if open
  then {| fields := {| email := email (fields m); password := [];
                       firstName := []; lastName := [] |};
          loading := loading m |}
  else m.

(** The replies one submit can meet, one per endpoint. *)
Record server := {
  register_reply : reply unit;
  token_reply : reply AuthTokens
}.

(** [detail || message || "Unable to authenticate."]. *)
Definition error_message (e : thrown) : any :=
  or_else (or_else (detail e) (message e))
          (AString (lit "Unable to authenticate.")).

Definition handleSubmit (mode : AuthMode) (env : server) (m : modal)
    (a : AuthContext.auth) : modal * AuthContext.auth * list effect :=
  let form := fields m in
  if negb (truthy_string (email form)) || negb (truthy_string (password form))
  then (m, a, [toast JobsPage.toast_error
                 (AString (lit "Email and password are required."))])
  else
    match mode with
    | mode_register =>
        let request :=
          post (lit "/auth/register")
            [ ("email", JString (email form));
              ("password", JString (password form));
              ("first_name", JString (firstName form));
              ("last_name", JString (lastName form)) ]%string in
        match register_reply env with
        | Resolved _ =>
            ({| fields := {| email := email form; password := [];
                             firstName := firstName form;
                             lastName := lastName form |};
                loading := false |},
             a,
             [ request;
               toast JobsPage.toast_success
                 (AString (lit "Registration successful. Please log in."));
               onModeChange mode_login ])
        | Rejected e =>
            ({| fields := form; loading := false |}, a,
             [request; toast JobsPage.toast_error (error_message e)])
        end
    | mode_login =>
        let request :=
          post (lit "/token/pair")
            [ ("username", JString (email form));
              ("password", JString (password form)) ]%string in
        match token_reply env with
        | Resolved data =>
            ({| fields := form; loading := false |},
             AuthContext.login data (Some (email form)) a,
             [ request;
               toast JobsPage.toast_success (AString (lit "Welcome back!"));
               onClose ])
        | Rejected e =>
            ({| fields := form; loading := false |}, a,
             [request; toast JobsPage.toast_error (error_message e)])
        end
    end.

End AuthModal.

(** ** The "Create Job" panel ([pages/JobsPage.tsx]) *)

Module CreateJob.
Import Js Forms.

Record jobForm := {
  job_code : jsstring;
  title : jsstring;
  description : jsstring;
  requirements : jsstring;
  salary_range : jsstring;
  location : jsstring
}.

Definition emptyForm : jobForm :=
  {| job_code := []; title := []; description := []; requirements := [];
     salary_range := []; location := [] |}.

(** The state cells the panel reads and writes. *)
Record panel := {
  isAuthenticated : bool;
  form : jobForm;
  jobSubmitting : bool;
  jobs : list Types.JobSummary
}.

Definition resetJobForm (p : panel) : panel :=
  {| isAuthenticated := isAuthenticated p; form := emptyForm;
     jobSubmitting := jobSubmitting p; jobs := jobs p |}.

Definition setJobSubmitting (x : bool) (p : panel) : panel :=
  {| isAuthenticated := isAuthenticated p; form := form p;
     jobSubmitting := x; jobs := jobs p |}.

Definition setJobs (x : list Types.JobSummary) (p : panel) : panel :=
  {| isAuthenticated := isAuthenticated p; form := form p;
     jobSubmitting := jobSubmitting p; jobs := x |}.

Definition fetchJobs (r : reply (list Types.JobSummary)) (p : panel)
    : panel * list effect :=
  match r with
  | Resolved data => (setJobs data p, [get (lit "/jobs/")])
  | Rejected _ =>
      (p, [get (lit "/jobs/"); console_error;
           toast JobsPage.toast_error (AString (lit "Unable to load job data."))])
  end.

Definition job_body (f : jobForm) : list (string * Types.jsval) :=
  [ ("job_code", Types.JString (job_code f));
    ("title", Types.JString (title f));
    ("description", Types.JString (description f));
    ("requirements", Types.JString (requirements f));
    ("salary_range", Types.JString (salary_range f));
    ("location", Types.JString (location f)) ]%string.

(** [handleCreateJob], with the reply to its request and the reply to the
    reload of the list it starts on success. *)
Definition handleCreateJob (created : reply unit)
    (reloaded : reply (list Types.JobSummary)) (p : panel)
    : panel * list effect :=
  if negb (isAuthenticated p) then
    (p, [toast JobsPage.toast_error
           (AString (lit "You must login as an admin to create jobs."))])
  else
    let request := post (lit "/jobs/") (job_body (form p)) in
    match created with
    | Resolved _ =>
        let '(p', reload) := fetchJobs reloaded (resetJobForm p) in
        (setJobSubmitting false p',
         [request; toast JobsPage.toast_success (AString (lit "Job created."))]
         ++ reload)
    | Rejected e =>
        (setJobSubmitting false p,
         [request;
          toast JobsPage.toast_error
            (or_else (detail e) (AString (lit "Failed to create job.")))])
    end.

End CreateJob.


(** ** Sample values *)

Module Samples.
Import Js Types.

Definition half : number := S754_finite false 4503599627370496 (-53).
Definition tenth : number := SFdiv prec emax (of_Z 1) (of_Z 10).

(** A browser storage holding a session and an unrelated preference. *)
Definition stored : Api.storage :=
  Api.setItem (lit "theme") (lit "dark")
    (Api.setItem Api.userEmailKey (lit "ana@example.org")
       (Api.setItem Api.refreshToken (lit "r1")
          (Api.setItem Api.accessToken (lit "a1") ∅))).

Definition uploaded : DocumentUploadResponse :=
  {| cv_document_id := lit "doc-cv"; project_document_id := lit "doc-pr" |}.

Definition data_engineer : JobDetail :=
  {| summary := {| id := 3; job_code := lit "de-001";
                   title := lit "Data Engineer"; location := Def (lit "Remote");
                   salary_range := Null; created_at := lit "2025-01-01" |};
     description := lit "Pipelines"; requirements := lit "SQL" |}.

(** A signed-in user with job 3 selected, both files attached and an
    override typed in. *)
Definition ready : JobsPage.page :=
  {| JobsPage.isAuthenticated := true;
     JobsPage.selectedJobId := Some 3;
     JobsPage.jobDetail := Some data_engineer;
     JobsPage.applications := [];
     JobsPage.cvFile := Some {| JobsPage.file_name := lit "cv.pdf" |};
     JobsPage.projectFile := Some {| JobsPage.file_name := lit "report.pdf" |};
     JobsPage.customJobTitle := lit "  Analyst ";
     JobsPage.isEvaluating := false;
     JobsPage.evaluationStatus := None;
     JobsPage.pollRef := None |}.

(** The same user with no job selected. *)
Definition unselected : JobsPage.page :=
  {| JobsPage.isAuthenticated := true;
     JobsPage.selectedJobId := None;
     JobsPage.jobDetail := None;
     JobsPage.applications := [];
     JobsPage.cvFile := Some {| JobsPage.file_name := lit "cv.pdf" |};
     JobsPage.projectFile := Some {| JobsPage.file_name := lit "report.pdf" |};
     JobsPage.customJobTitle := lit "  Analyst ";
     JobsPage.isEvaluating := false;
     JobsPage.evaluationStatus := None;
     JobsPage.pollRef := None |}.

Definition status_object (s : Status) (r : nullable EvaluationResult)
    (e : nullable jsstring) : EvaluationStatus :=
  {| eval_id := lit "job-1"; status := s; result := r; error := e;
     queued_at := Def (lit "2025-01-01T10:00:00Z"); started_at := Null;
     finished_at := Null |}.

Definition scored : EvaluationResult :=
  {| cv_match_rate := half; cv_feedback := lit "Solid";
     project_score := of_Z 4; project_feedback := lit "Clear";
     overall_summary := lit "Good fit"; cv_parameter_scores := Undefined;
     project_parameter_scores := Null; raw_context := Undefined |}.

Definition tick_of (es : EvaluationStatus) (h : Z) : JobsPage.tick :=
  {| JobsPage.result_reply := JobsPage.Resolved es;
     JobsPage.applications_reply := JobsPage.Resolved [];
     JobsPage.timer := h |}.

(** A failed job without a message, polled while the applications request
    fails. *)
Definition silent_failure : JobsPage.tick :=
  {| JobsPage.result_reply :=
       JobsPage.Resolved (status_object failed Null Null);
     JobsPage.applications_reply := JobsPage.Rejected;
     JobsPage.timer := 9 |}.

Definition accepted : JobsPage.submission :=
  {| JobsPage.upload_reply := JobsPage.Resolved uploaded;
     JobsPage.evaluate_reply :=
       JobsPage.Resolved (status_object queued Null Null);
     JobsPage.ticks :=
       [ tick_of (status_object queued Null Null) 11;
         tick_of (status_object processing Null Null) 12;
         tick_of (status_object completed (Def scored) Null) 13 ] |}.

(** Two polls that find the job still running, the poll that finds it
    completed, and replies that would follow if polling went on. *)
Definition watching : list JobsPage.tick :=
  [ tick_of (status_object queued Null Null) 11;
    tick_of (status_object processing Null Null) 12 ].

Definition finishing : JobsPage.tick :=
  tick_of (status_object completed (Def scored) Null) 13.

Definition afterwards : list JobsPage.tick :=
  [ tick_of (status_object completed (Def scored) Null) 14 ].

(** A failed job with a message. *)
Definition loud_failure : JobsPage.tick :=
  tick_of (status_object failed Null (Def (lit "Scoring failed"))) 15.

(** An application listed before the evaluation started, and the one the
    server lists once it is over. *)
Definition listed_before : ApplicationItem :=
  {| app_id := 1; app_job_id := Def 3; job_title := lit "Data Engineer";
     app_status := lit "queued"; app_created_at := lit "2025-01-01";
     evaluation_result := Null |}.

Definition listed_after : ApplicationItem :=
  {| app_id := 1; app_job_id := Def 3; job_title := lit "Data Engineer";
     app_status := lit "completed"; app_created_at := lit "2025-01-01";
     evaluation_result := Def scored |}.

(** The page of [ready] with the earlier list shown. *)
Definition listing : JobsPage.page :=
  JobsPage.setApplications [listed_before] ready.

(** The poll that finds the job completed, with the applications request
    answered and with that request failing. *)
Definition finishing_listed : JobsPage.tick :=
  {| JobsPage.result_reply :=
       JobsPage.Resolved (status_object completed (Def scored) Null);
     JobsPage.applications_reply := JobsPage.Resolved [listed_after];
     JobsPage.timer := 13 |}.

Definition finishing_unlisted : JobsPage.tick :=
  {| JobsPage.result_reply :=
       JobsPage.Resolved (status_object completed (Def scored) Null);
     JobsPage.applications_reply := JobsPage.Rejected;
     JobsPage.timer := 13 |}.

(** Job 5 is clicked while nothing is selected and the request for its
    detail fails. *)
Definition detail_missing : JobsPage.page :=
  fst (JobsPage.select_job 5 JobsPage.Rejected unselected).

(** Lower-casing of the ASCII letters, for concrete runs of the filter. *)
Definition ascii_lower (s : jsstring) : jsstring :=
  map (fun c => if (65 <=? c) && (c <=? 90) then c + 32 else c)%N s.

Definition job (n : Z) (t l : string) : JobSummary :=
  {| id := n; job_code := lit "code"; title := lit t; location := Def (lit l);
     salary_range := Null; created_at := lit "2025-01-01" |}.

Definition seven_jobs : list JobSummary :=
  [ job 1 "Backend Engineer" "Remote"; job 2 "Data Engineer" "Berlin";
    job 3 "ML Engineer" "Remote"; job 4 "Designer" "Paris";
    job 5 "QA Engineer" "remote"; job 6 "Site Reliability Engineer" "REMOTE";
    job 7 "Engineering Manager" "Remote" ].

(** The list arrives, the user pages forward and then filters. *)
Definition browsing : list JobsPage.action :=
  [ JobsPage.JobsLoaded seven_jobs; JobsPage.Next;
    JobsPage.TypeTitle (lit "ENGINEER"); JobsPage.TypeLocation (lit "remote");
    JobsPage.Next; JobsPage.Next; JobsPage.Previous ].

(** A job that is submitted, claimed and completed, and one that fails. *)
Definition history : list Backend.request :=
  [ Backend.Submit (lit "job-1") (lit "10:00");
    Backend.Submit (lit "job-2") (lit "10:01");
    Backend.Claim (lit "job-1") (lit "10:02");
    Backend.Finish (lit "job-1") (Backend.Succeeded scored) (lit "10:05");
    Backend.Claim (lit "job-2") (lit "10:06");
    Backend.Finish (lit "job-2") (Backend.Failure (lit "Document not found"))
      (lit "10:07");
    Backend.Claim (lit "job-1") (lit "10:08") ].

(** A storage left with an access token and no refresh token. *)
Definition half_session : Api.storage :=
  Api.setItem Api.accessToken (lit "a1") ∅.

Definition fresh_tokens : AuthTokens :=
  {| access := lit "a2"; refresh := lit "r2" |}.

(** A filled sign-in form and the servers it can meet. *)
Definition typed : AuthModal.modal :=
  {| AuthModal.fields :=
       {| AuthModal.email := lit "bo@example.org";
          AuthModal.password := lit "secret";
          AuthModal.firstName := lit "Bo"; AuthModal.lastName := [] |};
     AuthModal.loading := false |}.

Definition granting : AuthModal.server :=
  {| AuthModal.register_reply := Forms.Resolved tt;
     AuthModal.token_reply := Forms.Resolved fresh_tokens |}.

Definition refusing : AuthModal.server :=
  {| AuthModal.register_reply :=
       Forms.Rejected {| Forms.detail := Forms.AString [];
                         Forms.message := Forms.AString (lit "Taken") |};
     AuthModal.token_reply :=
       Forms.Rejected {| Forms.detail := Forms.AUndefined;
                         Forms.message := Forms.AUndefined |} |}.

(** An administrator about to publish a job. *)
Definition drafting : CreateJob.panel :=
  {| CreateJob.isAuthenticated := true;
     CreateJob.form :=
       {| CreateJob.job_code := lit "ai-lead-001";
          CreateJob.title := lit "Lead AI Engineer";
          CreateJob.description := lit "Mission";
          CreateJob.requirements := lit "Python";
          CreateJob.salary_range := []; CreateJob.location := [] |};
     CreateJob.jobSubmitting := false;
     CreateJob.jobs := [] |}.

(** Fourteen jobs without filters, seen on the first and on the third of
    their three pages. *)
Definition first_page : JobsPage.view :=
  {| JobsPage.jobs := seven_jobs ++ seven_jobs; JobsPage.searchTitle := [];
     JobsPage.searchLocation := []; JobsPage.currentPage := 1 |}.

Definition third_page : JobsPage.view :=
  {| JobsPage.jobs := seven_jobs ++ seven_jobs; JobsPage.searchTitle := [];
     JobsPage.searchLocation := []; JobsPage.currentPage := 3 |}.

(** A job whose location is null. *)
Definition nowhere : JobSummary :=
  {| id := 8; job_code := lit "code"; title := lit "Remote Engineer";
     location := Null; salary_range := Null; created_at := lit "2025-01-01" |}.

Definition searching_remote : JobsPage.view :=
  {| JobsPage.jobs := [nowhere]; JobsPage.searchTitle := [];
     JobsPage.searchLocation := lit "Remote"; JobsPage.currentPage := 1 |}.

(** The signed-in user of [unselected] with only blanks in the override
    field. *)
Definition blank_override : JobsPage.page :=
  JobsPage.setCustomJobTitle [32; 9; 160]%N unselected.

(** A status request that is rejected. *)
Definition unreachable : JobsPage.tick :=
  {| JobsPage.result_reply := JobsPage.Rejected;
     JobsPage.applications_reply := JobsPage.Resolved [];
     JobsPage.timer := 16 |}.

Definition upload_refused : JobsPage.submission :=
  {| JobsPage.upload_reply := JobsPage.Rejected;
     JobsPage.evaluate_reply :=
       JobsPage.Resolved (status_object queued Null Null);
     JobsPage.ticks := watching |}.

(** A completed job whose payload also carries an error string. *)
Definition completed_with_error : JobsPage.tick :=
  tick_of (status_object completed (Def scored) (Def (lit "late warning"))) 17.

End Samples.

(** ** Properties *)

Import Js Types.

(** *** The runtime on concrete inputs *)

Example toString_integers :
  Number_toString (of_Z 100) = lit "100"
  /\ Number_toString (of_Z (-42)) = lit "-42"
  /\ Number_toString (of_Z (2 ^ 60)) = lit "1152921504606847000"
  /\ Number_toString (of_Z (10 ^ 21)) = lit "1e+21".
Proof. vm_compute. repeat split; reflexivity. Qed.

Example toString_fractions :
  Number_toString Samples.tenth = lit "0.1"
  /\ Number_toString (SFadd prec emax Samples.tenth
                        (SFdiv prec emax (of_Z 2) (of_Z 10)))
     = lit "0.30000000000000004"
  /\ Number_toString (S754_finite false 1 (-1074)) = lit "5e-324"
  /\ Number_toString (SFmax_float prec emax) = lit "1.7976931348623157e+308"
  /\ Number_toString (SFdiv prec emax (of_Z 1) (of_Z 10000000)) = lit "1e-7".
Proof. vm_compute. repeat split; reflexivity. Qed.

Example Math_round_ties :
  Math_round (SFdiv prec emax (of_Z 5) (of_Z 2)) = of_Z 3
  /\ Math_round (SFdiv prec emax (of_Z (-5)) (of_Z 2)) = of_Z (-2)
  /\ Math_round (SFdiv prec emax (of_Z (-1)) (of_Z 2)) = S754_zero true
  /\ Math_round (num_mul (SFdiv prec emax (of_Z 285) (of_Z 1000)) (of_Z 100))
     = of_Z 28.
Proof. vm_compute. repeat split; reflexivity. Qed.

Example trim_both_ends :
  trim (lit "  Data Engineer  ") = lit "Data Engineer"
  /\ trim [160; 65; 8232]%N = [65]%N
  /\ trim (lit "   ") = [].
Proof. vm_compute. repeat split; reflexivity. Qed.

Example slice_relative :
  slice [1; 2; 3; 4; 5; 6; 7] 5 10 = [6; 7]
  /\ slice [1; 2; 3; 4; 5; 6; 7] 10 15 = []
  /\ slice [1; 2; 3; 4; 5; 6; 7] (-5) 0 = []
  /\ slice [1; 2; 3; 4; 5; 6; 7] (-3) (-1) = [5; 6].
Proof. vm_compute. repeat split; reflexivity. Qed.

(** *** Comparison of numbers *)

Lemma SFcompare_swap (x y : number) (c : comparison) :
  SFcompare x y = Some c -> SFcompare y x = Some (CompOpp c).
Proof.
  destruct x as [sx | sx | | sx mx ex], y as [sy | sy | | sy my ey];
    simpl; try discriminate;
    try (destruct sx; intros [= <-]; reflexivity);
    try (destruct sy; intros [= <-]; reflexivity);
    try (intros [= <-]; reflexivity).
  - destruct sx, sy; intros [= <-]; reflexivity.
  - rewrite (Z.compare_antisym ex ey).
    destruct sx, sy; intros [= <-]; try reflexivity.
    + destruct (ex ?= ey); simpl; try reflexivity.
      pose proof (Pos.compare_cont_antisym my mx Eq) as A. simpl in A.
      rewrite <- A. now destruct (Pos.compare_cont Eq my mx).
    + destruct (ex ?= ey); simpl; try reflexivity.
      pose proof (Pos.compare_cont_antisym my mx Eq) as A. simpl in A.
      rewrite <- A. now destruct (Pos.compare_cont Eq my mx).
Qed.

Lemma num_gt_not_le (x y : number) : num_gt x y = true -> num_le x y = false.
Proof.
  unfold num_gt, num_le, SFltb, SFleb.
  destruct (SFcompare y x) as [[]|] eqn:E; try discriminate.
  intros _. now rewrite (SFcompare_swap _ _ _ E).
Qed.

(** *** The match rate *)

(** C1.  [formatMatchRate] infers the scale from the magnitude: a missing or
    null value gives "N/A"; a value [v <= 1] is taken as a fraction and
    gives the rounded [v * 100] followed by "%"; a value [v > 1] is taken as
    a percentage and gives [v] followed by "%".  The value 1 is the fraction
    1.0: it gives "100%", not "1%". *)
Theorem formatMatchRate_infers_scale (v : number) :
  JobsPage.formatMatchRate Undefined = lit "N/A"
  /\ JobsPage.formatMatchRate Null = lit "N/A"
  /\ (num_le v (of_Z 1) = true ->
      JobsPage.formatMatchRate (Def v)
      = Number_toString (Math_round (num_mul v (of_Z 100))) ++ lit "%")
  /\ (num_gt v (of_Z 1) = true ->
      JobsPage.formatMatchRate (Def v) = Number_toString v ++ lit "%")
  /\ JobsPage.formatMatchRate (Def (of_Z 1)) = lit "100%"
  /\ JobsPage.formatMatchRate (Def (of_Z 1)) <> lit "1%".
Proof.
  repeat split; try reflexivity.
  - intros H. unfold JobsPage.formatMatchRate. now rewrite H.
  - intros H. unfold JobsPage.formatMatchRate.
    now rewrite (num_gt_not_le _ _ H).
  - vm_compute. discriminate.
Qed.

Lemma formatMatchRate_infers_scale_witness :
  JobsPage.formatMatchRate (Def Samples.half) = lit "50%"
  /\ JobsPage.formatMatchRate (Def (of_Z 85)) = lit "85%".
Proof.
  split.
  - exact (proj1 (proj2 (proj2 (formatMatchRate_infers_scale Samples.half)))
             eq_refl).
  - exact (proj1 (proj2 (proj2 (proj2
             (formatMatchRate_infers_scale (of_Z 85))))) eq_refl).
Defined.

(** *** Token storage and the authentication context *)

Lemma auth_keys_distinct :
  Api.accessToken <> Api.refreshToken
  /\ Api.accessToken <> Api.userEmailKey
  /\ Api.refreshToken <> Api.userEmailKey.
Proof. repeat split; discriminate. Qed.

Lemma clearAuthHeaders_lookup (ls : Api.storage) (k : jsstring) :
  Api.getItem k (Api.clearAuthHeaders ls)
  = if bool_decide (k = Api.accessToken \/ k = Api.refreshToken)
    then None else Api.getItem k ls.
Proof.
  unfold Api.clearAuthHeaders, Api.removeItem, Api.getItem.
  case_bool_decide as H.
  - destruct H as [-> | ->].
    + rewrite lookup_delete_ne by (apply not_eq_sym, auth_keys_distinct).
      apply lookup_delete_eq.
    + apply lookup_delete_eq.
  - rewrite !lookup_delete_ne; [reflexivity | |]; intros <-; tauto.
Qed.

(** C10.  [logout] leaves no tokens, no e-mail and no authentication, and
    none of the three keys in storage; [login] stores the access and the
    refresh token under their keys and authenticates exactly when the access
    token is not empty; [clearAuthHeaders] removes the two token keys and
    leaves every other key, [userEmail] included, as it was. *)
Theorem auth_context_storage
    (a : AuthContext.auth) (t : AuthTokens) (e : option jsstring)
    (ls : Api.storage) (k : jsstring) :
  (AuthContext.tokens (AuthContext.logout a) = None
   /\ AuthContext.userEmail (AuthContext.logout a) = None
   /\ AuthContext.isAuthenticated (AuthContext.logout a) = false
   /\ Api.getItem Api.accessToken
        (AuthContext.localStorage (AuthContext.logout a)) = None
   /\ Api.getItem Api.refreshToken
        (AuthContext.localStorage (AuthContext.logout a)) = None
   /\ Api.getItem Api.userEmailKey
        (AuthContext.localStorage (AuthContext.logout a)) = None)
  /\ (Api.getItem Api.accessToken
        (AuthContext.localStorage (AuthContext.login t e a)) = Some (access t)
      /\ Api.getItem Api.refreshToken
           (AuthContext.localStorage (AuthContext.login t e a))
         = Some (refresh t)
      /\ (AuthContext.isAuthenticated (AuthContext.login t e a) = true
          <-> access t <> []))
  /\ (Api.getItem Api.accessToken (Api.clearAuthHeaders ls) = None
      /\ Api.getItem Api.refreshToken (Api.clearAuthHeaders ls) = None
      /\ Api.getItem Api.userEmailKey (Api.clearAuthHeaders ls)
         = Api.getItem Api.userEmailKey ls
      /\ (k <> Api.accessToken -> k <> Api.refreshToken ->
          Api.getItem k (Api.clearAuthHeaders ls) = Api.getItem k ls)).
Proof.
  destruct auth_keys_distinct as (Har & Hau & Hru).
  split; [| split].
  - repeat split; simpl; unfold Api.getItem, Api.removeItem.
    + rewrite !lookup_delete_ne by (apply not_eq_sym; assumption).
      apply lookup_delete_eq.
    + rewrite lookup_delete_ne by (apply not_eq_sym; assumption).
      apply lookup_delete_eq.
    + apply lookup_delete_eq.
  - assert (Hls : forall ls',
      AuthContext.localStorage (AuthContext.login t e a) = ls' ->
      ls' !! Api.accessToken = Some (access t)
      /\ ls' !! Api.refreshToken = Some (refresh t)).
    { intros ls' <-. unfold AuthContext.login, Api.setItem.
      destruct e as [m |]; [destruct (truthy_string m) |]; simpl;
        rewrite ?(lookup_insert_ne _ Api.userEmailKey)
          by (apply not_eq_sym; assumption);
        (split;
         [ rewrite lookup_insert_ne by (apply not_eq_sym; assumption);
           apply lookup_insert_eq
         | apply lookup_insert_eq ]). }
    destruct (Hls _ eq_refl) as [Ha Hr].
    split; [exact Ha | split; [exact Hr |]].
    unfold AuthContext.isAuthenticated, AuthContext.login.
    destruct e as [m |]; [destruct (truthy_string m) |]; simpl;
      destruct (access t); simpl; split; congruence.
  - rewrite !clearAuthHeaders_lookup.
    split; [| split; [| split]].
    + rewrite bool_decide_eq_true_2; [reflexivity | now left].
    + rewrite bool_decide_eq_true_2; [reflexivity | now right].
    + rewrite bool_decide_eq_false_2; [reflexivity |].
      intros [E | E]; symmetry in E; contradiction.
    + intros H1 H2. rewrite bool_decide_eq_false_2; [reflexivity | tauto].
Qed.

Lemma auth_context_storage_witness :
  Api.getItem (lit "theme") (Api.clearAuthHeaders Samples.stored)
  = Api.getItem (lit "theme") Samples.stored.
Proof.
  apply (proj2 (proj2 (proj2 (proj2 (proj2
    (auth_context_storage
       (AuthContext.initial Samples.stored)
       {| access := lit "a2"; refresh := lit "r2" |}
       None Samples.stored (lit "theme"))))))); discriminate.
Defined.

(** *** The result record *)

(** C7.  An [EvaluationResult] is its eight members and nothing else: it is
    determined by [cv_match_rate] and [project_score] (numbers),
    [cv_feedback], [project_feedback] and [overall_summary] (text) and the
    optional [cv_parameter_scores], [project_parameter_scores] and
    [raw_context]; any values of these types make a result, which has them
    as its members; and for any required members there is a result whose
    three optional members are all missing and one in which they are all
    null. *)
Theorem EvaluationResult_members_exact
    (r : EvaluationResult) (m s : number) (cf pf o : jsstring)
    (cs ps : nullable (list (jsstring * number)))
    (rc : nullable (list (jsstring * jsval))) :
  r = {| cv_match_rate := cv_match_rate r;
         cv_feedback := cv_feedback r;
         project_score := project_score r;
         project_feedback := project_feedback r;
         overall_summary := overall_summary r;
         cv_parameter_scores := cv_parameter_scores r;
         project_parameter_scores := project_parameter_scores r;
         raw_context := raw_context r |}
  /\ (let made :=
        {| cv_match_rate := m; cv_feedback := cf; project_score := s;
           project_feedback := pf; overall_summary := o;
           cv_parameter_scores := cs; project_parameter_scores := ps;
           raw_context := rc |} in
      (cv_match_rate made, cv_feedback made, project_score made,
       project_feedback made, overall_summary made)
      = (m, cf, s, pf, o)
      /\ (cv_parameter_scores made, project_parameter_scores made,
          raw_context made) = (cs, ps, rc))
  /\ (exists missing null,
        (cv_match_rate missing, cv_feedback missing, project_score missing,
         project_feedback missing, overall_summary missing)
        = (m, cf, s, pf, o)
        /\ (cv_match_rate null, cv_feedback null, project_score null,
            project_feedback null, overall_summary null)
           = (m, cf, s, pf, o)
        /\ (cv_parameter_scores missing, project_parameter_scores missing,
            raw_context missing) = (Undefined, Undefined, Undefined)
        /\ (cv_parameter_scores null, project_parameter_scores null,
            raw_context null) = (Null, Null, Null)
        /\ present (cv_parameter_scores missing) = false
        /\ present (raw_context null) = false).
Proof.
  split; [now destruct r |]. split; [split; reflexivity |].
  exists {| cv_match_rate := m; cv_feedback := cf; project_score := s;
            project_feedback := pf; overall_summary := o;
            cv_parameter_scores := Undefined;
            project_parameter_scores := Undefined;
            raw_context := Undefined |},
         {| cv_match_rate := m; cv_feedback := cf; project_score := s;
            project_feedback := pf; overall_summary := o;
            cv_parameter_scores := Null; project_parameter_scores := Null;
            raw_context := Null |}.
  repeat split.
Qed.

(** *** Polling *)

Import JobsPage.

Lemma result_url_not_applications (jobId : jsstring) :
  result_url jobId <> lit "/applications/".
Proof. discriminate. Qed.

(** The effects of [fetchApplications] hold no timer and no status
    request, and its only toast is its own failure message. *)
Lemma fetchApplications_trace (authenticated : bool)
    (r : reply (list ApplicationItem)) (st : page) (jobId : jsstring) :
  Forall (fun e => is_timer e = false /\ polls_job jobId e = false)
         (snd (fetchApplications authenticated r st))
  /\ (forall l m, In (toast l m) (snd (fetchApplications authenticated r st)) ->
      authenticated = true /\ r = Rejected /\ l = toast_error
      /\ m = lit "Failed to load applications.").
Proof.
  unfold fetchApplications.
  destruct authenticated; simpl; [destruct r; simpl |].
  - split; [repeat constructor | intros l m [H | []]; discriminate].
  - split.
    + repeat constructor.
    + intros l m [H | [H | [H | []]]]; try discriminate.
      injection H as <- <-. repeat split; reflexivity.
  - split; [constructor | intros l m []].
Qed.

Lemma fetchApplications_state (authenticated : bool)
    (r : reply (list ApplicationItem)) (st : page) :
  let st' := fst (fetchApplications authenticated r st) in
  isEvaluating st' = isEvaluating st
  /\ evaluationStatus st' = evaluationStatus st
  /\ pollRef st' = pollRef st
  /\ applications st'
     = (if authenticated
        then match r with Resolved data => data | Rejected => applications st end
        else []).
Proof.
  unfold fetchApplications. destruct authenticated; [destruct r |]; simpl; auto.
Qed.

(** A run of [poll] that meets a status which is not terminal. *)
Lemma poll_still_running (jobId : jsstring) (authenticated : bool) (i : tick)
    (st : page) :
  still_running i = true ->
  exists data,
    result_reply i = Resolved data
    /\ poll jobId authenticated i st
       = (setPollRef (Some (timer i)) (setEvaluationStatus (Some data) st),
          [get (result_url jobId); setTimeout (Poll jobId) 4000], true).
Proof.
  unfold still_running, poll. destruct (result_reply i) as [data |]; [| discriminate].
  intros H. exists data. split; [reflexivity |].
  destruct (terminal (status data)); [discriminate | reflexivity].
Qed.

(** A run of [poll] that meets a terminal status. *)
Lemma poll_terminal (jobId : jsstring) (authenticated : bool) (i : tick)
    (st : page) (data : EvaluationStatus) :
  result_reply i = Resolved data -> terminal (status data) = true ->
  let fetched :=
    fetchApplications authenticated (applications_reply i)
      (setIsEvaluating false (setEvaluationStatus (Some data) st)) in
  poll jobId authenticated i st
  = (setPollRef None (fst fetched),
     get (result_url jobId) :: snd fetched ++
       match status data with
       | completed => [toast toast_success (lit "Evaluation completed.")]
       | _ =>
           match error data with
           | Def e => if truthy_string e then [toast toast_error e] else []
           | _ => []
           end
       end,
     false).
Proof.
  intros Hr Ht. unfold poll. rewrite Hr, Ht. simpl.
  destruct (fetchApplications _ _ _). reflexivity.
Qed.

(** While the status is not terminal each run requests the status of the
    same job and sets the next timer. *)
Lemma pollResult_running (jobId : jsstring) (authenticated : bool)
    (pre : list tick) (st : page) :
  forallb still_running pre = true ->
  exists st',
    applications st' = applications st
    /\ forall ticks,
         pollResult jobId authenticated (pre ++ ticks) st
         = (fst (pollResult jobId authenticated ticks st'),
            concat (map (fun _ => [get (result_url jobId);
                                   setTimeout (Poll jobId) 4000]) pre)
            ++ snd (pollResult jobId authenticated ticks st')).
Proof.
  revert st. induction pre as [| i pre IH]; intros st Hpre.
  - exists st. split; [reflexivity |]. intros ticks. simpl.
    now destruct (pollResult _ _ _ _).
  - simpl in Hpre. apply andb_prop in Hpre as [Hi Hpre].
    destruct (poll_still_running jobId authenticated i st Hi) as (data & _ & E).
    destruct (IH (setPollRef (Some (timer i))
                    (setEvaluationStatus (Some data) st)) Hpre)
      as (st' & Happ & Erun).
    exists st'. split; [exact Happ |]. intros ticks.
    simpl. rewrite E, Erun. reflexivity.
Qed.

Lemma fetchApplications_effects_any_state (authenticated : bool)
    (r : reply (list ApplicationItem)) (st st' : page) :
  snd (fetchApplications authenticated r st)
  = snd (fetchApplications authenticated r st').
Proof.
  unfold fetchApplications. now destruct authenticated; [destruct r |].
Qed.

(** A job found completed while the applications request fails: polling
    stops and the evaluating flag is cleared, the list is requested, and
    the list on the page is still the one shown before, with the failure
    toast of [fetchApplications]: the list is not refreshed. *)
Lemma pollResult_terminal_keeps_stale_list :
  result_reply Samples.finishing_unlisted
  = Resolved (Samples.status_object completed (Def Samples.scored) Null)
  /\ applications_reply Samples.finishing_unlisted = Rejected
  /\ applications Samples.listing = [Samples.listed_before]
  /\ isEvaluating
       (fst (pollResult (lit "job-1") true
               (Samples.watching ++ [Samples.finishing_unlisted])
               Samples.listing)) = false
  /\ applications
       (fst (pollResult (lit "job-1") true
               (Samples.watching ++ [Samples.finishing_unlisted])
               Samples.listing)) = [Samples.listed_before]
  /\ snd (pollResult (lit "job-1") true
            (Samples.watching ++ [Samples.finishing_unlisted])
            Samples.listing)
     = [ get (lit "/evaluation/result/job-1");
         setTimeout (Poll (lit "job-1")) 4000;
         get (lit "/evaluation/result/job-1");
         setTimeout (Poll (lit "job-1")) 4000;
         get (lit "/evaluation/result/job-1");
         get (lit "/applications/");
         console_error;
         toast toast_error (lit "Failed to load applications.");
         toast toast_success (lit "Evaluation completed.") ].
Proof. repeat split. Qed.

(** C5, amended.  While every polled status is neither completed nor
    failed, each poll requests the status of the same job and schedules the
    next poll 4000 ms later.  At the first terminal status no timer is set
    and no further status request is made, whatever replies would follow;
    the evaluating flag is cleared, the timer reference is reset, the
    status is shown, and the applications are requested once (by a closure
    that holds an authenticated session; one that does not empties the
    list without a request).  The list becomes the reply of that request
    when it resolves; when it is rejected the list stays as it was and
    "Failed to load applications." is toasted.  The trace ends with the
    toast of the terminal status. *)
Theorem pollResult_stops_at_terminal
    (jobId : jsstring) (authenticated : bool) (pre : list tick) (last : tick)
    (rest : list tick) (data : EvaluationStatus) (st : page) :
  forallb still_running pre = true ->
  result_reply last = Resolved data ->
  terminal (status data) = true ->
  let rounds :=
    concat (map (fun _ => [get (result_url jobId);
                           setTimeout (Poll jobId) 4000]) pre) in
  let refresh :=
    if authenticated then
      match applications_reply last with
      | Resolved _ => [get (lit "/applications/")]
      | Rejected =>
          [get (lit "/applications/"); console_error;
           toast toast_error (lit "Failed to load applications.")]
      end
    else [] in
  let announced :=
    match status data with
    | completed => [toast toast_success (lit "Evaluation completed.")]
    | _ =>
        match error data with
        | Def e => if truthy_string e then [toast toast_error e] else []
        | _ => []
        end
    end in
  let out := pollResult jobId authenticated (pre ++ last :: rest) st in
  snd (pollResult jobId authenticated pre st) = rounds
  /\ snd out = rounds ++ get (result_url jobId) :: refresh ++ announced
  /\ Forall (fun e => is_timer e = false /\ polls_job jobId e = false)
            (refresh ++ announced)
  /\ out = pollResult jobId authenticated (pre ++ [last]) st
  /\ isEvaluating (fst out) = false
  /\ pollRef (fst out) = None
  /\ evaluationStatus (fst out) = Some data
  /\ applications (fst out)
     = (if authenticated then
          match applications_reply last with
          | Resolved listed => listed
          | Rejected => applications st
          end
        else []).
Proof.
  intros Hpre Hr Ht rounds refresh announced out.
  destruct (pollResult_running jobId authenticated pre st Hpre)
    as (st' & Happ & Erun).
  pose proof (poll_terminal jobId authenticated last st' data Hr Ht) as Elast.
  simpl in Elast. fold announced in Elast.
  set (fetched := fetchApplications authenticated (applications_reply last)
                    (setIsEvaluating false
                       (setEvaluationStatus (Some data) st'))) in *.
  assert (Hone : forall ticks,
    pollResult jobId authenticated (last :: ticks) st'
    = (setPollRef None (fst fetched),
       get (result_url jobId) :: snd fetched ++ announced)).
  { intros ticks. simpl. now rewrite Elast. }
  assert (Hsame : snd fetched = refresh).
  { unfold fetched, refresh, fetchApplications.
    now destruct authenticated; [destruct (applications_reply last) |]. }
  assert (Hquiet : Forall (fun e => is_timer e = false
                                    /\ polls_job jobId e = false) announced).
  { unfold announced. destruct (status data); try discriminate Ht.
    - repeat constructor.
    - destruct (error data) as [| | e]; try constructor.
      destruct (truthy_string e); repeat constructor. }
  destruct (fetchApplications_state authenticated (applications_reply last)
              (setIsEvaluating false (setEvaluationStatus (Some data) st')))
    as (Hev & Hes & Hpr & Hap).
  fold fetched in Hev, Hes, Hpr, Hap.
  split; [| split; [| split; [| split; [| split; [| split; [| split]]]]]].
  - specialize (Erun []). rewrite app_nil_r in Erun. rewrite Erun. simpl.
    apply app_nil_r.
  - unfold out. rewrite Erun, Hone. simpl. now rewrite Hsame.
  - apply Forall_app. split; [| exact Hquiet].
    rewrite <- Hsame. apply fetchApplications_trace.
  - unfold out. now rewrite !Erun, !Hone.
  - unfold out. rewrite Erun, Hone. simpl. exact Hev.
  - unfold out. rewrite Erun, Hone. reflexivity.
  - unfold out. rewrite Erun, Hone. simpl. exact Hes.
  - unfold out. rewrite Erun, Hone. simpl. rewrite Hap.
    simpl. now rewrite Happ.
Qed.

Lemma pollResult_stops_at_terminal_witness :
  applications
    (fst (pollResult (lit "job-1") true
            (Samples.watching ++ Samples.finishing_listed :: Samples.afterwards)
            Samples.listing)) = [Samples.listed_after]
  /\ isEvaluating
       (fst (pollResult (lit "job-1") true
               (Samples.watching ++ Samples.finishing_listed
                                 :: Samples.afterwards)
               Samples.listing)) = false.
Proof.
  pose proof (pollResult_stops_at_terminal (lit "job-1") true Samples.watching
                Samples.finishing_listed Samples.afterwards
                (Samples.status_object completed (Def Samples.scored) Null)
                Samples.listing eq_refl eq_refl eq_refl) as H.
  cbv zeta in H.
  destruct H as (_ & _ & _ & _ & Hflag & _ & _ & Hlist).
  split; [exact Hlist | exact Hflag].
Defined.

(** *** A failed job *)

(** A failed job whose payload has no message, polled while the
    applications request fails: the failure branch stays silent, polling
    stops, and yet the tick raises an error toast, the one of
    [fetchApplications]. *)
Lemma poll_silent_failure_still_toasts :
  result_reply Samples.silent_failure
  = Resolved (Samples.status_object failed Null Null)
  /\ snd (poll (lit "job-1") true Samples.silent_failure Samples.ready) = false
  /\ ~ (forall m,
         ~ In (toast toast_error m)
              (snd (fst (poll (lit "job-1") true Samples.silent_failure
                           Samples.ready)))).
Proof.
  split; [reflexivity | split; [reflexivity |]].
  intros H. apply (H (lit "Failed to load applications.")).
  vm_compute. tauto.
Qed.

(** C6, amended.  When [poll] observes the status failed, polling stops.  A
    non-empty error string in the payload is raised as an error toast and
    shown in the card.  With an empty or missing error string the failure
    branch raises nothing and the card has no error paragraph: the effects
    of the tick are the status request followed by those of
    [fetchApplications], so the only toast that can appear is the "Failed to
    load applications." of a failed refresh, and none at all when the
    refresh is not attempted or succeeds. *)
Theorem poll_failed_surfaces_error
    (jobId : jsstring) (authenticated : bool) (i : tick) (st : page)
    (data : EvaluationStatus) :
  result_reply i = Resolved data ->
  status data = failed ->
  let out := poll jobId authenticated i st in
  let trace := snd (fst out) in
  snd out = false
  /\ Forall (fun e => is_timer e = false) trace
  /\ (forall e, error data = Def e -> e <> [] ->
      In (toast toast_error e) trace
      /\ option_map error_paragraph (evaluation_card (fst (fst out)))
         = Some (Some e))
  /\ (truthy_nstring (error data) = false ->
      trace = get (result_url jobId)
              :: snd (fetchApplications authenticated (applications_reply i) st)
      /\ option_map error_paragraph (evaluation_card (fst (fst out)))
         = Some None
      /\ (forall l m, In (toast l m) trace ->
          authenticated = true /\ applications_reply i = Rejected
          /\ l = toast_error /\ m = lit "Failed to load applications.")
      /\ (authenticated = false
          \/ (exists apps, applications_reply i = Resolved apps) ->
          forall l m, ~ In (toast l m) trace)).
Proof.
  intros Hr Hs out trace.
  assert (Ht : terminal (status data) = true) by now rewrite Hs.
  pose proof (poll_terminal jobId authenticated i st data Hr Ht) as E.
  simpl in E. rewrite Hs in E.
  set (fetched := fetchApplications authenticated (applications_reply i)
                    (setIsEvaluating false
                       (setEvaluationStatus (Some data) st))) in *.
  assert (Hsame : snd fetched
                  = snd (fetchApplications authenticated
                           (applications_reply i) st))
    by apply fetchApplications_effects_any_state.
  destruct (fetchApplications_trace authenticated (applications_reply i)
              (setIsEvaluating false (setEvaluationStatus (Some data) st))
              jobId) as [Hquiet Htoast].
  fold fetched in Hquiet, Htoast.
  destruct (fetchApplications_state authenticated (applications_reply i)
              (setIsEvaluating false (setEvaluationStatus (Some data) st)))
    as (_ & Hes & _ & _).
  fold fetched in Hes.
  unfold trace, out. rewrite E. simpl.
  split; [reflexivity |]. split; [| split].
  - constructor; [reflexivity |]. apply Forall_app. split.
    + eapply Forall_impl; [exact Hquiet |]. now intros e [H _].
    + destruct (error data) as [| | e]; try constructor.
      destruct (truthy_string e); repeat constructor.
  - intros e He Hne. rewrite He.
    assert (Htr : truthy_string e = true) by now destruct e.
    rewrite Htr. split.
    + right. apply in_or_app. right. now left.
    + unfold evaluation_card. simpl. rewrite Hes. simpl.
      now rewrite He, Htr.
  - intros Hfalsy.
    assert (Hnone : match error data with
                    | Def e => if truthy_string e then [toast toast_error e]
                               else []
                    | _ => []
                    end = []).
    { destruct (error data) as [| | e]; try reflexivity.
      simpl in Hfalsy. now rewrite Hfalsy. }
    rewrite Hnone, app_nil_r, Hsame.
    rewrite Hsame in Htoast.
    split; [reflexivity | split; [| split]].
    + unfold evaluation_card. simpl. rewrite Hes. simpl.
      destruct (error data) as [| | e]; try reflexivity.
      simpl in Hfalsy. now rewrite Hfalsy.
    + intros l m [H | H]; [discriminate | now apply Htoast].
    + intros Hok l m [H | H]; [discriminate |].
      destruct (Htoast l m H) as (Ha & Hrej & _).
      destruct Hok as [Hno | [apps Hres]]; congruence.
Qed.

Lemma poll_failed_surfaces_error_witness :
  In (toast toast_error (lit "Scoring failed"))
     (snd (fst (poll (lit "job-1") true Samples.loud_failure Samples.ready))).
Proof.
  apply (proj1 (proj2 (proj2 (poll_failed_surfaces_error (lit "job-1") true
           Samples.loud_failure Samples.ready
           (Samples.status_object failed Null (Def (lit "Scoring failed")))
           eq_refl eq_refl))) (lit "Scoring failed") eq_refl).
  discriminate.
Defined.

(** *** Submission *)

Lemma pollResult_only_polls (jobId : jsstring) (authenticated : bool)
    (ticks : list tick) (st : page) (url : jsstring) (b : body) :
  ~ In (post url b) (snd (pollResult jobId authenticated ticks st)).
Proof.
  revert st. induction ticks as [| i ticks IH]; intros st; simpl; [tauto |].
  assert (Hpoll : ~ In (post url b) (snd (fst (poll jobId authenticated i st)))).
  { unfold poll, fetchApplications.
    destruct (result_reply i) as [data |]; simpl.
    - destruct (terminal (status data)); simpl.
      + destruct authenticated; simpl; [destruct (applications_reply i) |];
          simpl; destruct (status data); simpl;
          try (destruct (error data) as [| | e];
               [| | destruct (truthy_string e)]); simpl;
          intuition discriminate.
      + intuition discriminate.
    - intuition discriminate. }
  destruct (poll jobId authenticated i st) as [[st1 done] again]. simpl in Hpoll.
  destruct again; simpl; [| exact Hpoll].
  specialize (IH st1). destruct (pollResult jobId authenticated ticks st1).
  simpl in *. rewrite in_app_iff. tauto.
Qed.

Lemma resetPolling_effects (st : page) :
  Forall (fun e => is_request e = false) (snd (resetPolling st))
  /\ isAuthenticated (fst (resetPolling st)) = isAuthenticated st
  /\ evaluationStatus (fst (resetPolling st)) = evaluationStatus st.
Proof.
  unfold resetPolling. destruct (pollRef st) as [h |]; simpl.
  - destruct (negb (h =? 0)); simpl; repeat constructor.
  - repeat constructor.
Qed.

(** The title [handleEvaluate] submits. *)
Lemma jobTitle_cases (st : page) :
  (forall d, truthy_id (selectedJobId st) = true -> jobDetail st = Some d ->
             title d <> [] -> jobTitle st = title d)
  /\ (truthy_id (selectedJobId st) = false \/ jobDetail st = None
      \/ (exists d, jobDetail st = Some d /\ title d = []) ->
      jobTitle st = trim (customJobTitle st)).
Proof.
  unfold jobTitle. split.
  - intros d -> -> Hne. simpl. now destruct (title d).
  - intros [-> | [-> | (d & -> & Hd)]]; simpl; try reflexivity.
    + now destruct (truthy_id _).
    + rewrite Hd. now destruct (truthy_id _).
Qed.

(** Every request to the evaluation endpoint carries [evaluate_body]. *)
Lemma handleEvaluate_posts (env : submission) (st : page) (b : body) :
  In (post evaluate_url b) (snd (handleEvaluate env st)) ->
  exists uploaded cv project,
    upload_reply env = Resolved uploaded
    /\ cvFile st = Some cv /\ projectFile st = Some project
    /\ isAuthenticated st = true
    /\ truthy_string (jobTitle st) = true
    /\ b = evaluate_body st uploaded.
Proof.
  unfold handleEvaluate.
  destruct (isAuthenticated st); simpl; [| intuition discriminate].
  destruct (cvFile st) as [cv |]; [| simpl; intuition discriminate].
  destruct (projectFile st) as [project |]; [| simpl; intuition discriminate].
  destruct (truthy_string (jobTitle st)); simpl; [| intuition discriminate].
  destruct (resetPolling (setIsEvaluating true st)) as [st1 cleared] eqn:Ereset.
  assert (Hcleared : ~ In (post evaluate_url b) cleared).
  { pose proof (resetPolling_effects (setIsEvaluating true st)) as [H _].
    rewrite Ereset in H. simpl in H. rewrite List.Forall_forall in H.
    intros Hin. now specialize (H _ Hin). }
  destruct (upload_reply env) as [uploaded |].
  - intros Hin. exists uploaded, cv, project. repeat split.
    destruct (evaluate_reply env) as [data |].
    + destruct (pollResult _ _ _ _) as [st3 polled] eqn:Epoll.
      simpl in Hin. rewrite in_app_iff in Hin. simpl in Hin.
      destruct Hin as [Hin | [Hin | [Hin | [Hin | Hin]]]];
        try contradiction; try discriminate.
      * now injection Hin.
      * exfalso. eapply pollResult_only_polls. rewrite Epoll. exact Hin.
    + simpl in Hin. rewrite in_app_iff in Hin. simpl in Hin.
      destruct Hin as [Hin | [Hin | [Hin | [Hin | [Hin | []]]]]];
        try contradiction; try discriminate.
      now injection Hin.
  - simpl. rewrite in_app_iff. simpl. intuition discriminate.
Qed.

(** With the guards passed and the upload answered, the evaluation
    request follows the upload request, with [evaluate_body]. *)
Lemma handleEvaluate_sends (env : submission) (st : page)
    (uploaded : DocumentUploadResponse) :
  isAuthenticated st = true -> cvFile st <> None -> projectFile st <> None ->
  jobTitle st <> [] -> upload_reply env = Resolved uploaded ->
  exists cv project cleared later,
    cvFile st = Some cv /\ projectFile st = Some project
    /\ Forall (fun e => is_request e = false) cleared
    /\ snd (handleEvaluate env st)
       = cleared
         ++ post upload_url
              (FormData [("cv", cv); ("project_report", project)]%string)
         :: post evaluate_url (evaluate_body st uploaded) :: later.
Proof.
  intros Hauth Hcv Hpr Htitle Hup. unfold handleEvaluate.
  rewrite Hauth, Hup. simpl.
  destruct (cvFile st) as [cv |]; [| contradiction].
  destruct (projectFile st) as [project |]; [| contradiction].
  destruct (jobTitle st) as [| c t] eqn:Et; [contradiction |]. simpl.
  pose proof (resetPolling_effects (setIsEvaluating true st)) as (Hq & _).
  destruct (resetPolling (setIsEvaluating true st)) as [st1 cleared].
  simpl in Hq. exists cv, project, cleared.
  destruct (evaluate_reply env) as [data |].
  - destruct (pollResult _ _ _ _) as [st3 polled]. simpl. eauto 6.
  - simpl. eauto 6.
Qed.

Lemma in_sent (cleared later : list effect) (a b : effect) :
  In b (cleared ++ a :: b :: later).
Proof. apply in_or_app. right. right. now left. Qed.

(** A guard that fails leaves the state alone and raises one toast. *)
Ltac only_a_toast :=
  split; [reflexivity | split; [repeat constructor | eauto]].

(** Job 5 is selected while no job was, and the request for its detail
    fails: the page holds a selected job and no detail, and the evaluation
    request carries the trimmed override with the id of job 5, although a
    job is selected and no detail with an empty title is loaded. *)
Lemma handleEvaluate_override_with_selected_job :
  Samples.detail_missing = fst (select_job 5 Rejected Samples.unselected)
  /\ selectedJobId Samples.detail_missing = Some 5
  /\ jobDetail Samples.detail_missing = None
  /\ customJobTitle Samples.detail_missing = lit "  Analyst "
  /\ In (post evaluate_url
           (Json [ ("job_title", JString (lit "Analyst"));
                   ("job_id", JNumber (of_Z 5));
                   ("cv_document_id", JString (lit "doc-cv"));
                   ("project_document_id", JString (lit "doc-pr")) ]%string))
        (snd (handleEvaluate Samples.accepted Samples.detail_missing))
  /\ ~ (truthy_id (selectedJobId Samples.detail_missing) = false
        \/ exists d, jobDetail Samples.detail_missing = Some d /\ title d = []).
Proof.
  split; [reflexivity |]. split; [reflexivity |]. split; [reflexivity |].
  split; [reflexivity |]. split.
  - vm_compute. tauto.
  - intros [H | (d & H & _)]; discriminate.
Qed.

(** C8, amended.  When a job is selected ([selectedJobId] is truthy, the
    test the component applies throughout) and the job detail the page
    holds has a non-empty title, the title is that one whatever the
    override input holds, and a submission whose upload is answered posts
    it as [job_title].  The trimmed override is the title when no job is
    selected, when no detail is loaded or when the detail has no title, and
    then a submission whose upload is answered posts the trimmed override,
    if it is not empty.  No title at all means neither source gives one;
    and without authentication, without both files or without a title
    [handleEvaluate] only raises a toast: it issues no request and leaves
    the state as it is. *)
Theorem handleEvaluate_title_and_guards (env : submission) (st : page) :
  (forall d, truthy_id (selectedJobId st) = true -> jobDetail st = Some d ->
     title d <> [] ->
     jobTitle st = title d
     /\ (forall c, jobTitle (setCustomJobTitle c st) = title d)
     /\ (forall members,
           In (post evaluate_url (Json members)) (snd (handleEvaluate env st)) ->
           member_value "job_title" members = Some (JString (title d)))
     /\ (forall c uploaded,
           isAuthenticated st = true -> cvFile st <> None ->
           projectFile st <> None -> upload_reply env = Resolved uploaded ->
           In (post evaluate_url
                 (Json [ ("job_title", JString (title d));
                         ("job_id", job_id_value (selectedJobId st));
                         ("cv_document_id", JString (cv_document_id uploaded));
                         ("project_document_id",
                          JString (project_document_id uploaded)) ]%string))
              (snd (handleEvaluate env (setCustomJobTitle c st)))))
  /\ (truthy_id (selectedJobId st) = false \/ jobDetail st = None
      \/ (exists d, jobDetail st = Some d /\ title d = []) ->
      jobTitle st = trim (customJobTitle st)
      /\ (forall members,
            In (post evaluate_url (Json members)) (snd (handleEvaluate env st)) ->
            member_value "job_title" members
            = Some (JString (trim (customJobTitle st))))
      /\ (forall uploaded,
            isAuthenticated st = true -> cvFile st <> None ->
            projectFile st <> None -> trim (customJobTitle st) <> [] ->
            upload_reply env = Resolved uploaded ->
            In (post evaluate_url
                  (Json [ ("job_title", JString (trim (customJobTitle st)));
                          ("job_id", job_id_value (selectedJobId st));
                          ("cv_document_id", JString (cv_document_id uploaded));
                          ("project_document_id",
                           JString (project_document_id uploaded)) ]%string))
               (snd (handleEvaluate env st))))
  /\ (jobTitle st = [] <->
      (truthy_id (selectedJobId st) = false \/ jobDetail st = None
       \/ (exists d, jobDetail st = Some d /\ title d = []))
      /\ trim (customJobTitle st) = [])
  /\ (isAuthenticated st = false \/ cvFile st = None \/ projectFile st = None
      \/ jobTitle st = [] ->
      fst (handleEvaluate env st) = st
      /\ Forall (fun e => is_request e = false) (snd (handleEvaluate env st))
      /\ exists m, snd (handleEvaluate env st) = [toast toast_error m]).
Proof.
  destruct (jobTitle_cases st) as [Hsel Hcustom].
  assert (Hbody : forall members,
    In (post evaluate_url (Json members)) (snd (handleEvaluate env st)) ->
    member_value "job_title" members = Some (JString (jobTitle st))).
  { intros members Hin.
    destruct (handleEvaluate_posts env st _ Hin) as (u & _ & _ & _ & _ & _ & _ & _ & E).
    unfold evaluate_body in E. injection E as ->. reflexivity. }
  split; [| split; [| split]].
  - intros d H1 H2 H3.
    assert (Hany : forall c, jobTitle (setCustomJobTitle c st) = title d).
    { intros c. apply (proj1 (jobTitle_cases (setCustomJobTitle c st)));
        assumption. }
    split; [now apply Hsel | split; [exact Hany | split]].
    + intros members Hin. rewrite (Hbody _ Hin). now rewrite (Hsel d).
    + intros c uploaded Hauth Hcv Hpr Hup.
      destruct (handleEvaluate_sends env (setCustomJobTitle c st) uploaded)
        as (cv & project & cleared & later & _ & _ & _ & E);
        try assumption; [now rewrite Hany |].
      rewrite E. unfold evaluate_body. rewrite Hany. apply in_sent.
  - intros H. split; [now apply Hcustom | split].
    + intros members Hin. rewrite (Hbody _ Hin). now rewrite Hcustom.
    + intros uploaded Hauth Hcv Hpr Htrim Hup.
      destruct (handleEvaluate_sends env st uploaded)
        as (cv & project & cleared & later & _ & _ & _ & E);
        try assumption; [now rewrite Hcustom |].
      rewrite E. unfold evaluate_body. rewrite (Hcustom H). apply in_sent.
  - split.
    + intros Hnil.
      assert (Hside : truthy_id (selectedJobId st) = false
                      \/ jobDetail st = None
                      \/ (exists d, jobDetail st = Some d /\ title d = [])).
      { destruct (truthy_id (selectedJobId st)) eqn:E1; [| now left].
        destruct (jobDetail st) as [d |] eqn:E2; [| now right; left].
        right. right. exists d. split; [reflexivity |].
        destruct (title d) as [| c t] eqn:E3; [reflexivity |].
        rewrite (Hsel d) in Hnil by (try reflexivity; now rewrite E3).
        rewrite E3 in Hnil. discriminate. }
      split; [exact Hside |]. now rewrite <- (Hcustom Hside).
    + intros [Hside Hnil]. now rewrite (Hcustom Hside).
  - intros H. unfold handleEvaluate.
    destruct (isAuthenticated st); simpl; [| only_a_toast].
    destruct (cvFile st) as [cv |]; [| only_a_toast].
    destruct (projectFile st) as [project |]; [| only_a_toast].
    destruct H as [H | [H | [H | H]]]; try discriminate.
    rewrite H. simpl. only_a_toast.
Qed.

Lemma handleEvaluate_title_and_guards_witness :
  In (post evaluate_url
        (Json [ ("job_title", JString (lit "Data Engineer"));
                ("job_id", JNumber (of_Z 3));
                ("cv_document_id", JString (lit "doc-cv"));
                ("project_document_id", JString (lit "doc-pr")) ]%string))
     (snd (handleEvaluate Samples.accepted
             (setCustomJobTitle (lit "Analyst") Samples.ready)))
  /\ In (post evaluate_url
           (Json [ ("job_title", JString (lit "Analyst"));
                   ("job_id", JNull);
                   ("cv_document_id", JString (lit "doc-cv"));
                   ("project_document_id", JString (lit "doc-pr")) ]%string))
        (snd (handleEvaluate Samples.accepted Samples.unselected)).
Proof.
  split.
  - apply (proj2 (proj2 (proj2
             (proj1 (handleEvaluate_title_and_guards Samples.accepted
                       Samples.ready)
                Samples.data_engineer eq_refl eq_refl
                ltac:(discriminate))))
             (lit "Analyst") Samples.uploaded);
      [reflexivity | discriminate | discriminate | reflexivity].
  - apply (proj2 (proj2
             (proj1 (proj2 (handleEvaluate_title_and_guards Samples.accepted
                              Samples.unselected))
                (or_introl eq_refl)))
             Samples.uploaded);
      [reflexivity | discriminate | discriminate | discriminate | reflexivity].
Defined.

Lemma poll_first_request (jobId : jsstring) (authenticated : bool) (i : tick)
    (st : page) :
  exists later,
    snd (fst (poll jobId authenticated i st)) = get (result_url jobId) :: later.
Proof.
  unfold poll. destruct (result_reply i) as [data |]; simpl; [| eauto].
  destruct (terminal (status data)); simpl; [| eauto].
  destruct (fetchApplications _ _ _). simpl. eauto.
Qed.

(** C4.  A request to [/evaluation/evaluate] has the body with exactly the
    members [job_title], [job_id], [cv_document_id] and
    [project_document_id], the two document ids being those of the reply
    to the upload request issued just before it; when the request
    resolves, its reply is set as the evaluation status the card shows and
    [pollResult] starts with the id of that reply, its first effect being
    the status request for that id. *)
Theorem handleEvaluate_submission (env : submission) (st : page) (b : body) :
  In (post evaluate_url b) (snd (handleEvaluate env st)) ->
  exists uploaded cv project cleared,
    upload_reply env = Resolved uploaded
    /\ b = Json [ ("job_title", JString (jobTitle st));
                  ("job_id", job_id_value (selectedJobId st));
                  ("cv_document_id", JString (cv_document_id uploaded));
                  ("project_document_id",
                   JString (project_document_id uploaded)) ]%string
    /\ body_keys b = [ "job_title"; "job_id"; "cv_document_id";
                       "project_document_id" ]%string
    /\ Forall (fun e => is_request e = false) cleared
    /\ (exists later,
         snd (handleEvaluate env st)
         = cleared
           ++ post upload_url
                (FormData [("cv", cv); ("project_report", project)]%string)
           :: post evaluate_url b :: later)
    /\ forall data, evaluate_reply env = Resolved data ->
       exists shown,
         evaluationStatus shown = Some data
         /\ option_map heading (evaluation_card shown)
            = Some (lit "Job #" ++ eval_id data)
         /\ option_map badge (evaluation_card shown)
            = Some (badge_class (status_name (status data)))
         /\ handleEvaluate env st
            = (fst (pollResult (eval_id data) true (ticks env) shown),
               cleared
               ++ [ post upload_url
                      (FormData [("cv", cv); ("project_report", project)]%string);
                    post evaluate_url b;
                    toast toast_info (lit "Evaluation queued.") ]
               ++ snd (pollResult (eval_id data) true (ticks env) shown))
         /\ (ticks env = [] ->
             evaluationStatus (fst (handleEvaluate env st)) = Some data)
         /\ (ticks env <> [] ->
             exists later,
               snd (pollResult (eval_id data) true (ticks env) shown)
               = get (result_url (eval_id data)) :: later).
Proof.
  intros Hin.
  destruct (handleEvaluate_posts env st b Hin)
    as (uploaded & cv & project & Hup & Hcv & Hpr & Hauth & Htitle & ->).
  destruct (resetPolling (setIsEvaluating true st)) as [st1 cleared] eqn:Ereset.
  pose proof (resetPolling_effects (setIsEvaluating true st)) as (Hq & _ & Hes).
  rewrite Ereset in Hq, Hes. simpl in Hq, Hes.
  exists uploaded, cv, project, cleared.
  split; [exact Hup |]. split; [reflexivity |]. split; [reflexivity |].
  split; [exact Hq |].
  assert (E : handleEvaluate env st
    = match evaluate_reply env with
      | Resolved data =>
          (fst (pollResult (eval_id data) true (ticks env)
                  (setEvaluationStatus (Some data) st1)),
           cleared
           ++ [ post upload_url
                  (FormData [("cv", cv); ("project_report", project)]%string);
                post evaluate_url (evaluate_body st uploaded);
                toast toast_info (lit "Evaluation queued.") ]
           ++ snd (pollResult (eval_id data) true (ticks env)
                     (setEvaluationStatus (Some data) st1)))
      | Rejected =>
          (setIsEvaluating false st1,
           cleared
           ++ [ post upload_url
                  (FormData [("cv", cv); ("project_report", project)]%string);
                post evaluate_url (evaluate_body st uploaded) ]
           ++ [ console_error;
                toast toast_error (lit "Failed to start evaluation.") ])
      end).
  { unfold handleEvaluate. rewrite Hauth, Hcv, Hpr, Htitle, Ereset, Hup. simpl.
    destruct (evaluate_reply env) as [data |]; [| reflexivity].
    now destruct (pollResult _ _ _ _). }
  split.
  - rewrite E. destruct (evaluate_reply env) as [data |]; simpl; eauto.
  - intros data Hdata. rewrite Hdata in E.
    exists (setEvaluationStatus (Some data) st1).
    split; [reflexivity |]. split; [reflexivity |]. split; [reflexivity |].
    split; [exact E |]. split.
    + intros Hnil. rewrite E, Hnil. reflexivity.
    + intros Hne. destruct (ticks env) as [| i rest]; [contradiction |].
      simpl.
      destruct (poll_first_request (eval_id data) true i
                  (setEvaluationStatus (Some data) st1)) as [later Hl].
      destruct (poll _ _ i _) as [[st2 done] again]. simpl in Hl. subst done.
      destruct again; [| simpl; eauto].
      destruct (pollResult _ _ rest st2). simpl. eauto.
Qed.

Lemma handleEvaluate_submission_witness :
  exists uploaded cv project cleared,
    upload_reply Samples.accepted = Resolved uploaded
    /\ evaluate_body Samples.ready Samples.uploaded
       = Json [ ("job_title", JString (jobTitle Samples.ready));
                ("job_id", job_id_value (selectedJobId Samples.ready));
                ("cv_document_id", JString (cv_document_id uploaded));
                ("project_document_id",
                 JString (project_document_id uploaded)) ]%string
    /\ body_keys (evaluate_body Samples.ready Samples.uploaded)
       = [ "job_title"; "job_id"; "cv_document_id";
           "project_document_id" ]%string
    /\ Forall (fun e => is_request e = false) cleared
    /\ (exists later,
         snd (handleEvaluate Samples.accepted Samples.ready)
         = cleared
           ++ post upload_url
                (FormData [("cv", cv); ("project_report", project)]%string)
           :: post evaluate_url (evaluate_body Samples.ready Samples.uploaded)
           :: later).
Proof.
  destruct (handleEvaluate_submission Samples.accepted Samples.ready
              (evaluate_body Samples.ready Samples.uploaded))
    as (uploaded & cv & project & cleared & H1 & H2 & H3 & H4 & H5 & _).
  - vm_compute. tauto.
  - exists uploaded, cv, project, cleared. repeat split; assumption.
Defined.

(** *** Browsing *)

Lemma startsWith_spec (hay needle : jsstring) :
  startsWith hay needle = true <-> exists rest, hay = needle ++ rest.
Proof.
  revert hay. induction needle as [| a needle IH]; intros hay; simpl.
  - split; [intros _; now exists hay | reflexivity].
  - destruct hay as [| b hay].
    + split; [discriminate | intros [rest H]; discriminate].
    + rewrite andb_true_iff, N.eqb_eq, IH. split.
      * intros [-> [rest ->]]. now exists rest.
      * intros [rest H]. injection H as -> ->. split; [reflexivity |].
        now exists rest.
Qed.

(** [includes] finds exactly the occurrences of the needle. *)
Lemma includes_spec (hay needle : jsstring) :
  includes hay needle = true <-> exists pre rest, hay = pre ++ needle ++ rest.
Proof.
  induction hay as [| b hay IH].
  - simpl. rewrite orb_false_r, startsWith_spec. split.
    + intros [rest H]. exists [], rest. exact H.
    + intros (pre & rest & H). destruct pre; [eauto | discriminate].
  - cbn [includes]. rewrite orb_true_iff, startsWith_spec, IH. split.
    + intros [[rest H] | (pre & rest & H)].
      * exists [], rest. exact H.
      * exists (b :: pre), rest. now rewrite H.
    + intros (pre & rest & H). destruct pre as [| c pre].
      * left. eauto.
      * right. injection H as _ H. eauto.
Qed.

Lemma slice_window {A} (l : list A) (start n : Z) :
  0 <= start -> 0 <= n ->
  slice l start (start + n) = take (Z.to_nat n) (drop (Z.to_nat start) l).
Proof.
  intros Hs Hn. unfold slice.
  destruct (start <? 0) eqn:E1; [lia |].
  destruct (start + n <? 0) eqn:E2; [lia |].
  destruct (Z_le_gt_dec (Z.of_nat (length l)) start) as [Hbig | Hsmall].
  - rewrite Z.min_r by lia. rewrite !drop_ge by lia. now rewrite !take_nil.
  - rewrite (Z.min_l start) by lia.
    destruct (Z_le_gt_dec (start + n) (Z.of_nat (length l))) as [Hin | Hout].
    + rewrite Z.min_l by lia. f_equal. lia.
    + rewrite Z.min_r by lia.
      rewrite !take_ge; [reflexivity | |]; rewrite length_drop; lia.
Qed.

Lemma slice_length {A} (l : list A) (start n : Z) :
  0 <= n -> (length (slice l start (start + n)) <= Z.to_nat n)%nat.
Proof.
  intros Hn. unfold slice. rewrite length_take, length_drop.
  destruct (start <? 0) eqn:E1; destruct (start + n <? 0) eqn:E2; lia.
Qed.

Lemma slice_In {A} (l : list A) (start stop : Z) (x : A) :
  In x (slice l start stop) -> In x l.
Proof.
  unfold slice. rewrite <- !list_elem_of_In. intros H.
  apply elem_of_take in H. destruct H as (i & H & _).
  rewrite lookup_drop in H. eapply list_elem_of_lookup_2. exact H.
Qed.

Section BrowsingFacts.

Variable toLowerCase : jsstring -> jsstring.

Lemma totalPages_positive (v : view) : 1 <= totalPages toLowerCase v.
Proof. unfold totalPages. apply Z.le_max_l. Qed.

Lemma totalPages_set_currentPage (p : Z) (v : view) :
  totalPages toLowerCase (set_currentPage p v) = totalPages toLowerCase v.
Proof. reflexivity. Qed.

(** An effect pass keeps the list and the filters and leaves the page in
    range. *)
Lemma effects_in_range (prev cur : view) :
  in_range toLowerCase prev -> 1 <= currentPage cur ->
  in_range toLowerCase (effects toLowerCase prev cur)
  /\ jobs (effects toLowerCase prev cur) = jobs cur
  /\ searchTitle (effects toLowerCase prev cur) = searchTitle cur
  /\ searchLocation (effects toLowerCase prev cur) = searchLocation cur.
Proof.
  intros [_ Hprev] Hcur. unfold effects, in_range.
  pose proof (totalPages_positive cur) as Hpos.
  destruct (totalPages toLowerCase cur <? currentPage cur) eqn:Hover.
  - destruct (negb (currentPage prev =? currentPage cur)
              || negb (totalPages toLowerCase prev =? totalPages toLowerCase cur))
      eqn:Hchanged; simpl.
    + rewrite totalPages_set_currentPage. simpl. repeat split; lia.
    + apply orb_false_elim in Hchanged as [H1 H2].
      apply negb_false_iff in H1, H2. apply Z.eqb_eq in H1, H2.
      apply Z.ltb_lt in Hover. lia.
  - rewrite andb_false_r. apply Z.ltb_ge in Hover.
    destruct (_ || _); simpl; [rewrite totalPages_set_currentPage; simpl |];
      repeat split; lia.
Qed.

(** Once the page is in range and the filters are those of the previous
    render, an effect pass changes nothing. *)
Lemma effects_settled (prev cur : view) :
  searchTitle prev = searchTitle cur ->
  searchLocation prev = searchLocation cur ->
  currentPage cur <= totalPages toLowerCase cur ->
  effects toLowerCase prev cur = cur.
Proof.
  intros Ht Hl Hle. unfold effects.
  rewrite !bool_decide_eq_true_2 by assumption. simpl.
  replace (totalPages toLowerCase cur <? currentPage cur) with false
    by (symmetry; apply Z.ltb_ge; exact Hle).
  now rewrite andb_false_r.
Qed.

(** Rendering settles, within the fuel given, on a state in range. *)
Lemma settle_in_range (fuel : nat) (prev cur : view) :
  in_range toLowerCase prev -> 1 <= currentPage cur ->
  exists v,
    settle toLowerCase (S fuel) prev cur = Some v
    /\ in_range toLowerCase v /\ jobs v = jobs cur
    /\ searchTitle v = searchTitle cur
    /\ searchLocation v = searchLocation cur.
Proof.
  intros Hprev Hcur.
  destruct (effects_in_range prev cur Hprev Hcur) as (Hin & Hj & Ht & Hl).
  cbn [settle].
  destruct (currentPage (effects toLowerCase prev cur) =? currentPage cur)
    eqn:Hsame.
  - exists cur. apply Z.eqb_eq in Hsame. repeat split; try lia.
    unfold in_range in Hin. rewrite Hsame in Hin.
    assert (E : totalPages toLowerCase (effects toLowerCase prev cur)
                = totalPages toLowerCase cur).
    { unfold totalPages, filteredJobs, matches. now rewrite Hj, Ht, Hl. }
    lia.
  - exists (effects toLowerCase prev cur).
    split; [| repeat split; tauto || apply Hin].
    assert (E : effects toLowerCase cur (effects toLowerCase prev cur)
                = effects toLowerCase prev cur).
    { apply effects_settled; [now rewrite Ht | now rewrite Hl | apply Hin]. }
    destruct fuel; cbn [settle]; rewrite E, Z.eqb_refl; reflexivity.
Qed.

Lemma handle_page_positive (a : action) (v : view) :
  1 <= currentPage v -> 1 <= currentPage (handle toLowerCase a v).
Proof.
  intros H. destruct a; simpl; try exact H.
  - destruct (currentPage v =? 1); simpl; lia.
  - pose proof (totalPages_positive v).
    destruct (totalPages toLowerCase v <=? currentPage v); simpl; lia.
Qed.

Lemma dispatch_in_range (a : action) (v : view) :
  in_range toLowerCase v -> exists v', dispatch toLowerCase a v = Some v' /\ in_range toLowerCase v'.
Proof.
  intros Hv. unfold dispatch.
  destruct (settle_in_range 1 v (handle toLowerCase a v) Hv
              (handle_page_positive a v (proj1 Hv))) as (v' & E & Hin & _).
  eauto.
Qed.

Lemma run_in_range (acts : list action) (v : view) :
  in_range toLowerCase v -> exists v', run toLowerCase acts v = Some v' /\ in_range toLowerCase v'.
Proof.
  revert v. induction acts as [| a acts IH]; intros v Hv; simpl; [eauto |].
  destruct (dispatch_in_range a v Hv) as (v1 & -> & Hv1). now apply IH.
Qed.

End BrowsingFacts.

(** C9.  Whatever the user and the network do after the page is mounted,
    rendering settles on a state in which [paginatedJobs] has at most 5
    jobs and is the slice of [filteredJobs] from index (p - 1) * 5 to p * 5
    for the current page p, that is its 5 elements from position
    (p - 1) * 5 on; [totalPages] is at least 1; the current page lies in
    [1, totalPages]; and every displayed job is one of the fetched jobs
    whose lower-cased title and location contain the lower-cased search
    strings. *)
Theorem pagination_invariants
    (toLowerCase : jsstring -> jsstring) (acts : list action) :
  exists v,
    run toLowerCase acts mounted = Some v
    /\ (length (paginatedJobs toLowerCase v) <= 5)%nat
    /\ paginatedJobs toLowerCase v
       = slice (filteredJobs toLowerCase v)
           ((currentPage v - 1) * 5) (currentPage v * 5)
    /\ paginatedJobs toLowerCase v
       = take 5 (drop (Z.to_nat ((currentPage v - 1) * 5))
                   (filteredJobs toLowerCase v))
    /\ 1 <= totalPages toLowerCase v
    /\ 1 <= currentPage v <= totalPages toLowerCase v
    /\ forall job, In job (paginatedJobs toLowerCase v) ->
         In job (jobs v)
         /\ (exists pre rest,
               toLowerCase (title job)
               = pre ++ toLowerCase (searchTitle v) ++ rest)
         /\ (exists pre rest,
               toLowerCase (location_or_empty job)
               = pre ++ toLowerCase (searchLocation v) ++ rest).
Proof.
  destruct (run_in_range toLowerCase acts mounted) as (v & E & Hv).
  { unfold in_range. simpl. pose proof (totalPages_positive toLowerCase mounted).
    lia. }
  exists v. split; [exact E |].
  assert (Hslice : paginatedJobs toLowerCase v
                   = slice (filteredJobs toLowerCase v)
                       ((currentPage v - 1) * 5) ((currentPage v - 1) * 5 + 5))
    by reflexivity.
  split; [| split; [| split; [| split; [| split]]]].
  - rewrite Hslice. apply (slice_length _ _ 5). lia.
  - rewrite Hslice. f_equal. lia.
  - rewrite Hslice. apply (slice_window _ _ 5); unfold in_range in Hv; lia.
  - apply totalPages_positive.
  - exact Hv.
  - intros job Hin. rewrite Hslice in Hin. apply slice_In in Hin.
    unfold filteredJobs in Hin. apply filter_In in Hin as [Hjobs Hmatch].
    unfold matches in Hmatch. apply andb_prop in Hmatch as [Ht Hl].
    split; [exact Hjobs |]. split; now apply includes_spec.
Qed.

Lemma pagination_invariants_witness :
  exists v,
    run Samples.ascii_lower Samples.browsing mounted = Some v
    /\ (length (paginatedJobs Samples.ascii_lower v) <= 5)%nat
    /\ forall job, In job (paginatedJobs Samples.ascii_lower v) ->
         In job (jobs v).
Proof.
  destruct (pagination_invariants Samples.ascii_lower Samples.browsing)
    as (v & E & Hlen & _ & _ & _ & _ & H).
  exists v. split; [exact E |]. split; [exact Hlen |].
  intros job Hin. exact (proj1 (H job Hin)).
Defined.

(** The sample session: seven jobs arrive, the user pages forward, then
    filters by title and location; the filters bring the page back to 1 and
    leave five jobs, all on that page. *)
Example browsing_session :
  option_map (fun v => (currentPage v, totalPages Samples.ascii_lower v,
                        map id (paginatedJobs Samples.ascii_lower v)))
    (run Samples.ascii_lower Samples.browsing mounted)
  = Some (1, 1, [1; 3; 5; 6; 7]).
Proof. vm_compute. reflexivity. Qed.

(** Between a render and its effects the page can be out of range: after
    paging to the second page, a reload that returns one job renders page 2
    of 1 before the clamping effect runs. *)
Example page_out_of_range_before_effects :
  let v := {| jobs := Samples.seven_jobs; searchTitle := [];
              searchLocation := []; currentPage := 2 |} in
  let rendered := handle Samples.ascii_lower
                    (JobsLoaded [Samples.job 1 "Designer" "Paris"]) v in
  currentPage rendered = 2
  /\ totalPages Samples.ascii_lower rendered = 1
  /\ paginatedJobs Samples.ascii_lower rendered = []
  /\ option_map currentPage
       (dispatch Samples.ascii_lower
          (JobsLoaded [Samples.job 1 "Designer" "Paris"]) v) = Some 1.
Proof. vm_compute. repeat split; reflexivity. Qed.

(** *** The job store and the poll endpoint *)

Import Backend.

(** What one write does to one job. *)
Lemma step_job (r : request) (store : gmap jsstring EvaluationJob)
    (id : jsstring) :
  match store !! id, step r store !! id with
  | None, None => True
  | None, Some j' =>
      job_status j' = queued /\ job_result j' = None /\ job_error j' = None
  | Some j, None => False
  | Some j, Some j' =>
      j' = j
      \/ (job_status j = queued /\ job_status j' = processing
          /\ job_result j' = job_result j /\ job_error j' = job_error j)
      \/ (job_status j = processing /\ job_status j' = completed
          /\ is_Some (job_result j') /\ job_error j' = job_error j)
      \/ (job_status j = processing /\ job_status j' = failed
          /\ job_result j' = job_result j /\ is_Some (job_error j'))
  end.
Proof.
  destruct r as [id0 now | id0 now | id0 o now]; unfold step;
    (destruct (decide (id0 = id)) as [-> | Hne];
     [ destruct (store !! id) as [j |] eqn:E;
       [ try destruct (job_status j) eqn:Es; try destruct o |];
       rewrite ?lookup_insert_eq, ?E; simpl; eauto 10
     | destruct (store !! id0) as [j0 |] eqn:E0;
       [ try destruct (job_status j0); try destruct o |];
       rewrite ?lookup_insert_ne by assumption;
       destruct (store !! id); auto ]).
Qed.

Lemma run_app (rs rs' : list request) (store : gmap jsstring EvaluationJob) :
  run (rs ++ rs') store = run rs' (run rs store).
Proof. revert store. induction rs as [| r rs IH]; intros store; simpl; auto. Qed.

(** The store one write further in a history. *)
Lemma run_take_S (rs : list request) (n : nat) :
  run (take (S n) rs) ∅
  = match rs !! n with
    | Some r => step r (run (take n rs) ∅)
    | None => run (take n rs) ∅
    end.
Proof.
  destruct (rs !! n) as [r |] eqn:E.
  - rewrite (take_S_r _ _ _ E), run_app. reflexivity.
  - apply lookup_ge_None in E. rewrite !take_ge by lia. reflexivity.
Qed.

Lemma run_consistent (rs : list request) (n : nat) (id : jsstring)
    (j : EvaluationJob) :
  run (take n rs) ∅ !! id = Some j -> consistent j.
Proof.
  revert j. induction n as [| n IH]; intros j.
  - rewrite take_0. simpl. now rewrite lookup_empty.
  - rewrite run_take_S. destruct (rs !! n) as [r |]; [| apply IH].
    pose proof (step_job r (run (take n rs) ∅) id) as Hstep.
    intros E. rewrite E in Hstep.
    destruct (run (take n rs) ∅ !! id) as [j0 |].
    + specialize (IH j0 eq_refl). destruct IH as [IH1 IH2].
      unfold consistent.
      destruct Hstep as [-> | [(H1 & H2 & H3 & H4) | [(H1 & H2 & H3 & H4)
                                                      | (H1 & H2 & H3 & H4)]]].
      * split; assumption.
      * rewrite H2, H3, H4, IH1, IH2, H1. split; split; discriminate.
      * rewrite H2, H4, IH2, H1. split; split; auto; discriminate.
      * rewrite H2, H3, IH1, H1. split; split; auto; discriminate.
    + destruct Hstep as (H1 & H2 & H3). unfold consistent.
      rewrite H1, H2, H3. split; split; try discriminate;
        intros [x Hx]; discriminate.
Qed.

(** C2.  In every status object the poll endpoint returns, the result is
    present exactly when the status is completed and the error exactly when
    the status is failed; and the evaluation card renders the result body
    exactly when the result is present and the error paragraph exactly when
    the error is a non-empty string. *)
Theorem result_and_error_follow_status
    (rs : list request) (n : nat) (id : jsstring) (es : EvaluationStatus)
    (st : page) (shown : EvaluationStatus) :
  (observed rs n id = Some es ->
   (present (result es) = true <-> status es = completed)
   /\ (present (error es) = true <-> status es = failed))
  /\ (evaluationStatus st = Some shown ->
      exists c,
        evaluation_card st = Some c
        /\ (is_Some (result_body c) <-> present (result shown) = true)
        /\ (is_Some (error_paragraph c)
            <-> exists e, error shown = Def e /\ e <> [])).
Proof.
  split.
  - unfold observed, poll_evaluation.
    destruct (run (take n rs) ∅ !! id) as [j |] eqn:E; [| discriminate].
    intros [= <-]. simpl.
    destruct (run_consistent rs n id j E) as [Hres Herr].
    rewrite <- Hres, <- Herr.
    destruct (job_result j), (job_error j); simpl;
      split; split; intros H; try reflexivity; try discriminate;
      try (now eexists); destruct H; discriminate.
  - intros Hshown. unfold evaluation_card. rewrite Hshown.
    eexists. split; [reflexivity |]. simpl. split.
    + destruct (result shown); simpl; split; intros H;
        try reflexivity; try discriminate; try (now eexists);
        destruct H; discriminate.
    + destruct (error shown) as [| | e]; simpl.
      * split; [intros [x Hx]; discriminate | intros (e & He & _); discriminate].
      * split; [intros [x Hx]; discriminate | intros (e & He & _); discriminate].
      * destruct e as [| c e]; simpl.
        -- split; [intros [x Hx]; discriminate |].
           intros (e' & [= <-] & Hne). contradiction.
        -- split; [| now eexists]. intros _. eexists. split; [reflexivity |].
           discriminate.
Qed.

Lemma result_and_error_follow_status_witness :
  (present (result (Samples.status_object completed (Def Samples.scored) Null))
   = true <-> completed = completed)
  /\ exists c,
       evaluation_card
         (setEvaluationStatus
            (Some (Samples.status_object completed (Def Samples.scored) Null))
            Samples.ready) = Some c
       /\ (is_Some (result_body c)
           <-> present (result (Samples.status_object completed
                                  (Def Samples.scored) Null)) = true).
Proof.
  pose proof (result_and_error_follow_status Samples.history 4 (lit "job-1")
    {| eval_id := lit "job-1"; status := completed;
       result := Def Samples.scored; error := Null;
       queued_at := Def (lit "10:00"); started_at := Def (lit "10:02");
       finished_at := Def (lit "10:05") |}
    (setEvaluationStatus
       (Some (Samples.status_object completed (Def Samples.scored) Null))
       Samples.ready)
    (Samples.status_object completed (Def Samples.scored) Null)) as [H1 H2].
  split.
  - apply H1. vm_compute. reflexivity.
  - destruct (H2 eq_refl) as (c & Hc & Hbody & _). exists c. split; assumption.
Defined.

(** What a caller sees of a job before and after one more write. *)
Lemma observed_next (rs : list request) (n : nat) (id : jsstring) :
  match observed rs n id, observed rs (S n) id with
  | None, None => True
  | None, Some es' => status es' = queued
  | Some _, None => False
  | Some es, Some es' =>
      status es' = status es \/ link (status es) (status es') = true
  end.
Proof.
  unfold observed, poll_evaluation. rewrite run_take_S.
  destruct (rs !! n) as [r |].
  - pose proof (step_job r (run (take n rs) ∅) id) as H.
    destruct (run (take n rs) ∅ !! id) as [j |],
             (step r (run (take n rs) ∅) !! id) as [j' |]; simpl; try tauto.
    destruct H as [-> | [(H1 & H2 & _) | [(H1 & H2 & _) | (H1 & H2 & _)]]];
      [now left | right; now rewrite H1, H2 ..].
  - destruct (run (take n rs) ∅ !! id); simpl; auto.
Qed.

Lemma follows_refl (s : Status) : follows s s = true.
Proof. now destruct s. Qed.

Lemma follows_link (a b c : Status) :
  follows a b = true -> b = c \/ link b c = true -> follows a c = true.
Proof. intros H [<- | L]; [exact H |]. now destruct a, b, c. Qed.

(** A job, once seen, is seen ever after, at the same place of the chain or
    further along it; a terminal status stays. *)
Lemma observed_later (rs : list request) (id : jsstring) (n k : nat)
    (es : EvaluationStatus) :
  observed rs n id = Some es ->
  exists es',
    observed rs (k + n) id = Some es'
    /\ follows (status es) (status es') = true
    /\ (terminal (status es) = true -> status es' = status es).
Proof.
  intros Hn. induction k as [| k (es1 & E1 & F1 & T1)]; simpl.
  - exists es. split; [exact Hn |]. split; [apply follows_refl | reflexivity].
  - pose proof (observed_next rs (k + n) id) as Hnext. rewrite E1 in Hnext.
    destruct (observed rs (S (k + n)) id) as [es2 |]; [| contradiction].
    exists es2. split; [reflexivity |]. split.
    + apply (follows_link _ (status es1)); [exact F1 |].
      destruct Hnext as [-> | L]; auto.
    + intros Ht. specialize (T1 Ht). destruct Hnext as [-> | L]; [exact T1 |].
      rewrite T1 in L. now destruct (status es).
Qed.

(** A job seen in a terminal state was seen processing before. *)
Lemma observed_processing_before (rs : list request) (id : jsstring) (m : nat)
    (es' : EvaluationStatus) :
  observed rs m id = Some es' -> terminal (status es') = true ->
  exists n es, (n < m)%nat /\ observed rs n id = Some es
               /\ status es = processing.
Proof.
  revert es'. induction m as [| m IH]; intros es' Hm Ht.
  - unfold observed, poll_evaluation in Hm. rewrite take_0 in Hm. simpl in Hm.
    rewrite lookup_empty in Hm. discriminate.
  - pose proof (observed_next rs m id) as Hnext. rewrite Hm in Hnext.
    destruct (observed rs m id) as [es |] eqn:E.
    + destruct Hnext as [Hsame | L].
      * rewrite Hsame in Ht. destruct (IH es eq_refl Ht) as (n & e & Hlt & He).
        exists n, e. split; [lia | exact He].
      * exists m, es. split; [lia |]. split; [exact E |].
        destruct (status es), (status es'); try discriminate; reflexivity.
    + rewrite Hnext in Ht. discriminate.
Qed.

(** C3.  A status a caller observes is one of the four values queued,
    processing, completed and failed, for which the badge table has one
    entry each.  Over successive polls of one job the status only moves
    along the chain queued, processing, then completed or failed: a job
    first appears as queued, one write moves it by at most one link, a later
    poll never shows an earlier status, a terminal status once observed
    stays, and a job in a terminal state has been processing before. *)
Theorem status_advances_along_chain (rs : list request) (id : jsstring) :
  (forall n es, observed rs n id = Some es ->
     In (status_name (status es))
        [lit "queued"; lit "processing"; lit "completed"; lit "failed"])
  /\ map fst statusBadge
     = map status_name [queued; processing; completed; failed]
  /\ (forall n es, observed rs n id = None ->
        observed rs (S n) id = Some es -> status es = queued)
  /\ (forall n es es', observed rs n id = Some es ->
        observed rs (S n) id = Some es' ->
        status es' = status es \/ link (status es) (status es') = true)
  /\ (forall n m es es', (n <= m)%nat -> observed rs n id = Some es ->
        observed rs m id = Some es' ->
        follows (status es) (status es') = true
        /\ (terminal (status es) = true -> status es' = status es))
  /\ (forall m es', observed rs m id = Some es' ->
        terminal (status es') = true ->
        exists n es, (n < m)%nat /\ observed rs n id = Some es
                     /\ status es = processing).
Proof.
  split; [| split; [| split; [| split; [| split]]]].
  - intros n es _. destruct (status es); simpl; tauto.
  - reflexivity.
  - intros n es Hn HS. pose proof (observed_next rs n id) as H.
    now rewrite Hn, HS in H.
  - intros n es es' Hn HS. pose proof (observed_next rs n id) as H.
    now rewrite Hn, HS in H.
  - intros n m es es' Hle Hn Hm.
    destruct (observed_later rs id n (m - n) es Hn) as (es1 & E1 & F1 & T1).
    replace (m - n + n)%nat with m in E1 by lia.
    rewrite Hm in E1. injection E1 as <-. auto.
  - apply observed_processing_before.
Qed.

Lemma status_advances_along_chain_witness :
  follows queued completed = true
  /\ exists n es, (n < 4)%nat
       /\ observed Samples.history n (lit "job-1") = Some es
       /\ status es = processing.
Proof.
  pose proof (status_advances_along_chain Samples.history (lit "job-1"))
    as (_ & _ & _ & _ & Hlater & Hbefore).
  split.
  - apply (Hlater 1%nat 4%nat
             {| eval_id := lit "job-1"; status := queued; result := Null;
                error := Null; queued_at := Def (lit "10:00");
                started_at := Null; finished_at := Null |}
             {| eval_id := lit "job-1"; status := completed;
                result := Def Samples.scored; error := Null;
                queued_at := Def (lit "10:00");
                started_at := Def (lit "10:02");
                finished_at := Def (lit "10:05") |});
      [lia | vm_compute; reflexivity | vm_compute; reflexivity].
  - apply (Hbefore 4%nat
             {| eval_id := lit "job-1"; status := completed;
                result := Def Samples.scored; error := Null;
                queued_at := Def (lit "10:00");
                started_at := Def (lit "10:02");
                finished_at := Def (lit "10:05") |});
      [vm_compute; reflexivity | reflexivity].
Defined.

(** The sample history, poll by poll: the first job is queued, still queued
    while the second is submitted, processing, completed, and stays
    completed when a worker tries to claim it again; the second job skips
    nothing on its way to failed. *)
Example history_polled :
  map (fun n => option_map status (observed Samples.history n (lit "job-1")))
      (seq 0 8)
  = [None; Some queued; Some queued; Some processing; Some completed;
     Some completed; Some completed; Some completed]
  /\ map (fun n => option_map status (observed Samples.history n (lit "job-2")))
         (seq 0 8)
     = [None; None; Some queued; Some queued; Some queued; Some processing;
        Some failed; Some failed].
Proof. vm_compute. split; reflexivity. Qed.

(** ** Further properties of the client *)

(** *** The session in storage *)

Lemma login_storage (t : AuthTokens) (e : option jsstring)
    (a : AuthContext.auth) (k : jsstring) :
  Api.getItem k (AuthContext.localStorage (AuthContext.login t e a))
  = if bool_decide (k = Api.accessToken) then Some (access t)
    else if bool_decide (k = Api.refreshToken) then Some (refresh t)
    else if bool_decide (k = Api.userEmailKey)
         then match e with
              | Some m => if truthy_string m then Some m
                          else Api.getItem k (AuthContext.localStorage a)
              | None => Api.getItem k (AuthContext.localStorage a)
              end
         else Api.getItem k (AuthContext.localStorage a).
Proof.
  destruct auth_keys_distinct as (Har & Hau & Hru).
  unfold AuthContext.login, Api.getItem, Api.setItem.
  repeat case_bool_decide; subst;
    try contradiction;
    destruct e as [m |]; [destruct (truthy_string m) | | destruct (truthy_string m) |
                          | destruct (truthy_string m) | | destruct (truthy_string m) |];
    simpl;
    repeat first
      [ rewrite lookup_insert_eq
      | rewrite lookup_insert_ne by (first [assumption | apply not_eq_sym; assumption]) ];
    reflexivity.
Qed.

Lemma logout_storage (a : AuthContext.auth) (k : jsstring) :
  Api.getItem k (AuthContext.localStorage (AuthContext.logout a))
  = if bool_decide (k = Api.accessToken \/ k = Api.refreshToken
                    \/ k = Api.userEmailKey)
    then None else Api.getItem k (AuthContext.localStorage a).
Proof.
  unfold AuthContext.logout, Api.clearAuthHeaders, Api.getItem, Api.removeItem.
  simpl. rewrite !lookup_delete. repeat case_decide; subst;
    case_bool_decide; try reflexivity; tauto.
Qed.

(** X1.  [login] and [logout] write to the keys [accessToken],
    [refreshToken] and [userEmail] only: every other key of the storage
    keeps its value.  A [login] without an e-mail, or with an empty one,
    leaves the stored e-mail and the e-mail of the context as the previous
    session left them. *)
Theorem session_calls_frame
    (c : AuthContext.call) (t : AuthTokens) (a : AuthContext.auth)
    (k : jsstring) :
  (k <> Api.accessToken -> k <> Api.refreshToken -> k <> Api.userEmailKey ->
   Api.getItem k (AuthContext.localStorage (AuthContext.apply_call c a))
   = Api.getItem k (AuthContext.localStorage a))
  /\ (forall e, e = None \/ e = Some [] ->
      Api.getItem Api.userEmailKey
        (AuthContext.localStorage (AuthContext.login t e a))
      = Api.getItem Api.userEmailKey (AuthContext.localStorage a)
      /\ AuthContext.userEmail (AuthContext.login t e a)
         = AuthContext.userEmail a).
Proof.
  destruct auth_keys_distinct as (Har & Hau & Hru). split.
  - intros H1 H2 H3. destruct c as [t' e |]; cbn [AuthContext.apply_call].
    + rewrite login_storage.
      now rewrite !bool_decide_eq_false_2 by assumption.
    + rewrite logout_storage. rewrite bool_decide_eq_false_2; [reflexivity |].
      tauto.
  - intros e [-> | ->]; (split; [| reflexivity]); rewrite login_storage;
      rewrite !bool_decide_eq_false_2 by (apply not_eq_sym; assumption);
      now rewrite bool_decide_eq_true_2.
Qed.

Lemma session_calls_frame_witness :
  Api.getItem (lit "theme")
    (AuthContext.localStorage
       (AuthContext.apply_call AuthContext.Logout
          (AuthContext.initial Samples.stored)))
  = Api.getItem (lit "theme") Samples.stored.
Proof.
  apply (proj1 (session_calls_frame AuthContext.Logout Samples.fresh_tokens
                  (AuthContext.initial Samples.stored) (lit "theme")));
    discriminate.
Defined.

(** X2.  A session survives a reload of the page exactly when both tokens
    are non-empty: the provider mounted on the storage that [login] left is
    authenticated if and only if the access and the refresh token are both
    non-empty, and then holds the same tokens and a non-empty e-mail given
    at login.  So a login with an empty refresh token authenticates the
    running page and is lost on reload. *)
Theorem login_survives_reload
    (t : AuthTokens) (e : option jsstring) (a : AuthContext.auth) :
  let reloaded :=
    AuthContext.initial (AuthContext.localStorage (AuthContext.login t e a)) in
  (AuthContext.isAuthenticated reloaded = true
   <-> access t <> [] /\ refresh t <> [])
  /\ (access t <> [] -> refresh t <> [] ->
      AuthContext.tokens reloaded = Some t)
  /\ (forall m, e = Some m -> m <> [] ->
      AuthContext.userEmail reloaded = Some m)
  /\ (access t <> [] -> refresh t = [] ->
      AuthContext.isAuthenticated (AuthContext.login t e a) = true
      /\ AuthContext.isAuthenticated reloaded = false).
Proof.
  destruct auth_keys_distinct as (Har & Hau & Hru).
  intros reloaded.
  assert (Htok : AuthContext.tokens reloaded
                 = if truthy_string (access t) && truthy_string (refresh t)
                   then Some t else None).
  { unfold reloaded, AuthContext.initial. cbn [AuthContext.tokens].
    rewrite !login_storage.
    rewrite bool_decide_eq_true_2 by reflexivity.
    rewrite (bool_decide_eq_false_2 (Api.refreshToken = Api.accessToken))
      by (apply not_eq_sym; assumption).
    rewrite bool_decide_eq_true_2 by reflexivity.
    destruct t as [acc ref]. reflexivity. }
  assert (Hauth : AuthContext.isAuthenticated reloaded
                  = truthy_string (access t) && truthy_string (refresh t)).
  { unfold AuthContext.isAuthenticated. rewrite Htok. clear Htok.
    destruct (truthy_string (access t)) eqn:Ea; simpl; [| reflexivity].
    destruct (truthy_string (refresh t)); simpl; [exact Ea | reflexivity]. }
  split; [| split; [| split]].
  - rewrite Hauth. destruct (access t), (refresh t); simpl; split;
      first [ discriminate
            | intros H; destruct H; congruence
            | intros _; split; discriminate
            | intros _; reflexivity ].
  - intros Ha Hr. rewrite Htok.
    destruct (access t), (refresh t); simpl; congruence.
  - intros m -> Hm. unfold reloaded, AuthContext.initial.
    cbn [AuthContext.userEmail]. rewrite login_storage.
    rewrite !bool_decide_eq_false_2 by (apply not_eq_sym; assumption).
    rewrite bool_decide_eq_true_2 by reflexivity.
    now destruct m.
  - intros Ha Hr. split.
    + unfold AuthContext.isAuthenticated, AuthContext.login.
      destruct e as [m |]; [destruct (truthy_string m) |]; simpl;
        now destruct (access t).
    + rewrite Hauth, Hr. simpl. apply andb_false_r.
Qed.

Lemma login_survives_reload_witness :
  AuthContext.tokens
    (AuthContext.initial
       (AuthContext.localStorage
          (AuthContext.login Samples.fresh_tokens (Some (lit "bo@example.org"))
             (AuthContext.initial Samples.stored))))
  = Some Samples.fresh_tokens.
Proof.
  apply (proj1 (proj2 (login_survives_reload Samples.fresh_tokens
                         (Some (lit "bo@example.org"))
                         (AuthContext.initial Samples.stored))));
    discriminate.
Defined.

(** X3.  After [logout] nothing of the session is left: a reload of the
    page mounts a provider without tokens and without e-mail, the request
    interceptor sets no [Authorization] header, and a second [logout]
    changes nothing. *)
Theorem logout_ends_session (a : AuthContext.auth) :
  let out := AuthContext.logout a in
  let reloaded := AuthContext.initial (AuthContext.localStorage out) in
  AuthContext.tokens reloaded = None
  /\ AuthContext.userEmail reloaded = None
  /\ AuthContext.isAuthenticated reloaded = false
  /\ Api.authorization (AuthContext.localStorage out) = None
  /\ AuthContext.logout out = out.
Proof.
  intros out reloaded.
  assert (Hkey : forall k,
    k = Api.accessToken \/ k = Api.refreshToken \/ k = Api.userEmailKey ->
    Api.getItem k (AuthContext.localStorage out) = None).
  { intros k Hk. unfold out. rewrite logout_storage.
    now rewrite bool_decide_eq_true_2. }
  assert (Htok : AuthContext.tokens reloaded = None).
  { unfold reloaded, AuthContext.initial. cbn [AuthContext.tokens].
    rewrite (Hkey Api.accessToken) by tauto. reflexivity. }
  split; [exact Htok |]. split; [| split; [| split]].
  - unfold reloaded, AuthContext.initial. cbn [AuthContext.userEmail].
    apply Hkey. tauto.
  - unfold AuthContext.isAuthenticated. now rewrite Htok.
  - unfold Api.authorization. rewrite (Hkey Api.accessToken) by tauto.
    reflexivity.
  - unfold AuthContext.logout at 1. unfold out at 2. unfold AuthContext.logout.
    f_equal. apply map_eq. intros k.
    change (Api.getItem k
              (AuthContext.localStorage (AuthContext.logout out))
            = Api.getItem k (AuthContext.localStorage (AuthContext.logout a))).
    rewrite logout_storage. case_bool_decide as Hk; [| reflexivity].
    symmetry. now apply Hkey.
Qed.

(** The tokens of the context are the ones in storage. *)
Lemma after_mirrors_storage (cs : list AuthContext.call) (a : AuthContext.auth) :
  (forall t, AuthContext.tokens a = Some t ->
     Api.getItem Api.accessToken (AuthContext.localStorage a)
     = Some (access t)) ->
  forall t, AuthContext.tokens (AuthContext.after cs a) = Some t ->
    Api.getItem Api.accessToken
      (AuthContext.localStorage (AuthContext.after cs a))
    = Some (access t).
Proof.
  revert a. induction cs as [| c cs IH]; intros a Ha; [exact Ha |].
  unfold AuthContext.after. cbn [fold_left]. apply IH.
  destruct c as [t' e |]; cbn [AuthContext.apply_call].
  - intros t Ht. rewrite login_storage.
    rewrite bool_decide_eq_true_2 by reflexivity.
    unfold AuthContext.login in Ht.
    destruct e as [m |]; [destruct (truthy_string m) |]; simpl in Ht;
      congruence.
  - discriminate.
Qed.

(** X4.  Whatever the storage held when the provider mounted and whatever
    logins and logouts followed, an authenticated context goes with a
    request interceptor that sends the context's own access token: when
    [isAuthenticated] is true, the [Authorization] header is "Bearer "
    followed by that token. *)
Theorem authenticated_requests_carry_token
    (ls : Api.storage) (cs : list AuthContext.call) :
  let a := AuthContext.after cs (AuthContext.initial ls) in
  AuthContext.isAuthenticated a = true ->
  exists t,
    AuthContext.tokens a = Some t
    /\ Api.authorization (AuthContext.localStorage a)
       = Some (lit "Bearer " ++ access t).
Proof.
  intros a Hauth. subst a.
  unfold AuthContext.isAuthenticated in Hauth.
  destruct (AuthContext.tokens _) as [t |] eqn:Ht; [| discriminate].
  exists t. split; [reflexivity |].
  unfold Api.authorization.
  rewrite (after_mirrors_storage cs (AuthContext.initial ls)) with (t := t);
    [| | exact Ht].
  - now rewrite Hauth.
  - intros t0. unfold AuthContext.initial.
    cbn [AuthContext.tokens AuthContext.localStorage].
    destruct (Api.getItem Api.accessToken ls) as [acc |]; [| discriminate].
    destruct (Api.getItem Api.refreshToken ls) as [ref |]; [| discriminate].
    destruct (truthy_string acc && truthy_string ref); [| discriminate].
    now intros [= <-].
Qed.

Lemma authenticated_requests_carry_token_witness :
  exists t,
    AuthContext.tokens
      (AuthContext.after
         [AuthContext.Logout; AuthContext.Login Samples.fresh_tokens None]
         (AuthContext.initial Samples.stored)) = Some t
    /\ Api.authorization
         (AuthContext.localStorage
            (AuthContext.after
               [AuthContext.Logout; AuthContext.Login Samples.fresh_tokens None]
               (AuthContext.initial Samples.stored)))
       = Some (lit "Bearer " ++ access t).
Proof.
  apply (authenticated_requests_carry_token Samples.stored
           [AuthContext.Logout; AuthContext.Login Samples.fresh_tokens None]).
  reflexivity.
Defined.

(** The converse fails: with an access token and no refresh token in
    storage the provider mounts unauthenticated while the interceptor still
    sends the token. *)
Example token_sent_while_signed_out :
  AuthContext.isAuthenticated (AuthContext.initial Samples.half_session) = false
  /\ Api.authorization Samples.half_session = Some (lit "Bearer a1").
Proof. vm_compute. split; reflexivity. Qed.

(** *** The sign-in dialog *)

(** X5.  [handleSubmit] sends nothing while the e-mail or the password is
    empty, sends at most one request otherwise, and changes the
    authentication context in one case only: in login mode, with both
    fields filled, when the token request resolves; the context is then the
    one [login] makes of the reply and the typed e-mail. *)
Theorem handleSubmit_session_only_on_login
    (mode : Forms.AuthMode) (env : AuthModal.server) (m : AuthModal.modal)
    (a : AuthContext.auth) :
  let out := AuthModal.handleSubmit mode env m a in
  (forall url b, In (Forms.post url b) (snd out) ->
     AuthModal.email (AuthModal.fields m) <> []
     /\ AuthModal.password (AuthModal.fields m) <> [])
  /\ (length (List.filter Forms.is_request (snd out)) <= 1)%nat
  /\ (snd (fst out) <> a ->
      mode = Forms.mode_login
      /\ AuthModal.email (AuthModal.fields m) <> []
      /\ AuthModal.password (AuthModal.fields m) <> []
      /\ exists data,
           AuthModal.token_reply env = Forms.Resolved data
           /\ snd (fst out)
              = AuthContext.login data
                  (Some (AuthModal.email (AuthModal.fields m))) a).
Proof.
  unfold AuthModal.handleSubmit.
  destruct (AuthModal.email (AuthModal.fields m)) as [| c1 e1];
    [simpl; split; [intros url b [H | []]; discriminate |];
     split; [lia | intros H; contradiction] |].
  destruct (AuthModal.password (AuthModal.fields m)) as [| c2 p2];
    [simpl; split; [intros url b [H | []]; discriminate |];
     split; [lia | intros H; contradiction] |].
  cbn [truthy_string negb orb].
  destruct mode.
  - destruct (AuthModal.token_reply env) as [data | e]; cbn [fst snd].
    + split; [intros; split; discriminate |]. split; [simpl; lia |].
      intros _. repeat split; try discriminate. now exists data.
    + split; [intros; split; discriminate |]. split; [simpl; lia |].
      intros H. contradiction.
  - destruct (AuthModal.register_reply env) as [u | e]; cbn [fst snd];
      (split; [intros; split; discriminate |]); (split; [simpl; lia |]);
      intros H; contradiction.
Qed.

Lemma handleSubmit_session_only_on_login_witness :
  exists data,
    AuthModal.token_reply Samples.granting = Forms.Resolved data
    /\ snd (fst (AuthModal.handleSubmit Forms.mode_login Samples.granting
                   Samples.typed (AuthContext.initial ∅)))
       = AuthContext.login data (Some (lit "bo@example.org"))
           (AuthContext.initial ∅).
Proof.
  apply (proj2 (proj2 (handleSubmit_session_only_on_login Forms.mode_login
                         Samples.granting Samples.typed
                         (AuthContext.initial ∅)))).
  discriminate.
Defined.

(** X6.  A sign-in that succeeds stores the session: with both fields
    filled and a resolved token request, the storage holds the access and
    the refresh token of the reply and the typed e-mail, the context shows
    that e-mail, it is authenticated exactly when the access token is not
    empty, the form keeps what was typed, [loading] is off, and the effects
    are the request with the e-mail as [username], the welcome toast and
    the closing of the dialog. *)
Theorem sign_in_stores_session
    (env : AuthModal.server) (m : AuthModal.modal) (a : AuthContext.auth)
    (data : AuthTokens) :
  AuthModal.email (AuthModal.fields m) <> [] ->
  AuthModal.password (AuthModal.fields m) <> [] ->
  AuthModal.token_reply env = Forms.Resolved data ->
  let out := AuthModal.handleSubmit Forms.mode_login env m a in
  let a' := snd (fst out) in
  Api.getItem Api.accessToken (AuthContext.localStorage a')
  = Some (access data)
  /\ Api.getItem Api.refreshToken (AuthContext.localStorage a')
     = Some (refresh data)
  /\ Api.getItem Api.userEmailKey (AuthContext.localStorage a')
     = Some (AuthModal.email (AuthModal.fields m))
  /\ AuthContext.userEmail a' = Some (AuthModal.email (AuthModal.fields m))
  /\ (AuthContext.isAuthenticated a' = true <-> access data <> [])
  /\ AuthModal.fields (fst (fst out)) = AuthModal.fields m
  /\ AuthModal.loading (fst (fst out)) = false
  /\ snd out
     = [ Forms.post (lit "/token/pair")
           [ ("username", JString (AuthModal.email (AuthModal.fields m)));
             ("password", JString (AuthModal.password (AuthModal.fields m))) ]%string;
         Forms.toast toast_success (Forms.AString (lit "Welcome back!"));
         Forms.onClose ].
Proof.
  destruct auth_keys_distinct as (Har & Hau & Hru).
  intros He Hp Hr out a'.
  assert (E : out
    = ({| AuthModal.fields := AuthModal.fields m; AuthModal.loading := false |},
       AuthContext.login data (Some (AuthModal.email (AuthModal.fields m))) a,
       [ Forms.post (lit "/token/pair")
           [ ("username", JString (AuthModal.email (AuthModal.fields m)));
             ("password", JString (AuthModal.password (AuthModal.fields m))) ]%string;
         Forms.toast toast_success (Forms.AString (lit "Welcome back!"));
         Forms.onClose ])).
  { unfold out, AuthModal.handleSubmit. rewrite Hr.
    destruct (AuthModal.email (AuthModal.fields m)); [contradiction |].
    destruct (AuthModal.password (AuthModal.fields m)); [contradiction |].
    reflexivity. }
  subst a'. rewrite E. cbn [fst snd AuthModal.fields AuthModal.loading].
  rewrite !login_storage.
  rewrite !bool_decide_eq_true_2 by reflexivity.
  rewrite !bool_decide_eq_false_2 by (apply not_eq_sym; assumption).
  rewrite !bool_decide_eq_true_2 by reflexivity.
  assert (Ht : truthy_string (AuthModal.email (AuthModal.fields m)) = true)
    by now destruct (AuthModal.email (AuthModal.fields m)).
  rewrite Ht.
  split; [reflexivity |]. split; [reflexivity |]. split; [reflexivity |].
  split; [| split; [| repeat split]].
  - unfold AuthContext.login. now rewrite Ht.
  - unfold AuthContext.isAuthenticated, AuthContext.login. rewrite Ht. simpl.
    destruct (access data); simpl; split; congruence.
Qed.

Lemma sign_in_stores_session_witness :
  Api.getItem Api.userEmailKey
    (AuthContext.localStorage
       (snd (fst (AuthModal.handleSubmit Forms.mode_login Samples.granting
                    Samples.typed (AuthContext.initial ∅)))))
  = Some (lit "bo@example.org").
Proof.
  apply (proj1 (proj2 (proj2 (sign_in_stores_session Samples.granting
           Samples.typed (AuthContext.initial ∅) Samples.fresh_tokens
           ltac:(discriminate) ltac:(discriminate) eq_refl)))).
Defined.

(** X7.  A registration never signs the user in.  When it succeeds the
    dialog asks for the login tab and clears the password only, so that
    the reset of the form that follows the change of tab still finds the
    e-mail; when it fails the form keeps everything that was typed, the
    password included, and the tab stays.  [loading] is off either way. *)
Theorem register_keeps_form
    (env : AuthModal.server) (m : AuthModal.modal) (a : AuthContext.auth) :
  AuthModal.email (AuthModal.fields m) <> [] ->
  AuthModal.password (AuthModal.fields m) <> [] ->
  let out := AuthModal.handleSubmit Forms.mode_register env m a in
  let m' := fst (fst out) in
  snd (fst out) = a
  /\ AuthModal.loading m' = false
  /\ AuthModal.email (AuthModal.fields m')
     = AuthModal.email (AuthModal.fields m)
  /\ match AuthModal.register_reply env with
     | Forms.Resolved _ =>
         In (Forms.onModeChange Forms.mode_login) (snd out)
         /\ AuthModal.password (AuthModal.fields m') = []
         /\ AuthModal.firstName (AuthModal.fields m')
            = AuthModal.firstName (AuthModal.fields m)
         /\ AuthModal.lastName (AuthModal.fields m')
            = AuthModal.lastName (AuthModal.fields m)
         /\ AuthModal.fields (AuthModal.reset_form true m')
            = {| AuthModal.email := AuthModal.email (AuthModal.fields m);
                 AuthModal.password := []; AuthModal.firstName := [];
                 AuthModal.lastName := [] |}
     | Forms.Rejected e =>
         AuthModal.fields m' = AuthModal.fields m
         /\ (forall mode, ~ In (Forms.onModeChange mode) (snd out))
         /\ In (Forms.toast toast_error (AuthModal.error_message e)) (snd out)
     end.
Proof.
  intros He Hp out m'. subst m' out. unfold AuthModal.handleSubmit.
  destruct (AuthModal.email (AuthModal.fields m)) eqn:Ee; [contradiction |].
  destruct (AuthModal.password (AuthModal.fields m)) eqn:Ep; [contradiction |].
  cbn [truthy_string negb orb].
  destruct (AuthModal.register_reply env) as [u | e];
    cbn [fst snd AuthModal.fields AuthModal.loading AuthModal.email
         AuthModal.password AuthModal.firstName AuthModal.lastName
         AuthModal.reset_form].
  - repeat split; simpl; tauto.
  - split; [reflexivity |]. split; [reflexivity |]. split; [exact Ee |].
    split; [reflexivity |]. split.
    + intros mode [H | [H | []]]; discriminate.
    + simpl. tauto.
Qed.

Lemma register_keeps_form_witness :
  AuthModal.fields
    (fst (fst (AuthModal.handleSubmit Forms.mode_register Samples.refusing
                 Samples.typed (AuthContext.initial ∅))))
  = AuthModal.fields Samples.typed.
Proof.
  apply (proj2 (proj2 (proj2 (register_keeps_form Samples.refusing
           Samples.typed (AuthContext.initial ∅)
           ltac:(discriminate) ltac:(discriminate))))).
Defined.

(** *** Notifications and the "Create Job" panel *)

Lemma or_else_truthy (a b : Forms.any) :
  Forms.truthy b = true -> Forms.truthy (Forms.or_else a b) = true.
Proof. unfold Forms.or_else. now destruct (Forms.truthy a) eqn:E. Qed.

(** X8.  No handler of the two forms raises an empty notification.  The
    message of a failed sign-in or registration is the [detail] of the
    error payload when that is truthy, else its [message] when that is
    truthy, else "Unable to authenticate."; the message of a failed job
    creation is the [detail] when truthy, else "Failed to create job.";
    and every toast of [handleSubmit] and of [handleCreateJob] has truthy
    content, whatever the payload holds. *)
Theorem notifications_never_empty
    (e : Forms.thrown) (mode : Forms.AuthMode) (env : AuthModal.server)
    (m : AuthModal.modal) (a : AuthContext.auth)
    (created : Forms.reply unit) (reloaded : Forms.reply (list JobSummary))
    (p : CreateJob.panel) (l : level) (content : Forms.any) :
  AuthModal.error_message e
  = (if Forms.truthy (Forms.detail e) then Forms.detail e
     else if Forms.truthy (Forms.message e) then Forms.message e
     else Forms.AString (lit "Unable to authenticate."))
  /\ (In (Forms.toast l content) (snd (AuthModal.handleSubmit mode env m a)) ->
      Forms.truthy content = true)
  /\ (In (Forms.toast l content)
         (snd (CreateJob.handleCreateJob created reloaded p)) ->
      Forms.truthy content = true).
Proof.
  assert (Hmsg : forall e', Forms.truthy (AuthModal.error_message e') = true).
  { intros e'. unfold AuthModal.error_message. now apply or_else_truthy. }
  split; [| split].
  - unfold AuthModal.error_message, Forms.or_else.
    destruct (Forms.truthy (Forms.detail e)) eqn:Ed.
    + now rewrite Ed.
    + destruct (Forms.truthy (Forms.message e)) eqn:Em; now rewrite ?Em.
  - unfold AuthModal.handleSubmit.
    destruct (negb _ || negb _); [intros [[= <- <-] | []]; reflexivity |].
    destruct mode.
    + destruct (AuthModal.token_reply env) as [data | e'].
      * intros [H | [[= <- <-] | [H | []]]]; try discriminate. reflexivity.
      * intros [H | [[= <- <-] | []]]; try discriminate. apply Hmsg.
    + destruct (AuthModal.register_reply env) as [u | e'].
      * intros [H | [[= <- <-] | [H | []]]]; try discriminate. reflexivity.
      * intros [H | [[= <- <-] | []]]; try discriminate. apply Hmsg.
  - unfold CreateJob.handleCreateJob.
    destruct (negb _); [intros [[= <- <-] | []]; reflexivity |].
    destruct created as [u | e'].
    + unfold CreateJob.fetchJobs. destruct reloaded as [data | e''];
        cbn [snd app].
      * intros [H | [[= <- <-] | [H | []]]]; try discriminate. reflexivity.
      * intros [H | [[= <- <-] | [H | [H | [[= <- <-] | []]]]]];
          try discriminate; reflexivity.
    + cbn [snd]. intros [H | [[= <- <-] | []]]; try discriminate.
      now apply or_else_truthy.
Qed.

Lemma notifications_never_empty_witness :
  Forms.truthy (Forms.AString (lit "Taken")) = true.
Proof.
  apply (proj1 (proj2 (notifications_never_empty
           {| Forms.detail := Forms.AUndefined; Forms.message := Forms.AUndefined |}
           Forms.mode_register Samples.refusing Samples.typed
           (AuthContext.initial ∅) (Forms.Resolved tt) (Forms.Resolved [])
           Samples.drafting toast_error (Forms.AString (lit "Taken"))))).
  vm_compute. tauto.
Defined.

(** X9.  The job form is emptied only when the job was created: if
    [handleCreateJob] leaves a form different from the one it found, the
    user was authenticated, the creation request resolved and the form is
    the empty one.  Without authentication nothing is sent and nothing
    changes; with it exactly one creation request is sent, carrying the six
    fields as typed, and [jobSubmitting] is off afterwards; after a failed
    creation the list of jobs is not reloaded. *)
Theorem handleCreateJob_keeps_draft
    (created : Forms.reply unit) (reloaded : Forms.reply (list JobSummary))
    (p : CreateJob.panel) :
  let out := CreateJob.handleCreateJob created reloaded p in
  (CreateJob.form (fst out) <> CreateJob.form p ->
   CreateJob.isAuthenticated p = true
   /\ (exists u, created = Forms.Resolved u)
   /\ CreateJob.form (fst out) = CreateJob.emptyForm)
  /\ (CreateJob.isAuthenticated p = false ->
      fst out = p /\ Forall (fun e => Forms.is_request e = false) (snd out))
  /\ (CreateJob.isAuthenticated p = true ->
      CreateJob.jobSubmitting (fst out) = false
      /\ (exists later,
            snd out
            = Forms.post (lit "/jobs/") (CreateJob.job_body (CreateJob.form p))
              :: later
            /\ forall url b, ~ In (Forms.post url b) later)
      /\ map fst (CreateJob.job_body (CreateJob.form p))
         = [ "job_code"; "title"; "description"; "requirements";
             "salary_range"; "location" ]%string)
  /\ (forall e, created = Forms.Rejected e ->
      CreateJob.jobs (fst out) = CreateJob.jobs p
      /\ forall url, ~ In (Forms.get url) (snd out)).
Proof.
  intros out. subst out. unfold CreateJob.handleCreateJob.
  destruct (CreateJob.isAuthenticated p) eqn:Ha; cbn [negb].
  - destruct created as [u | e].
    + unfold CreateJob.fetchJobs.
      destruct reloaded as [data | e']; cbn [fst snd app CreateJob.form
        CreateJob.setJobSubmitting CreateJob.setJobs CreateJob.resetJobForm
        CreateJob.jobSubmitting CreateJob.jobs];
        (split; [intros _; repeat split; eauto |]);
        (split; [discriminate |]);
        (split; [intros _; split; [reflexivity |]; split; [| reflexivity];
                 eexists; split; [reflexivity |];
                 intros url b H; simpl in H; intuition discriminate |]);
        intros e0 H; discriminate.
    + cbn [fst snd CreateJob.form CreateJob.setJobSubmitting
           CreateJob.jobSubmitting CreateJob.jobs].
      split; [intros H; contradiction |]. split; [discriminate |].
      split.
      * intros _. split; [reflexivity |]. split; [| reflexivity].
        eexists. split; [reflexivity |].
        intros url b H; simpl in H; intuition discriminate.
      * intros e0 _. split; [reflexivity |].
        intros url H. simpl in H. intuition discriminate.
  - cbn [fst snd]. split; [intros H; contradiction |].
    split; [intros _; split; [reflexivity | repeat constructor] |].
    split; [discriminate |].
    intros e ->. split; [reflexivity |].
    intros url H. simpl in H. intuition discriminate.
Qed.

Lemma handleCreateJob_keeps_draft_witness :
  CreateJob.jobSubmitting
    (fst (CreateJob.handleCreateJob
            (Forms.Rejected {| Forms.detail := Forms.AObject;
                               Forms.message := Forms.AUndefined |})
            (Forms.Resolved []) Samples.drafting)) = false.
Proof.
  apply (proj1 (proj2 (proj2 (handleCreateJob_keeps_draft
           (Forms.Rejected {| Forms.detail := Forms.AObject;
                              Forms.message := Forms.AUndefined |})
           (Forms.Resolved []) Samples.drafting)))).
  reflexivity.
Defined.

(** X10.  After a job is created the form is empty and the list is
    reloaded: the effects are the creation request, the success toast and
    the request for the list; the list becomes the reply when that request
    resolves, and stays as it was, with the "Unable to load job data."
    toast after the success toast, when it fails.  The form is empty in
    both cases. *)
Theorem handleCreateJob_reloads_list
    (u : unit) (reloaded : Forms.reply (list JobSummary))
    (p : CreateJob.panel) :
  CreateJob.isAuthenticated p = true ->
  let out := CreateJob.handleCreateJob (Forms.Resolved u) reloaded p in
  CreateJob.form (fst out) = CreateJob.emptyForm
  /\ CreateJob.jobSubmitting (fst out) = false
  /\ match reloaded with
     | Forms.Resolved data =>
         CreateJob.jobs (fst out) = data
         /\ snd out
            = [ Forms.post (lit "/jobs/") (CreateJob.job_body (CreateJob.form p));
                Forms.toast toast_success (Forms.AString (lit "Job created."));
                Forms.get (lit "/jobs/") ]
     | Forms.Rejected _ =>
         CreateJob.jobs (fst out) = CreateJob.jobs p
         /\ snd out
            = [ Forms.post (lit "/jobs/") (CreateJob.job_body (CreateJob.form p));
                Forms.toast toast_success (Forms.AString (lit "Job created."));
                Forms.get (lit "/jobs/"); Forms.console_error;
                Forms.toast toast_error
                  (Forms.AString (lit "Unable to load job data.")) ]
     end.
Proof.
  intros Ha out. subst out. unfold CreateJob.handleCreateJob. rewrite Ha.
  cbn [negb]. unfold CreateJob.fetchJobs.
  destruct reloaded as [data | e]; repeat split.
Qed.

Lemma handleCreateJob_reloads_list_witness :
  CreateJob.form
    (fst (CreateJob.handleCreateJob (Forms.Resolved tt)
            (Forms.Resolved [Samples.job 1 "Lead AI Engineer" "Remote"])
            Samples.drafting))
  = CreateJob.emptyForm.
Proof.
  apply (handleCreateJob_reloads_list tt
           (Forms.Resolved [Samples.job 1 "Lead AI Engineer" "Remote"])
           Samples.drafting eq_refl).
Defined.

(** *** Selection and job detail *)

(** X11.  After the selection effect nothing is selected exactly when no
    job matches the filters; otherwise the selected id is the id of one of
    the matching jobs.  A non-zero selection that is still among the
    matching jobs is kept, a second run of the effect changes nothing, and
    the effect touches no other state cell. *)
Theorem selection_effect_selects_a_match
    (filtered : list JobSummary) (st : page) :
  let st' := selection_effect filtered st in
  (selectedJobId st' = None <-> filtered = [])
  /\ (forall i, selectedJobId st' = Some i -> In i (map id filtered))
  /\ (forall i, selectedJobId st = Some i -> i <> 0 ->
      In i (map id filtered) -> st' = st)
  /\ selection_effect filtered st' = st'
  /\ st' = setSelectedJobId (selectedJobId st') st.
Proof.
  intros st'. subst st'. unfold selection_effect.
  destruct filtered as [| first rest].
  - repeat split; try discriminate. intros i H _ [].
  - set (found := existsb _ (first :: rest)).
    assert (Hfound : forall i, selectedJobId st = Some i ->
                     found = true <-> In i (map id (first :: rest))).
    { intros i Hi. unfold found. rewrite existsb_exists, in_map_iff.
      split; intros (job & H1 & H2).
      - exists job. rewrite Hi in H2. apply Z.eqb_eq in H2. tauto.
      - exists job. split; [tauto |]. rewrite Hi. apply Z.eqb_eq. tauto. }
    destruct (negb (truthy_id (selectedJobId st)) || negb found) eqn:Hcond.
    + split; [split; discriminate |]. split; [| split; [| split]].
      * simpl. intros i [= <-]. now left.
      * intros i Hi Hne Hin. exfalso.
        apply orb_prop in Hcond as [H | H]; apply negb_true_iff in H.
        -- rewrite Hi in H. simpl in H. apply negb_false_iff in H.
           apply Z.eqb_eq in H. contradiction.
        -- apply (Hfound i Hi) in Hin. congruence.
      * cbn [selectedJobId setSelectedJobId].
        destruct (negb (truthy_id (Some (id first))) || _); reflexivity.
      * reflexivity.
    + apply orb_false_elim in Hcond as [H1 H2].
      apply negb_false_iff in H1, H2.
      destruct (selectedJobId st) as [i |] eqn:Hi; [| discriminate].
      split; [split; discriminate |]. split; [| split; [| split]].
      * intros i' [= <-]. now apply (Hfound i eq_refl).
      * reflexivity.
      * fold found. rewrite H1, H2. reflexivity.
      * destruct st. simpl in *. now rewrite Hi.
Qed.

Lemma selection_effect_selects_a_match_witness :
  selection_effect Samples.seven_jobs Samples.ready = Samples.ready.
Proof.
  apply (proj1 (proj2 (proj2 (selection_effect_selects_a_match
           Samples.seven_jobs Samples.ready))) 3);
    [reflexivity | discriminate | vm_compute; tauto].
Defined.

(** X12.  The detail shown is replaced only by a detail request that
    resolves.  When the user selects another job and the request for its
    detail fails, the detail of the job selected before stays; an
    evaluation started then is submitted with the new job's id and the
    earlier job's title. *)
Theorem failed_detail_keeps_earlier_title
    (jobId : Z) (st : page) (d : JobDetail) (env : submission)
    (members : list (string * jsval)) :
  jobId <> 0 ->
  selectedJobId st <> Some jobId ->
  jobDetail st = Some d ->
  title d <> [] ->
  let st' := fst (select_job jobId Rejected st) in
  selectedJobId st' = Some jobId
  /\ jobDetail st' = Some d
  /\ In (toast toast_error (lit "Failed to load job detail."))
        (snd (select_job jobId Rejected st))
  /\ (forall d', jobDetail (fst (select_job jobId (Resolved d') st)) = Some d')
  /\ (In (post evaluate_url (Json members)) (snd (handleEvaluate env st')) ->
      member_value "job_title" members = Some (JString (title d))
      /\ member_value "job_id" members = Some (JNumber (of_Z jobId))).
Proof.
  intros Hne Hother Hd Ht st'.
  assert (Hid : truthy_id (Some jobId) = true).
  { simpl. apply negb_true_iff. now apply Z.eqb_neq. }
  assert (Hsel : forall r, select_job jobId r st
                           = detail_effect r (setSelectedJobId (Some jobId) st)).
  { intros r. unfold select_job. now rewrite bool_decide_eq_false_2. }
  assert (E : st' = setSelectedJobId (Some jobId) st).
  { unfold st'. rewrite Hsel. unfold detail_effect.
    cbn [selectedJobId setSelectedJobId]. now rewrite Hid. }
  assert (Hs1 : selectedJobId st' = Some jobId) by now rewrite E.
  assert (Hs2 : jobDetail st' = Some d) by now rewrite E.
  split; [exact Hs1 |]. split; [exact Hs2 |]. split; [| split].
  - rewrite Hsel. unfold detail_effect. cbn [selectedJobId setSelectedJobId].
    rewrite Hid. simpl. tauto.
  - intros d'. rewrite Hsel. unfold detail_effect.
    cbn [selectedJobId setSelectedJobId]. now rewrite Hid.
  - intros Hin.
    destruct (handleEvaluate_posts env st' _ Hin)
      as (u & _ & _ & _ & _ & _ & _ & _ & Eb).
    unfold evaluate_body in Eb. injection Eb as ->.
    cbn [member_value String.eqb Ascii.eqb Bool.eqb].
    split.
    + f_equal. f_equal. apply (proj1 (jobTitle_cases st') d);
        [rewrite Hs1; exact Hid | exact Hs2 | exact Ht].
    + now rewrite Hs1.
Qed.

Lemma failed_detail_keeps_earlier_title_witness :
  member_value "job_title"
    [ ("job_title", JString (lit "Data Engineer"));
      ("job_id", JNumber (of_Z 4));
      ("cv_document_id", JString (lit "doc-cv"));
      ("project_document_id", JString (lit "doc-pr")) ]%string
  = Some (JString (title Samples.data_engineer))
  /\ member_value "job_id"
       [ ("job_title", JString (lit "Data Engineer"));
         ("job_id", JNumber (of_Z 4));
         ("cv_document_id", JString (lit "doc-cv"));
         ("project_document_id", JString (lit "doc-pr")) ]%string
     = Some (JNumber (of_Z 4)).
Proof.
  apply (proj2 (proj2 (proj2 (proj2
    (failed_detail_keeps_earlier_title 4 Samples.ready Samples.data_engineer
       Samples.accepted
       [ ("job_title", JString (lit "Data Engineer"));
         ("job_id", JNumber (of_Z 4));
         ("cv_document_id", JString (lit "doc-cv"));
         ("project_document_id", JString (lit "doc-pr")) ]%string
       ltac:(discriminate) ltac:(discriminate) eq_refl
       ltac:(discriminate)))))).
  vm_compute. tauto.
Defined.

(** *** Pages and filters *)

Lemma chunks_concat {A} (n : nat) (l : list A) :
  (length l <= 5 * n)%nat ->
  concat (map (fun k => take 5 (drop (5 * k) l)) (seq 0 n)) = l.
Proof.
  revert l. induction n as [| n IH]; intros l Hlen.
  - destruct l; [reflexivity | simpl in Hlen; lia].
  - cbn [seq map concat]. rewrite <- seq_shift, map_map.
    replace (5 * 0)%nat with 0%nat by lia. rewrite drop_0.
    transitivity (take 5 l ++ drop 5 l); [| apply take_drop]. f_equal.
    etransitivity; [| apply (IH (drop 5 l)); rewrite length_drop; lia].
    f_equal. apply map_ext. intros k. rewrite drop_drop.
    now replace (5 * S k)%nat with (5 + 5 * k)%nat by lia.
Qed.

Lemma filter_all {A} (f : A -> bool) (l : list A) :
  (forall x, f x = true) -> List.filter f l = l.
Proof.
  intros H. induction l as [| x l IH]; simpl; [reflexivity |].
  now rewrite H, IH.
Qed.

Lemma includes_empty (hay : jsstring) : includes hay [] = true.
Proof. destruct hay; simpl; reflexivity. Qed.

Section Pages.

Variable toLowerCase : jsstring -> jsstring.

Lemma paginatedJobs_window (v : view) :
  1 <= currentPage v ->
  paginatedJobs toLowerCase v
  = take 5 (drop (Z.to_nat ((currentPage v - 1) * 5))
              (filteredJobs toLowerCase v)).
Proof.
  intros H. unfold paginatedJobs, PAGE_SIZE. apply (slice_window _ _ 5); lia.
Qed.

Lemma totalPages_bounds (v : view) :
  let len := Z.of_nat (length (filteredJobs toLowerCase v)) in
  len <= 5 * totalPages toLowerCase v
  /\ (0 < len -> 5 * (totalPages toLowerCase v - 1) < len)
  /\ 5 * (totalPages toLowerCase v - 1) <= len.
Proof.
  intros len. unfold totalPages, PAGE_SIZE. fold len.
  pose proof (Z.div_mod (len + 5 - 1) 5 ltac:(lia)) as Hd.
  pose proof (Z.mod_pos_bound (len + 5 - 1) 5 ltac:(lia)) as Hm.
  assert (0 <= len) by (unfold len; lia). repeat split; lia.
Qed.

(** X13.  The pages partition the matching jobs: the pages 1 to
    [totalPages], one after the other, are exactly [filteredJobs], in
    order, so every matching job is on one page and no job is shown
    twice. *)
Theorem pages_partition_filteredJobs (v : view) :
  concat (map (fun p => paginatedJobs toLowerCase
                          (set_currentPage (Z.of_nat p) v))
              (seq 1 (Z.to_nat (totalPages toLowerCase v))))
  = filteredJobs toLowerCase v.
Proof.
  rewrite <- seq_shift, map_map.
  etransitivity;
    [| apply (chunks_concat (Z.to_nat (totalPages toLowerCase v)))].
  - f_equal. apply map_ext. intros k.
    rewrite paginatedJobs_window by (simpl; lia).
    cbn [currentPage set_currentPage].
    now replace (Z.to_nat ((Z.of_nat (S k) - 1) * 5)) with (5 * k)%nat by lia.
  - pose proof (totalPages_bounds v) as (H & _ & _).
    pose proof (totalPages_positive toLowerCase v). simpl in H. lia.
Qed.

(** X14.  In every state rendering settles on, the page shown is empty
    only if no job matches the filters, so the "No jobs match" notice tells
    the truth; and every page before the last holds exactly 5 jobs. *)
Theorem settled_page_is_not_blank (acts : list action) :
  exists v,
    JobsPage.run toLowerCase acts mounted = Some v
    /\ (paginatedJobs toLowerCase v = [] <-> filteredJobs toLowerCase v = [])
    /\ (currentPage v < totalPages toLowerCase v ->
        length (paginatedJobs toLowerCase v) = 5%nat).
Proof.
  destruct (run_in_range toLowerCase acts mounted) as (v & E & Hv).
  { unfold in_range. simpl. pose proof (totalPages_positive toLowerCase mounted).
    lia. }
  exists v. split; [exact E |]. unfold in_range in Hv.
  pose proof (totalPages_bounds v) as (Hup & Hlow & Hle).
  simpl in Hup, Hlow, Hle.
  rewrite paginatedJobs_window by lia.
  split; [split |].
  - intros Hnil. apply (f_equal (@length _)) in Hnil.
    rewrite length_take, length_drop in Hnil. cbn [length] in Hnil.
    apply nil_length_inv. lia.
  - intros ->. now rewrite drop_nil.
  - intros Hlt. rewrite length_take, length_drop. lia.
Qed.

(** X15.  A change of a filter does not always bring the first page back.
    Of the two effects that set the page after such a change the clamp is
    the later one: when the page shown exceeds the new number of pages the
    result is the last page, and only otherwise page 1.  The list and the
    other filter stay as they are. *)
Theorem filter_change_resets_or_clamps (a : action) (s : jsstring) (v : view) :
  in_range toLowerCase v ->
  (a = TypeTitle s /\ s <> searchTitle v)
  \/ (a = TypeLocation s /\ s <> searchLocation v) ->
  let typed := handle toLowerCase a v in
  dispatch toLowerCase a v
  = Some (set_currentPage
            (if totalPages toLowerCase typed <? currentPage v
             then totalPages toLowerCase typed else 1) typed).
Proof.
  intros Hv Ha typed.
  assert (Hpage : currentPage typed = currentPage v)
    by (destruct Ha as [[-> _] | [-> _]]; reflexivity).
  assert (Hchanged :
    negb (bool_decide (searchTitle v = searchTitle typed))
    || negb (bool_decide (searchLocation v = searchLocation typed)) = true).
  { destruct Ha as [[-> Hs] | [-> Hs]]; simpl.
    - rewrite bool_decide_eq_false_2; [reflexivity | congruence].
    - rewrite (bool_decide_eq_false_2 (searchLocation v = s)) by congruence.
      apply orb_true_r. }
  pose proof (totalPages_positive toLowerCase typed) as Hpos.
  assert (Hsettled : forall p, p <= totalPages toLowerCase typed ->
    effects toLowerCase typed (set_currentPage p typed)
    = set_currentPage p typed).
  { intros p Hp. apply effects_settled; [reflexivity | reflexivity |].
    rewrite totalPages_set_currentPage. exact Hp. }
  unfold in_range in Hv. unfold dispatch. fold typed.
  assert (Eeff : effects toLowerCase v typed
    = set_currentPage (if totalPages toLowerCase typed <? currentPage v
                       then totalPages toLowerCase typed else 1) typed).
  { unfold effects. rewrite Hchanged, Hpage.
    destruct (totalPages toLowerCase typed <? currentPage v) eqn:Hover.
    - apply Z.ltb_lt in Hover.
      replace (totalPages toLowerCase v =? totalPages toLowerCase typed)
        with false by (symmetry; apply Z.eqb_neq; lia).
      now rewrite orb_true_r.
    - now rewrite andb_false_r. }
  cbn [settle]. rewrite Eeff. cbn [currentPage set_currentPage].
  rewrite Hpage.
  destruct (totalPages toLowerCase typed <? currentPage v) eqn:Hover.
  - apply Z.ltb_lt in Hover.
    replace (totalPages toLowerCase typed =? currentPage v) with false
      by (symmetry; apply Z.eqb_neq; lia).
    rewrite Hsettled by lia. cbn [currentPage set_currentPage].
    now rewrite Z.eqb_refl.
  - destruct (1 =? currentPage v) eqn:Hone.
    + apply Z.eqb_eq in Hone. f_equal.
      destruct Ha as [[-> _] | [-> _]]; unfold typed, set_currentPage; simpl;
        now rewrite <- Hone.
    + rewrite Hsettled by lia. cbn [currentPage set_currentPage].
      now rewrite Z.eqb_refl.
Qed.

(** X16.  Paging moves one page at a time and is undone by the opposite
    button: from a page before the last, Next shows the following page and
    Previous then shows the same state again; Next on the last page and
    Previous on the first change nothing. *)
Theorem next_and_previous (v : view) :
  in_range toLowerCase v ->
  (currentPage v < totalPages toLowerCase v ->
   dispatch toLowerCase Next v = Some (set_currentPage (currentPage v + 1) v)
   /\ dispatch toLowerCase Previous (set_currentPage (currentPage v + 1) v)
      = Some v)
  /\ (currentPage v = totalPages toLowerCase v ->
      dispatch toLowerCase Next v = Some v)
  /\ (currentPage v = 1 -> dispatch toLowerCase Previous v = Some v).
Proof.
  intros Hv. unfold in_range in Hv.
  assert (Hstay : forall u w, searchTitle u = searchTitle w ->
            searchLocation u = searchLocation w ->
            currentPage w <= totalPages toLowerCase w ->
            settle toLowerCase 2 u w = Some w).
  { intros u w Ht Hl Hle. cbn [settle].
    rewrite (effects_settled toLowerCase u w Ht Hl Hle).
    now rewrite Z.eqb_refl. }
  split; [| split].
  - intros Hlt. split.
    + unfold dispatch. cbn [handle].
      replace (totalPages toLowerCase v <=? currentPage v) with false
        by (symmetry; apply Z.leb_gt; lia).
      rewrite Z.min_r by lia.
      apply Hstay; [reflexivity | reflexivity |].
      rewrite totalPages_set_currentPage. simpl. lia.
    + unfold dispatch. cbn [handle currentPage set_currentPage].
      replace (currentPage v + 1 =? 1) with false
        by (symmetry; apply Z.eqb_neq; lia).
      replace (Z.max 1 (currentPage v + 1 - 1)) with (currentPage v) by lia.
      assert (Eback : set_currentPage (currentPage v)
                        (set_currentPage (currentPage v + 1) v) = v)
        by now destruct v.
      rewrite Eback. apply Hstay; [reflexivity | reflexivity | lia].
  - intros Hlast. unfold dispatch. cbn [handle].
    replace (totalPages toLowerCase v <=? currentPage v) with true
      by (symmetry; apply Z.leb_le; lia).
    apply Hstay; [reflexivity | reflexivity | lia].
  - intros Hfirst. unfold dispatch. cbn [handle].
    rewrite Hfirst, Z.eqb_refl. apply Hstay; [reflexivity | reflexivity | lia].
Qed.

(** X17.  Without filters every job is listed: when lower-casing the empty
    string gives the empty string, empty search fields leave [filteredJobs]
    equal to the fetched list, and the Reset button brings that about from
    any settled state. *)
Theorem no_filter_lists_all_jobs (v : view) :
  toLowerCase [] = [] ->
  (searchTitle v = [] -> searchLocation v = [] ->
   filteredJobs toLowerCase v = jobs v)
  /\ (in_range toLowerCase v ->
      exists v', dispatch toLowerCase ClearFilters v = Some v'
                 /\ jobs v' = jobs v
                 /\ filteredJobs toLowerCase v' = jobs v).
Proof.
  intros Hlow.
  assert (Hall : forall w, searchTitle w = [] -> searchLocation w = [] ->
                 filteredJobs toLowerCase w = jobs w).
  { intros w Ht Hl. unfold filteredJobs. apply filter_all. intros job.
    unfold matches. now rewrite Ht, Hl, Hlow, !includes_empty. }
  split; [apply Hall |].
  intros Hv. unfold dispatch.
  destruct (settle_in_range toLowerCase 1 v (handle toLowerCase ClearFilters v)
              Hv) as (v' & E & _ & Hj & Ht & Hl).
  { simpl. apply Hv. }
  exists v'. split; [exact E |]. split; [exact Hj |].
  rewrite (Hall v' Ht Hl). exact Hj.
Qed.

(** X18.  A job without a location is shown as "Remote" and yet is not
    found by a search for a location: with lower-casing that keeps the
    empty string empty and a search string that is not empty after
    lower-casing, a job whose location is missing, null or empty does not
    match the filters, whatever its title, while its label in the list
    reads "Remote". *)
Theorem missing_location_shown_not_found (v : view) (job : JobSummary) :
  toLowerCase [] = [] ->
  toLowerCase (searchLocation v) <> [] ->
  present (location job) = false \/ location job = Def [] ->
  matches toLowerCase v job = false
  /\ location_label (location job) = lit "Remote".
Proof.
  intros Hlow Hsearch Hloc.
  assert (Hempty : location_or_empty job = []).
  { unfold location_or_empty.
    destruct Hloc as [H | ->]; [| reflexivity].
    destruct (location job); [reflexivity | reflexivity | discriminate]. }
  split.
  - unfold matches. rewrite Hempty, Hlow.
    destruct (toLowerCase (searchLocation v)) as [| c s]; [contradiction |].
    simpl. apply andb_false_r.
  - unfold location_label.
    destruct Hloc as [H | ->]; [| reflexivity].
    destruct (location job); [reflexivity | reflexivity | discriminate].
Qed.

End Pages.

Lemma sample_pages_in_range :
  in_range Samples.ascii_lower Samples.first_page
  /\ in_range Samples.ascii_lower Samples.third_page.
Proof. unfold in_range. vm_compute. repeat split; discriminate. Qed.

Lemma filter_change_resets_or_clamps_witness :
  option_map currentPage
    (dispatch Samples.ascii_lower (TypeLocation (lit "remote"))
       Samples.third_page) = Some 2
  /\ option_map currentPage
       (dispatch Samples.ascii_lower (TypeTitle (lit "engineer"))
          Samples.third_page) = Some 1.
Proof.
  split.
  - rewrite (filter_change_resets_or_clamps Samples.ascii_lower
               (TypeLocation (lit "remote")) (lit "remote") Samples.third_page).
    + vm_compute. reflexivity.
    + unfold in_range. vm_compute. split; discriminate.
    + right. split; [reflexivity | discriminate].
  - rewrite (filter_change_resets_or_clamps Samples.ascii_lower
               (TypeTitle (lit "engineer")) (lit "engineer") Samples.third_page).
    + vm_compute. reflexivity.
    + unfold in_range. vm_compute. split; discriminate.
    + left. split; [reflexivity | discriminate].
Defined.

Lemma next_and_previous_witness :
  dispatch Samples.ascii_lower Previous
    (set_currentPage (currentPage Samples.first_page + 1) Samples.first_page)
  = Some Samples.first_page.
Proof.
  apply (next_and_previous Samples.ascii_lower Samples.first_page).
  - unfold in_range. vm_compute. split; discriminate.
  - vm_compute. reflexivity.
Defined.

Lemma no_filter_lists_all_jobs_witness :
  filteredJobs Samples.ascii_lower Samples.first_page
  = jobs Samples.first_page.
Proof.
  apply (no_filter_lists_all_jobs Samples.ascii_lower Samples.first_page);
    reflexivity.
Defined.

Lemma missing_location_shown_not_found_witness :
  matches Samples.ascii_lower Samples.searching_remote Samples.nowhere = false
  /\ location_label (location Samples.nowhere) = lit "Remote".
Proof.
  apply (missing_location_shown_not_found Samples.ascii_lower
           Samples.searching_remote Samples.nowhere);
    [reflexivity | discriminate | left; reflexivity].
Defined.

(** *** The override title *)

Lemma trimStart_blank (s : jsstring) :
  forallb is_whitespace s = true -> trimStart s = [].
Proof.
  induction s as [| c s IH]; simpl; [reflexivity |].
  intros H. apply andb_prop in H as [Hc Hs]. rewrite Hc. now apply IH.
Qed.

Lemma trimStart_head (s : jsstring) (c : N) (t : jsstring) :
  trimStart s = c :: t -> is_whitespace c = false.
Proof.
  induction s as [| a s IH]; simpl; [discriminate |].
  destruct (is_whitespace a) eqn:Ea; [exact IH |].
  now intros [= <- _].
Qed.

Lemma trimStart_keeps_end (u : jsstring) (c : N) :
  is_whitespace c = false -> exists u', trimStart (u ++ [c]) = u' ++ [c].
Proof.
  intros Hc. induction u as [| a u IH]; simpl.
  - rewrite Hc. now exists [].
  - destruct (is_whitespace a); [exact IH |]. now exists (a :: u).
Qed.

(** [trim] gives the empty string or a string that neither starts nor ends
    with white space. *)
Lemma trim_edges (s : jsstring) :
  trim s = []
  \/ exists c t, trim s = c :: t /\ is_whitespace c = false
                 /\ is_whitespace (List.last (c :: t) c) = false.
Proof.
  unfold trim, trimEnd.
  destruct (trimStart s) as [| c t] eqn:Es; [now left |].
  right. pose proof (trimStart_head s c t Es) as Hc.
  change (rev (c :: t)) with (rev t ++ [c]).
  destruct (trimStart_keeps_end (rev t) c Hc) as [u' Eu].
  exists c, (rev u'). rewrite Eu.
  split; [now rewrite rev_app_distr |]. split; [exact Hc |].
  destruct u' as [| x r]; [exact Hc |].
  change (c :: rev (x :: r)) with ((c :: rev r) ++ [x]). rewrite last_last.
  now apply (trimStart_head (rev t ++ [c]) x (r ++ [c])).
Qed.

(** Without a title [handleEvaluate] only raises a toast. *)
Lemma handleEvaluate_without_title (env : submission) (st : page) :
  jobTitle st = [] ->
  fst (handleEvaluate env st) = st
  /\ Forall (fun e => is_request e = false) (snd (handleEvaluate env st)).
Proof.
  intros H. unfold handleEvaluate.
  destruct (isAuthenticated st); simpl; [| split; repeat constructor].
  destruct (cvFile st); [| split; repeat constructor].
  destruct (projectFile st); [| split; repeat constructor].
  rewrite H. simpl. split; repeat constructor.
Qed.

(** X19.  With no job selected the override is the title, and it counts
    only for what [trim] leaves of it: an override of white space alone
    starts nothing, no request is sent and the state stays; and a
    [job_title] that is submitted is never empty and neither starts nor
    ends with white space. *)
Theorem override_title_is_trimmed
    (env : submission) (st : page) (members : list (string * jsval)) :
  truthy_id (selectedJobId st) = false ->
  (forallb is_whitespace (customJobTitle st) = true ->
   fst (handleEvaluate env st) = st
   /\ Forall (fun e => is_request e = false) (snd (handleEvaluate env st)))
  /\ (In (post evaluate_url (Json members)) (snd (handleEvaluate env st)) ->
      exists c t,
        member_value "job_title" members = Some (JString (c :: t))
        /\ c :: t = trim (customJobTitle st)
        /\ is_whitespace c = false
        /\ is_whitespace (List.last (c :: t) c) = false).
Proof.
  intros Hsel.
  assert (Htitle : jobTitle st = trim (customJobTitle st))
    by (apply jobTitle_cases; now left).
  split.
  - intros Hblank. apply handleEvaluate_without_title. rewrite Htitle.
    unfold trim. now rewrite (trimStart_blank _ Hblank).
  - intros Hin.
    destruct (handleEvaluate_posts env st _ Hin)
      as (u & _ & _ & _ & _ & _ & _ & Htruthy & Eb).
    unfold evaluate_body in Eb. injection Eb as ->.
    cbn [member_value String.eqb Ascii.eqb Bool.eqb].
    rewrite Htitle in *.
    destruct (trim_edges (customJobTitle st)) as [E | (c & t & E & Hc & Hl)].
    + rewrite E in Htruthy. discriminate.
    + exists c, t. now rewrite E.
Qed.

Lemma override_title_is_trimmed_witness :
  fst (handleEvaluate Samples.accepted Samples.blank_override)
  = Samples.blank_override.
Proof.
  apply (proj1 (override_title_is_trimmed Samples.accepted
                  Samples.blank_override [] eq_refl)).
  reflexivity.
Defined.

(** *** Failures on the way *)

Lemma pollResult_gets (jobId : jsstring) (authenticated : bool)
    (ticks : list tick) (st : page) (u : jsstring) :
  In (get u) (snd (pollResult jobId authenticated ticks st)) ->
  u = result_url jobId \/ u = lit "/applications/".
Proof.
  revert st. induction ticks as [| i ticks IH]; intros st; simpl; [tauto |].
  assert (Hpoll : In (get u) (snd (fst (poll jobId authenticated i st))) ->
                  u = result_url jobId \/ u = lit "/applications/").
  { unfold poll, fetchApplications.
    destruct (result_reply i) as [data |]; simpl.
    - destruct (terminal (status data)); simpl.
      + destruct authenticated; simpl; [destruct (applications_reply i) |];
          simpl; destruct (status data); simpl;
          try (destruct (error data) as [| | e];
               [| | destruct (truthy_string e)]); simpl;
          intuition (try discriminate; congruence).
      + intuition (try discriminate; congruence).
    - intuition (try discriminate; congruence). }
  destruct (poll jobId authenticated i st) as [[st1 done] again]. simpl in Hpoll.
  destruct again; simpl; [| exact Hpoll].
  specialize (IH st1). destruct (pollResult jobId authenticated ticks st1).
  simpl in *. rewrite in_app_iff. tauto.
Qed.

(** A guard that fails sends nothing and starts nothing. *)
Ltac stopped_at_guard :=
  cbn [fst snd];
  split; [reflexivity |]; split; [reflexivity |];
  split; [intros u [H | []]; discriminate |];
  split; [repeat constructor |];
  split; [intros _ b [H | []]; discriminate |];
  intros [b [H | []]]; discriminate.

(** X20.  An evaluation that cannot be started leaves no trace of itself:
    when the upload or the submission is rejected, no status or
    applications request is made, the evaluation status shown before and
    the applications list stay, and, if the click got as far as the
    upload, the evaluating flag is off again and the "Failed to start
    evaluation." toast is raised.  After a rejected upload nothing is sent
    to the evaluation endpoint. *)
Theorem failed_start_leaves_status
    (env : submission) (st : page) :
  upload_reply env = Rejected \/ evaluate_reply env = Rejected ->
  let out := handleEvaluate env st in
  evaluationStatus (fst out) = evaluationStatus st
  /\ applications (fst out) = applications st
  /\ (forall u, ~ In (get u) (snd out))
  /\ Forall (fun e => is_timer e = false) (snd out)
  /\ (upload_reply env = Rejected ->
      forall b, ~ In (post evaluate_url b) (snd out))
  /\ ((exists b, In (post upload_url b) (snd out)) ->
      isEvaluating (fst out) = false
      /\ In (toast toast_error (lit "Failed to start evaluation.")) (snd out)).
Proof.
  intros Hrej out. subst out. unfold handleEvaluate.
  destruct (isAuthenticated st); cbn [negb];
[| stopped_at_guard].
  destruct (cvFile st) as [cv |];
[| stopped_at_guard].
  destruct (projectFile st) as [project |];
[| stopped_at_guard].
  destruct (truthy_string (jobTitle st)); cbn [negb];
[| stopped_at_guard].
  assert (Hreset : exists st1 cleared,
    resetPolling (setIsEvaluating true st) = (st1, cleared)
    /\ evaluationStatus st1 = evaluationStatus st
    /\ applications st1 = applications st
    /\ (cleared = [] \/ exists h, cleared = [clearTimeout h])).
  { unfold resetPolling. destruct (pollRef (setIsEvaluating true st)) as [h |].
    - destruct (truthy_id (Some h)); do 2 eexists;
        (split; [reflexivity |]); repeat split; eauto.
    - do 2 eexists. split; [reflexivity |]. repeat split; eauto. }
  destruct Hreset as (st1 & cleared & -> & Hes & Hap & Hcl).
  assert (Hget : forall u later,
    ~ In (get u) later -> ~ In (get u) (cleared ++ later)).
  { intros u later Hl Hin. apply in_app_or in Hin as [Hin | Hin].
    - destruct Hcl as [-> | [h ->]]; simpl in Hin; intuition discriminate.
    - contradiction. }
  assert (Htimer : forall later, Forall (fun e => is_timer e = false) later ->
                   Forall (fun e => is_timer e = false) (cleared ++ later)).
  { intros later Hl. apply Forall_app. split; [| exact Hl].
    destruct Hcl as [-> | [h ->]]; repeat constructor. }
  destruct (upload_reply env) as [uploaded |].
  - destruct Hrej as [Hrej | Hrej]; [discriminate |]. rewrite Hrej.
    cbn [fst snd]. split; [exact Hes |]. split; [exact Hap |].
    split; [| split; [| split]].
    + intros u. apply Hget. simpl. intuition discriminate.
    + apply Htimer. repeat constructor.
    + discriminate.
    + intros _. split; [reflexivity |].
      apply in_or_app. right. simpl. tauto.
  - cbn [fst snd]. split; [exact Hes |]. split; [exact Hap |].
    split; [| split; [| split]].
    + intros u. apply Hget. simpl. intuition discriminate.
    + apply Htimer. repeat constructor.
    + intros _ b Hin. apply in_app_or in Hin as [Hin | Hin].
      * destruct Hcl as [-> | [h ->]]; simpl in Hin; intuition discriminate.
      * simpl in Hin. intuition discriminate.
    + intros _. split; [reflexivity |].
      apply in_or_app. right. simpl. tauto.
Qed.

Lemma failed_start_leaves_status_witness :
  isEvaluating (fst (handleEvaluate Samples.upload_refused Samples.ready))
  = false
  /\ In (toast toast_error (lit "Failed to start evaluation."))
        (snd (handleEvaluate Samples.upload_refused Samples.ready)).
Proof.
  apply (failed_start_leaves_status Samples.upload_refused Samples.ready).
  - left. reflexivity.
  - eexists. vm_compute. tauto.
Defined.

(** X21.  A status request that is rejected ends the polling: after any
    number of polls that found the job running, the rejected one raises the
    "Failed to poll evaluation result." toast, sets no timer and clears the
    evaluating flag, and whatever replies would follow are never asked for.
    The card keeps the last status polled, the applications list is not
    refreshed, and the timer reference keeps the handle of the timer that
    just fired. *)
Theorem rejected_poll_stops_polling
    (jobId : jsstring) (authenticated : bool) (pre : list tick) (bad : tick)
    (rest : list tick) (st : page) :
  forallb still_running pre = true ->
  result_reply bad = Rejected ->
  let rounds :=
    concat (map (fun _ => [get (result_url jobId);
                           setTimeout (Poll jobId) 4000]) pre) in
  let before := fst (pollResult jobId authenticated pre st) in
  let out := pollResult jobId authenticated (pre ++ bad :: rest) st in
  snd out
  = rounds ++ [ get (result_url jobId); console_error;
                toast toast_error (lit "Failed to poll evaluation result.") ]
  /\ out = pollResult jobId authenticated (pre ++ [bad]) st
  /\ isEvaluating (fst out) = false
  /\ evaluationStatus (fst out) = evaluationStatus before
  /\ pollRef (fst out) = pollRef before
  /\ applications (fst out) = applications st.
Proof.
  intros Hpre Hbad rounds before out.
  destruct (pollResult_running jobId authenticated pre st Hpre)
    as (st' & Happ & Erun).
  assert (Ebefore : before = st').
  { unfold before. specialize (Erun []). rewrite app_nil_r in Erun.
    now rewrite Erun. }
  assert (Hone : forall ticks,
    pollResult jobId authenticated (bad :: ticks) st'
    = (setIsEvaluating false st',
       [ get (result_url jobId); console_error;
         toast toast_error (lit "Failed to poll evaluation result.") ])).
  { intros ticks. simpl. unfold poll. now rewrite Hbad. }
  subst out. rewrite !Erun, !Hone, Ebefore. cbn [fst snd].
  repeat split. exact Happ.
Qed.

Lemma rejected_poll_stops_polling_witness :
  isEvaluating
    (fst (pollResult (lit "job-1") true
            (Samples.watching ++ Samples.unreachable :: Samples.afterwards)
            Samples.ready)) = false.
Proof.
  apply (rejected_poll_stops_polling (lit "job-1") true Samples.watching
           Samples.unreachable Samples.afterwards Samples.ready);
    reflexivity.
Defined.

(** X22.  One click polls one job: every GET request in the trace of
    [handleEvaluate] is either the status request for the id that the
    submission reply carries or the refresh of the applications list, and
    there is none unless both the upload and the submission resolved. *)
Theorem handleEvaluate_polls_submitted_job
    (env : submission) (st : page) (u : jsstring) :
  In (get u) (snd (handleEvaluate env st)) ->
  exists uploaded data,
    upload_reply env = Resolved uploaded
    /\ evaluate_reply env = Resolved data
    /\ (u = result_url (eval_id data) \/ u = lit "/applications/").
Proof.
  unfold handleEvaluate.
  destruct (isAuthenticated st); cbn [negb];
    [| intros [H | []]; discriminate].
  destruct (cvFile st) as [cv |]; [| intros [H | []]; discriminate].
  destruct (projectFile st) as [project |]; [| intros [H | []]; discriminate].
  destruct (truthy_string (jobTitle st)); cbn [negb];
    [| intros [H | []]; discriminate].
  destruct (resetPolling (setIsEvaluating true st)) as [st1 cleared] eqn:Ereset.
  assert (Hcleared : ~ In (get u) cleared).
  { pose proof (resetPolling_effects (setIsEvaluating true st)) as [H _].
    rewrite Ereset in H. simpl in H. rewrite List.Forall_forall in H.
    intros Hin. now specialize (H _ Hin). }
  destruct (upload_reply env) as [uploaded |].
  - destruct (evaluate_reply env) as [data |].
    + destruct (pollResult _ _ _ _) as [st3 polled] eqn:Epoll.
      cbn [snd]. intros Hin. exists uploaded, data.
      split; [reflexivity |]. split; [reflexivity |].
      apply in_app_or in Hin as [Hin | Hin]; [contradiction |].
      apply in_app_or in Hin as [Hin | Hin];
        [simpl in Hin; intuition discriminate |].
      apply (pollResult_gets (eval_id data) true (ticks env)
               (setEvaluationStatus (Some data) st1)).
      now rewrite Epoll.
    + cbn [snd]. intros Hin. exfalso.
      apply in_app_or in Hin as [Hin | Hin]; [contradiction |].
      simpl in Hin. intuition discriminate.
  - cbn [snd]. intros Hin. exfalso.
    apply in_app_or in Hin as [Hin | Hin]; [contradiction |].
    simpl in Hin. intuition discriminate.
Qed.

Lemma handleEvaluate_polls_submitted_job_witness :
  exists uploaded data,
    upload_reply Samples.accepted = Resolved uploaded
    /\ evaluate_reply Samples.accepted = Resolved data
    /\ (result_url (lit "job-1") = result_url (eval_id data)
        \/ result_url (lit "job-1") = lit "/applications/").
Proof.
  apply (handleEvaluate_polls_submitted_job Samples.accepted Samples.ready
           (result_url (lit "job-1"))).
  vm_compute. tauto.
Defined.

(** X23.  For the toast the status decides first: a poll that finds the job
    completed raises the "Evaluation completed." toast and never the error
    string of the payload, polling stops and the evaluating flag is off.
    The card does not look at the status: it shows the result body when
    the payload has a result and the error paragraph when the payload has a
    non-empty error string, also for a completed job. *)
Theorem completed_wins_the_toast
    (jobId : jsstring) (authenticated : bool) (i : tick) (st : page)
    (data : EvaluationStatus) :
  result_reply i = Resolved data ->
  status data = completed ->
  let out := poll jobId authenticated i st in
  let trace := snd (fst out) in
  snd out = false
  /\ isEvaluating (fst (fst out)) = false
  /\ In (toast toast_success (lit "Evaluation completed.")) trace
  /\ (forall l m, In (toast l m) trace ->
      (l = toast_success /\ m = lit "Evaluation completed.")
      \/ (authenticated = true /\ applications_reply i = Rejected
          /\ l = toast_error /\ m = lit "Failed to load applications."))
  /\ (forall r, result data = Def r ->
      option_map (fun c => option_map cv_match (result_body c))
        (evaluation_card (fst (fst out)))
      = Some (Some (formatMatchRate (Def (cv_match_rate r)))))
  /\ (forall e, error data = Def e -> e <> [] ->
      option_map error_paragraph (evaluation_card (fst (fst out)))
      = Some (Some e)).
Proof.
  intros Hr Hs out trace.
  assert (Ht : terminal (status data) = true) by now rewrite Hs.
  pose proof (poll_terminal jobId authenticated i st data Hr Ht) as E.
  simpl in E. rewrite Hs in E.
  set (fetched := fetchApplications authenticated (applications_reply i)
                    (setIsEvaluating false
                       (setEvaluationStatus (Some data) st))) in *.
  destruct (fetchApplications_trace authenticated (applications_reply i)
              (setIsEvaluating false (setEvaluationStatus (Some data) st))
              jobId) as [_ Htoast].
  fold fetched in Htoast.
  destruct (fetchApplications_state authenticated (applications_reply i)
              (setIsEvaluating false (setEvaluationStatus (Some data) st)))
    as (Hev & Hes & _ & _).
  fold fetched in Hev, Hes.
  unfold trace, out. rewrite E. cbn [fst snd].
  split; [reflexivity |]. split; [exact Hev |]. split; [| split; [| split]].
  - right. apply in_or_app. right. now left.
  - intros l m [H | H]; [discriminate |].
    apply in_app_or in H as [H | [H | []]].
    + right. now apply Htoast.
    + left. now injection H as <- <-.
  - intros r Hres. unfold evaluation_card. simpl. rewrite Hes. simpl.
    now rewrite Hres.
  - intros e He Hne. unfold evaluation_card. simpl. rewrite Hes. simpl.
    rewrite He. now destruct e.
Qed.

Lemma completed_wins_the_toast_witness :
  option_map error_paragraph
    (evaluation_card
       (fst (fst (poll (lit "job-1") true Samples.completed_with_error
                    Samples.ready))))
  = Some (Some (lit "late warning")).
Proof.
  apply (proj2 (proj2 (proj2 (proj2 (proj2
    (completed_wins_the_toast (lit "job-1") true Samples.completed_with_error
       Samples.ready
       (Samples.status_object completed (Def Samples.scored)
          (Def (lit "late warning")))
       eq_refl eq_refl))))) (lit "late warning") eq_refl).
  discriminate.
Defined.
